(** * The ODBC connection layer of Apache Ignite: [connection.cpp]

    A shallow embedding of [ignite::odbc::Connection]
    (modules/platforms/cpp/odbc/src/connection.cpp): the length-prefixed
    frame codec ([Send], [Receive]) with its retry loops ([SendAll],
    [ReceiveAll]), the connection life cycle ([InternalEstablish],
    [InternalRelease], [Close]), the handshake ([MakeRequestHandshake]) and
    the connection attributes.

    The C++ member functions mutate the connection object and report
    failures either through a result code plus a diagnostic record or by
    throwing; here every member function is a function from the connection
    state to an outcome and the new state. *)

From Equations Require Import Equations.
From Stdlib Require Import ZArith String Bool Lia.
From Stdlib Require Import Strings.Byte DecimalString.
From Stdlib Require Import List.
Import ListNotations.

Local Open Scope Z_scope.

(** ** Machine integers and bytes *)

Module Int32.

Definition modulus : Z := 2 ^ 32.
Definition max_signed : Z := 2 ^ 31 - 1.
Definition min_signed : Z := - 2 ^ 31.

(** [static_cast<int32_t>(z)]: reduction modulo [2^32] into the signed
    range. *)
Definition wrap (z : Z) : Z := (z + 2 ^ 31) mod modulus - 2 ^ 31.

Definition in_range (z : Z) : Prop := min_signed <= z <= max_signed.

End Int32.

(** [int8_t] cells of a buffer are kept as [byte]s. *)
Definition byte_of_Z (z : Z) : byte :=
  match Byte.of_N (Z.to_N (z mod 256)) with
  | Some b => b
  | None => x00
  end.

Definition Z_of_byte (b : byte) : Z := Z.of_N (Byte.to_N b).

(** ** The frame header

    [OdbcProtocolHeader] is a packed struct holding one [int32_t]; [Send]
    and [Receive] reinterpret its four bytes in place, so the wire image of
    the header is the integer in the byte order of the machine. *)

Inductive ByteOrder := LittleEndian | BigEndian.

Definition sizeof_OdbcProtocolHeader : Z := 4.

Definition int32_bytes_le (z : Z) : list byte :=
  [ byte_of_Z z; byte_of_Z (Z.shiftr z 8);
    byte_of_Z (Z.shiftr z 16); byte_of_Z (Z.shiftr z 24) ].

Definition store_int32 (order : ByteOrder) (z : Z) : list byte :=
  match order with
  | LittleEndian => int32_bytes_le z
  | BigEndian => rev (int32_bytes_le z)
  end.

Fixpoint unsigned_le (bs : list byte) : Z :=
  match bs with
  | [] => 0
  | b :: rest => Z_of_byte b + 256 * unsigned_le rest
  end.

Definition load_int32 (order : ByteOrder) (bs : list byte) : Z :=
  Int32.wrap (unsigned_le (match order with
                           | LittleEndian => bs
                           | BigEndian => rev bs
                           end)).

(** ** Buffers *)

(** [memcpy(dst + off, src, length src)] on a buffer [dst]; the embedding
    keeps the size of [dst] and drops what would fall behind its end (the
    callers below never write there). *)
Definition write_bytes (off : nat) (src dst : list byte) : list byte :=
  firstn off dst
    ++ firstn (length dst - off) src
    ++ skipn (off + length src) dst.

(** [std::vector<int8_t>::resize(n)]: truncation, or extension by zero
    bytes. *)
Definition vector_resize (v : list byte) (n : nat) : list byte :=
  firstn n v ++ repeat x00 (n - length v).

(** Modelled from the spec: [common::FixedSizeArray] is declared outside
    this file; section 4.2 has [Send] build "a buffer of
    [sizeof(int32) + len(payload)] bytes".  [raw_storage n] is storage of
    [n] bytes before it is filled, for [FixedSizeArray<int8_t> msg(n)] and
    for a local [OdbcProtocolHeader]. *)
Definition raw_storage (n : nat) : list byte := repeat x00 n.

(** ** The transport socket *)

(** Modelled from the spec: [system::TcpSocketClient] is declared outside
    this file; section 6 gives its interface as
    [connect(host, port) -> bool],
    [send(buffer) -> bytesSentOrNegativeOnError],
    [receive(buffer) -> bytesReceivedOrNegativeOnError] and [close()], a
    blocking byte stream with partial transfers.

    The stream is [incoming] (bytes of the peer not read yet) and
    [outgoing] (bytes the socket accepted, in order).  How the network
    treats each call is the socket's plan: the head of [sendPlan],
    [recvPlan] or [connectPlan] is the raw outcome of the next call, a
    number that is zero or negative for a failure and otherwise the
    largest number of bytes that call transfers.  A call never transfers
    more than it was asked for nor more than the stream holds; once a plan
    is used up the socket transfers what it is asked for. *)
Record TcpSocketClient := mkSocket {
  connectPlan : list bool;
  sendPlan : list Z;
  recvPlan : list Z;
  incoming : list byte;
  outgoing : list byte;
  isOpen : bool
}.

Definition socket_Connect (s : TcpSocketClient) (host : string) (port : Z)
  : bool * TcpSocketClient :=
  match connectPlan s with
  | [] => (true, mkSocket [] (sendPlan s) (recvPlan s)
                          (incoming s) (outgoing s) true)
  | ok :: plan => (ok, mkSocket plan (sendPlan s) (recvPlan s)
                                (incoming s) (outgoing s) ok)
  end.

Definition socket_Close (s : TcpSocketClient) : TcpSocketClient :=
  mkSocket (connectPlan s) (sendPlan s) (recvPlan s)
           (incoming s) (outgoing s) false.

Definition socket_Send (s : TcpSocketClient) (buf : list byte)
  : Z * TcpSocketClient :=
  let r := hd (Z.of_nat (length buf)) (sendPlan s) in
  let plan := tl (sendPlan s) in
  if r <=? 0 then
    (r, mkSocket (connectPlan s) plan (recvPlan s)
                 (incoming s) (outgoing s) (isOpen s))
  else
    let n := Z.min r (Z.of_nat (length buf)) in
    (n, mkSocket (connectPlan s) plan (recvPlan s) (incoming s)
                 (outgoing s ++ firstn (Z.to_nat n) buf) (isOpen s)).

Definition socket_Receive (s : TcpSocketClient) (size : nat)
  : Z * list byte * TcpSocketClient :=
  let r := hd (Z.of_nat size) (recvPlan s) in
  let plan := tl (recvPlan s) in
  if r <=? 0 then
    (r, [], mkSocket (connectPlan s) (sendPlan s) plan
                     (incoming s) (outgoing s) (isOpen s))
  else
    let n := Z.min r (Z.min (Z.of_nat size) (Z.of_nat (length (incoming s)))) in
    (n, firstn (Z.to_nat n) (incoming s),
     mkSocket (connectPlan s) (sendPlan s) plan
              (skipn (Z.to_nat n) (incoming s)) (outgoing s) (isOpen s)).

(** ** Result codes, SQL states, errors and diagnostics *)

(** [SqlResult::Type], declared outside this file: the tri-state result
    of the internal operations (section 4.1: [Success],
    [SuccessWithInfo], [Error]). *)
Inductive SqlResult := AI_SUCCESS | AI_SUCCESS_WITH_INFO | AI_ERROR.

(** The members of [SqlState::Type] that this file names. *)
Inductive SqlState :=
| S01S00_INVALID_CONNECTION_STRING_ATTRIBUTE
| S08001_CANNOT_CONNECT
| S08002_ALREADY_CONNECTED
| S08003_NOT_CONNECTED
| S08004_CONNECTION_REJECTED
| S08S01_LINK_FAILURE
| SHY000_GENERAL_ERROR
| SHY001_MEMORY_ALLOCATION
| SHY092_OPTION_TYPE_OUT_OF_RANGE
| SHYC00_OPTIONAL_FEATURE_NOT_IMPLEMENTED.

(** [OdbcError] and [IgniteError], declared outside this file, by the
    accessors the connection calls on them. *)
Record OdbcError := mkOdbcError {
  GetStatus : SqlState;
  GetErrorMessage : string
}.

Record IgniteError := mkIgniteError { GetText : string }.

(** What a member function can throw. *)
Inductive Exn :=
| ThrowOdbc (e : OdbcError)
| ThrowIgnite (e : IgniteError).

(** [diagnostic::DiagnosticRecord], by the arguments
    [CreateStatusRecord] constructs it from. *)
Record DiagnosticRecord := mkDiagnosticRecord {
  sqlState : SqlState;
  message : string;
  connectionName : string;
  serverName : string;
  rowNum : Z;
  columnNum : Z
}.

(** [Connection::CreateStatusRecord]. *)
Definition CreateStatusRecord (state : SqlState) (msg : string)
           (row col : Z) : DiagnosticRecord :=
  mkDiagnosticRecord state msg "" "" row col.

(** The constants of the ODBC headers ([sqlext.h]) that the attribute
    functions use. *)
Definition SQL_ATTR_CONNECTION_DEAD : Z := 1209.
Definition SQL_CD_TRUE : Z := 1.
Definition SQL_CD_FALSE : Z := 0.
Definition SQL_IS_INTEGER : Z := -6.

(** [t] occurs in [s]. *)
Definition Contains (t s : string) : Prop :=
  exists pre post : string, s = (pre ++ t ++ post)%string.

(** ** What the connection takes from outside this file

    The byte order of the machine, and [ProtocolVersion] with its
    [IsSupported] and [ToString], which is declared in another file. *)
Class Driver := {
  native : ByteOrder;
  ProtocolVersion : Type;
  IsSupported : ProtocolVersion -> bool;
  ToString : ProtocolVersion -> string
}.

Section Model.

Context {D : Driver}.

(** Modelled from the spec: [config::Configuration] is declared outside
    this file; section 3 gives it as an "immutable snapshot of connection
    parameters (host, port, schema, distributed-join flags, lazy-query
    flag, etc.)", and section 4.3 has the negotiation parameters read
    from it with "any error reading configuration (e.g., malformed
    value)" caught.  A configuration is what its accessors give; those of
    the negotiation parameters give a value or throw [IgniteError]. *)
Record Configuration := mkConfiguration {
  GetHost : string;
  GetTcpPort : Z;
  GetSchema : string;
  GetProtocolVersion : IgniteError + ProtocolVersion;
  IsDistributedJoins : IgniteError + bool;
  IsEnforceJoinOrder : IgniteError + bool;
  IsReplicatedOnly : IgniteError + bool;
  IsCollocated : IgniteError + bool;
  IsLazy : IgniteError + bool
}.

(** Modelled from the spec: [HandshakeRequest] and [HandshakeResponse]
    are declared outside this file; section 6: the "request carries
    [{protocolVersion, distributedJoins, enforceJoinOrder, replicatedOnly,
    collocated, lazy}]; response carries [{accepted: bool, errorText:
    string, serverVersion}]". *)
Record HandshakeRequest := mkHandshakeRequest {
  req_version : ProtocolVersion;
  req_distributedJoins : bool;
  req_enforceJoinOrder : bool;
  req_replicatedOnly : bool;
  req_collocated : bool;
  req_lazy : bool
}.

Record HandshakeResponse := mkHandshakeResponse {
  IsAccepted : bool;
  GetCurrentVer : ProtocolVersion;
  GetError : string
}.

(** [Parser], declared outside this file: the protocol version it
    encodes and decodes with. *)
Record Parser := mkParser { protocolVer : ProtocolVersion }.

Definition SetProtocolVersion (p : Parser) (v : ProtocolVersion) : Parser :=
  mkParser v.

(** [parser.Encode(req, buf)] and [parser.Decode(rsp, buf)] for the
    handshake messages, whose code is outside this file; [Decode] gives
    the response or throws [IgniteError] on a body it cannot read. *)
Class Codec := {
  Encode : Parser -> HandshakeRequest -> list byte;
  Decode : Parser -> list byte -> IgniteError + HandshakeResponse
}.

Context {P : Codec}.

(** The members of [Connection], with the diagnostic records of its
    [Diagnosable] base. *)
Record Connection := mkConnection {
  socket : TcpSocketClient;
  connected : bool;
  parser : Parser;
  config : Configuration;
  diagnosticRecords : list DiagnosticRecord
}.

Definition set_socket (c : Connection) (s : TcpSocketClient) : Connection :=
  mkConnection s (connected c) (parser c) (config c) (diagnosticRecords c).

Definition set_connected (c : Connection) (b : bool) : Connection :=
  mkConnection (socket c) b (parser c) (config c) (diagnosticRecords c).

Definition set_parser (c : Connection) (p : Parser) : Connection :=
  mkConnection (socket c) (connected c) p (config c) (diagnosticRecords c).

Definition set_config (c : Connection) (cfg : Configuration) : Connection :=
  mkConnection (socket c) (connected c) (parser c) cfg (diagnosticRecords c).

(** Modelled from the spec: [Diagnosable::AddStatusRecord] is declared
    outside this file; section 3 gives the diagnostics as an "ordered
    sequence of status records, append-only during an operation".  The
    record added is the one [CreateStatusRecord] makes, with no row and
    no column. *)
Definition AddStatusRecord (state : SqlState) (msg : string)
           (c : Connection) : Connection :=
  mkConnection (socket c) (connected c) (parser c) (config c)
               (diagnosticRecords c ++ [CreateStatusRecord state msg 0 0]).

(** [AddStatusRecord(const OdbcError&)]. *)
Definition AddStatusRecord_err (e : OdbcError) (c : Connection) : Connection :=
  AddStatusRecord (GetStatus e) (GetErrorMessage e) c.

(** *** Member functions as state transformers that may throw *)

Definition M (A : Type) : Type := Connection -> (Exn + A) * Connection.

Definition ret {A} (a : A) : M A := fun c => (inr a, c).

Definition bind {A B} (m : M A) (k : A -> M B) : M B :=
  fun c => match m c with
           | (inl e, c') => (inl e, c')
           | (inr a, c') => k a c'
           end.

Definition throw {A} (e : Exn) : M A := fun c => (inl e, c).

(** [try { m } catch (...)], the exception handed to the continuation. *)
Definition try_ {A} (m : M A) : M (Exn + A) :=
  fun c => let '(r, c') := m c in (inr r, c').

Definition gets {A} (f : Connection -> A) : M A := fun c => (inr (f c), c).

Definition modify (f : Connection -> Connection) : M unit :=
  fun c => (inr tt, f c).

(** A call of a member function that does not throw. *)
Definition call {A} (f : Connection -> A * Connection) : M A :=
  fun c => let '(a, c') := f c in (inr a, c').

(** An accessor of the configuration that may throw [IgniteError]. *)
Definition read_config {A} (get : Configuration -> IgniteError + A) : M A :=
  fun c => match get (config c) with
           | inl e => (inl (ThrowIgnite e), c)
           | inr a => (inr a, c)
           end.

Definition when_ (b : bool) (m : M unit) : M unit :=
  if b then m else ret tt.

Notation "x <- m ;; k" := (bind m (fun x => k))
  (at level 61, m at next level, right associativity).
Notation "m ;;; k" := (bind m (fun _ => k))
  (at level 61, right associativity).

Definition throw_odbc {A} (state : SqlState) (msg : string) : M A :=
  throw (ThrowOdbc (mkOdbcError state msg)).

(** *** [Connection::Close] *)

Definition Close (c : Connection) : Connection :=
  mkConnection (socket_Close (socket c)) false (parser c) (config c)
               (diagnosticRecords c).

(** *** [Connection::SendAll]

    [sent] counts the bytes accepted so far; the loop runs while
    [sent != len], each round handing the rest of the buffer to the
    socket. *)
Equations? SendAll_loop (data : list byte) (sent : nat) (c : Connection)
  : nat * Connection by wf (length data - sent)%nat lt :=
  SendAll_loop data sent c with Nat.eq_dec sent (length data) => {
    | left _ => (sent, c)
    | right Hne with Equations.Prop.Logic.inspect (socket_Send (socket c) (skipn sent data)) => {
      | exist _ (res, sock) Hcall with Z_le_gt_dec res 0 => {
        | left _ => (sent, Close (set_socket c sock))
        | right Hpos =>
            SendAll_loop data (sent + Z.to_nat res)%nat (set_socket c sock) } } }.
Proof.
  unfold socket_Send in Hcall.
  destruct (hd (Z.of_nat (length (skipn sent data))) (sendPlan (socket c))
            <=? 0) eqn:E; inversion Hcall; subst res.
  - apply Z.leb_le in E. lia.
  - rewrite length_skipn in *. lia.
Qed.

Definition SendAll (data : list byte) (c : Connection) : nat * Connection :=
  SendAll_loop data 0 c.

(** *** [Connection::ReceiveAll]

    [dst] is the buffer behind the pointer; the result carries the count
    returned and the buffer as the loop leaves it. *)
Equations? ReceiveAll_loop (len remain : nat) (buffer : list byte)
           (c : Connection)
  : nat * list byte * Connection by wf remain lt :=
  ReceiveAll_loop len 0 buffer c => (len, buffer, c);
  ReceiveAll_loop len (S r) buffer c
    with socket_Receive (socket c) (S r) => {
      | (res, data, sock) with Z_le_gt_dec res 0 => {
        | left _ => ((len - S r)%nat, buffer, Close (set_socket c sock))
        | right Hpos =>
            ReceiveAll_loop len (S r - Z.to_nat res)%nat
                            (write_bytes (len - S r) data buffer)
                            (set_socket c sock) } }.
Proof. destruct (Z.to_nat res) eqn:E; lia. Qed.

Definition ReceiveAll (dst : list byte) (len : nat) (c : Connection)
  : nat * list byte * Connection :=
  ReceiveAll_loop len len dst c.

(** *** [Connection::Send] *)

(** The buffer [msg] that [Send] fills: [newLen] bytes of storage, the
    header written at its start and the payload copied behind it.  The
    sizes are [int32_t] in the source.  For a payload with
    [len + sizeof(OdbcProtocolHeader)] above [INT32_MAX] the size wraps,
    and the C++ code asks for storage of a negative size or copies behind
    the storage it got; the embedding has no storage for what does not
    fit, so that [Send] does not return normally there. *)
Definition Send_buffer (data : list byte) : list byte :=
  let len := Z.of_nat (length data) in
  let newLen := Int32.wrap (len + sizeof_OdbcProtocolHeader) in
  let msg := raw_storage (Z.to_nat newLen) in
  let msg := write_bytes 0 (store_int32 native (Int32.wrap len)) msg in
  write_bytes (Z.to_nat sizeof_OdbcProtocolHeader) data msg.

Definition Send (data : list byte) : M unit :=
  isConnected <- gets connected ;;
  when_ (negb isConnected)
        (throw_odbc S08003_NOT_CONNECTED "Connection is not established") ;;;
  let msg := Send_buffer data in
  sent <- call (SendAll msg) ;;
  when_ (negb (Z.of_nat sent
               =? Z.of_nat (length data) + sizeof_OdbcProtocolHeader))
        (throw_odbc S08S01_LINK_FAILURE
                    "Can not send message due to connection failure") ;;;
  ret tt.

(** *** [Connection::Receive]

    [msg] is the caller's vector: the function gets its contents and
    returns what it holds when the function returns or throws. *)
Definition Receive (msg : list byte) (c : Connection)
  : (Exn + unit) * list byte * Connection :=
  if negb (connected c) then
    (inl (ThrowOdbc (mkOdbcError S08003_NOT_CONNECTED
                                 "Connection is not established")), msg, c)
  else
    let msg := @nil byte in
    let hdr := raw_storage (Z.to_nat sizeof_OdbcProtocolHeader) in
    let '(received, hdr, c) :=
      ReceiveAll hdr (Z.to_nat sizeof_OdbcProtocolHeader) c in
    if negb (Z.of_nat received =? sizeof_OdbcProtocolHeader) then
      (inl (ThrowOdbc (mkOdbcError S08S01_LINK_FAILURE
                                   "Can not receive message header")), msg, c)
    else
      let hdr_len := load_int32 native hdr in
      if hdr_len <? 0 then
        (inl (ThrowOdbc (mkOdbcError
                           S08S01_LINK_FAILURE
                           "Protocol error: Message length is negative")),
         msg, Close c)
      else if hdr_len =? 0 then (inr tt, msg, c)
      else
        let msg := vector_resize msg (Z.to_nat hdr_len) in
        let '(received, msg, c) := ReceiveAll msg (Z.to_nat hdr_len) c in
        if negb (Z.of_nat received =? hdr_len) then
          (inl (ThrowOdbc (mkOdbcError S08S01_LINK_FAILURE
                                       "Can not receive message body")),
           vector_resize msg received, c)
        else (inr tt, msg, c).

(** [Receive] on a vector the caller owns for the length of one call: the
    vector is returned when the call does not throw. *)
Definition Receive_into (msg : list byte) : M (list byte) :=
  fun c => let '(r, msg', c') := Receive msg c in
           match r with
           | inl e => (inl e, c')
           | inr _ => (inr msg', c')
           end.

(** Modelled from the spec: [Connection::SyncMessage] is a template of
    the class declaration, outside this file; section 6 gives it as "send
    one frame, receive one frame, both through the active protocol
    version's codec". *)
Definition SyncMessage (req : HandshakeRequest) : M HandshakeResponse :=
  p <- gets parser ;;
  let tempBuffer := Encode p req in
  Send tempBuffer ;;;
  tempBuffer <- Receive_into tempBuffer ;;
  match Decode p tempBuffer with
  | inl e => throw (ThrowIgnite e)
  | inr rsp => ret rsp
  end.

(** *** [Connection::MakeRequestHandshake] *)

Definition string_empty (s : string) : bool :=
  match s with EmptyString => true | _ => false end.

(** The text the [std::stringstream] of the rejection branch holds. *)
Definition rejection_message (rsp : HandshakeResponse)
           (driverVersion : ProtocolVersion) : string :=
  let constructor := "Node rejected handshake message. "%string in
  let constructor :=
    if negb (string_empty (GetError rsp))
    then (constructor ++ "Additional info: " ++ GetError rsp ++ " ")%string
    else constructor in
  (constructor ++ "Current node Apache Ignite version: "
     ++ ToString (GetCurrentVer rsp) ++ ", "
     ++ "driver protocol version introduced in version: "
     ++ ToString driverVersion ++ ".")%string.

Definition MakeRequestHandshake : M SqlResult :=
  params <- try_ (protocolVersion <- read_config GetProtocolVersion ;;
                  distributedJoins <- read_config IsDistributedJoins ;;
                  enforceJoinOrder <- read_config IsEnforceJoinOrder ;;
                  replicatedOnly <- read_config IsReplicatedOnly ;;
                  collocated <- read_config IsCollocated ;;
                  lazy <- read_config IsLazy ;;
                  ret (mkHandshakeRequest protocolVersion distributedJoins
                                          enforceJoinOrder replicatedOnly
                                          collocated lazy)) ;;
  match params with
  | inl (ThrowIgnite err) =>
      modify (AddStatusRecord S01S00_INVALID_CONNECTION_STRING_ATTRIBUTE
                              (GetText err)) ;;;
      ret AI_ERROR
  | inl other => throw other
  | inr req =>
      let protocolVersion := req_version req in
      if negb (IsSupported protocolVersion) then
        modify (AddStatusRecord
                  S01S00_INVALID_CONNECTION_STRING_ATTRIBUTE
                  ("Protocol version is not supported: "
                     ++ ToString protocolVersion)%string) ;;;
        ret AI_ERROR
      else
        answer <- try_ (SyncMessage req) ;;
        match answer with
        | inl (ThrowOdbc err) =>
            modify (AddStatusRecord_err err) ;;; ret AI_ERROR
        | inl (ThrowIgnite err) =>
            modify (AddStatusRecord S08004_CONNECTION_REJECTED
                                    (GetText err)) ;;;
            ret AI_ERROR
        | inr rsp =>
            if negb (IsAccepted rsp) then
              driverVersion <- read_config GetProtocolVersion ;;
              modify (AddStatusRecord S08004_CONNECTION_REJECTED
                                      (rejection_message rsp driverVersion)) ;;;
              ret AI_ERROR
            else ret AI_SUCCESS
        end
  end.

(** *** [Connection::InternalEstablish(const config::Configuration)] *)

Definition SqlResult_eqb (a b : SqlResult) : bool :=
  match a, b with
  | AI_SUCCESS, AI_SUCCESS
  | AI_SUCCESS_WITH_INFO, AI_SUCCESS_WITH_INFO
  | AI_ERROR, AI_ERROR => true
  | _, _ => false
  end.

(** [connected = socket.Connect(host, port)]. *)
Definition Connect_socket (host : string) (port : Z) (c : Connection)
  : bool * Connection :=
  let '(ok, s) := socket_Connect (socket c) host port in
  (ok, set_connected (set_socket c s) ok).

Definition InternalEstablish (cfg : Configuration) : M SqlResult :=
  modify (fun c => set_config c cfg) ;;;
  isConnected <- gets connected ;;
  if isConnected then
    modify (AddStatusRecord S08002_ALREADY_CONNECTED "Already connected.") ;;;
    ret AI_ERROR
  else
    isConnected <- call (Connect_socket (GetHost cfg) (GetTcpPort cfg)) ;;
    if negb isConnected then
      modify (AddStatusRecord
                S08001_CANNOT_CONNECT
                "Failed to establish connection with the host.") ;;;
      ret AI_ERROR
    else
      res <- MakeRequestHandshake ;;
      (if SqlResult_eqb res AI_ERROR then modify Close
       else
         version <- read_config GetProtocolVersion ;;
         modify (fun c => set_parser c (SetProtocolVersion (parser c) version))) ;;;
      ret res.

(** *** [Connection::InternalRelease] *)

Definition InternalRelease : M SqlResult :=
  isConnected <- gets connected ;;
  if negb isConnected then
    modify (AddStatusRecord S08003_NOT_CONNECTED "Connection is not open.") ;;;
    ret AI_ERROR
  else
    modify Close ;;; ret AI_SUCCESS.

(** *** Connection attributes

    A pointer argument is [None] when it is null and otherwise [Some] of
    the value of the cell it points to; the functions return the cells
    with the result code. *)
Definition InternalGetAttribute (attr : Z) (buf : option Z) (bufLen : Z)
           (valueLen : option Z) (c : Connection)
  : SqlResult * option Z * option Z * Connection :=
  match buf with
  | None =>
      (AI_ERROR, buf, valueLen,
       AddStatusRecord SHY000_GENERAL_ERROR "Data buffer is NULL." c)
  | Some _ =>
      if attr =? SQL_ATTR_CONNECTION_DEAD then
        let val := if connected c then SQL_CD_FALSE else SQL_CD_TRUE in
        let valueLen := match valueLen with
                        | Some _ => Some SQL_IS_INTEGER
                        | None => None
                        end in
        (AI_SUCCESS, Some val, valueLen, c)
      else
        (AI_ERROR, buf, valueLen,
         AddStatusRecord SHYC00_OPTIONAL_FEATURE_NOT_IMPLEMENTED
                         "Specified attribute is not supported." c)
  end.

Definition InternalSetAttribute (attr : Z) (value : option Z) (valueLen : Z)
           (c : Connection) : SqlResult * Connection :=
  if attr =? SQL_ATTR_CONNECTION_DEAD then
    (AI_ERROR,
     AddStatusRecord SHY092_OPTION_TYPE_OUT_OF_RANGE "Attribute is read only." c)
  else
    (AI_ERROR,
     AddStatusRecord SHYC00_OPTIONAL_FEATURE_NOT_IMPLEMENTED
                     "Specified attribute is not supported." c).

(** *** Transactions *)

Definition InternalTransactionCommit : M SqlResult := ret AI_SUCCESS.

Definition InternalTransactionRollback : M SqlResult :=
  modify (AddStatusRecord SHYC00_OPTIONAL_FEATURE_NOT_IMPLEMENTED
                          "Rollback operation is not supported.") ;;;
  ret AI_ERROR.

(** ** The notions the properties are stated with *)

(** What a connection keeps across the transfer loops: everything but the
    socket and the [connected] flag. *)
Definition same_session (c c' : Connection) : Prop :=
  parser c' = parser c /\ config c' = config c /\
  diagnosticRecords c' = diagnosticRecords c /\
  connectPlan (socket c') = connectPlan (socket c).

Definition odbc_error (state : SqlState) (msg : string) : Exn :=
  ThrowOdbc (mkOdbcError state msg).

(** The two reads of [Receive]: the header into a local
    [OdbcProtocolHeader], the body into the resized vector. *)
Definition header_read (c : Connection) : nat * list byte * Connection :=
  ReceiveAll (raw_storage (Z.to_nat sizeof_OdbcProtocolHeader))
             (Z.to_nat sizeof_OdbcProtocolHeader) c.

Definition body_read (len : Z) (c : Connection)
  : nat * list byte * Connection :=
  ReceiveAll (vector_resize [] (Z.to_nat len)) (Z.to_nat len) c.

(** The wire image of a frame as section 6 of the specification draws it:
    [[ int32 payload_length ][ payload_length bytes ]]. *)
Definition frame_image (payload : list byte) : list byte :=
  store_int32 native (Z.of_nat (length payload)) ++ payload.

(** Every negotiation parameter of the configuration can be read. *)
Definition params_readable (cfg : Configuration) : Prop :=
  exists v dj ejo ro col lz,
    GetProtocolVersion cfg = inr v /\ IsDistributedJoins cfg = inr dj /\
    IsEnforceJoinOrder cfg = inr ejo /\ IsReplicatedOnly cfg = inr ro /\
    IsCollocated cfg = inr col /\ IsLazy cfg = inr lz.

Definition unsupported_version_message (v : ProtocolVersion) : string :=
  ("Protocol version is not supported: " ++ ToString v)%string.

(** ** More of the class *)

(** *** [Connection::Connection]

    The constructor default-constructs the socket, the parser and the
    configuration, whose classes are declared outside this file, and sets
    [connected] to false; no diagnostic record exists yet. *)
Definition Connection_new (socket0 : TcpSocketClient) (parser0 : Parser)
           (config0 : Configuration) : Connection :=
  mkConnection socket0 false parser0 config0 [].

(** *** [Connection::GetSchema] and [Connection::GetConfiguration] *)

Definition Connection_GetSchema (c : Connection) : string :=
  GetSchema (config c).

Definition Connection_GetConfiguration (c : Connection) : Configuration :=
  config c.

(** *** [Connection::InternalEstablish(const std::string&)]

    [FillFromConnectString] fills a local, default-constructed
    [Configuration] from the connection string or throws [IgniteError];
    its code is outside this file, so the function takes it as
    [fill]. *)
Definition InternalEstablish_connectStr
           (fill : string -> IgniteError + Configuration)
           (connectStr : string) : M SqlResult :=
  match fill connectStr with
  | inl e =>
      modify (AddStatusRecord SHY000_GENERAL_ERROR (GetText e)) ;;;
      ret AI_ERROR
  | inr config => InternalEstablish config
  end.

(** The first negotiation parameter whose accessor throws, in the order
    in which [MakeRequestHandshake] reads them. *)
Definition first_unreadable (cfg : Configuration) : option IgniteError :=
  match GetProtocolVersion cfg with
  | inl e => Some e
  | inr _ =>
  match IsDistributedJoins cfg with
  | inl e => Some e
  | inr _ =>
  match IsEnforceJoinOrder cfg with
  | inl e => Some e
  | inr _ =>
  match IsReplicatedOnly cfg with
  | inl e => Some e
  | inr _ =>
  match IsCollocated cfg with
  | inl e => Some e
  | inr _ =>
  match IsLazy cfg with
  | inl e => Some e
  | inr _ => None
  end end end end end end.

(** The request [MakeRequestHandshake] builds from a configuration whose
    negotiation parameters can all be read. *)
Definition handshake_request (cfg : Configuration) : option HandshakeRequest :=
  match GetProtocolVersion cfg, IsDistributedJoins cfg,
        IsEnforceJoinOrder cfg, IsReplicatedOnly cfg,
        IsCollocated cfg, IsLazy cfg with
  | inr v, inr dj, inr ejo, inr ro, inr col, inr lz =>
      Some (mkHandshakeRequest v dj ejo ro col lz)
  | _, _, _, _, _, _ => None
  end.

(** [b] is [a] with at most one record added at its end. *)
Definition one_more_record (a b : list DiagnosticRecord) : Prop :=
  exists r, b = a ++ [r].

End Model.

(** ** A driver instance

    A protocol version with three numbered components printed with dots,
    a supported set, and a small handshake codec, to run the connection
    on. *)
Record Version := mkVersion { major : nat; minor : nat; maintenance : nat }.

Definition decimal (n : nat) : string := NilEmpty.string_of_uint (Nat.to_uint n).

Definition Version_ToString (v : Version) : string :=
  (decimal (major v) ++ "." ++ decimal (minor v) ++ "."
     ++ decimal (maintenance v))%string.

Definition Version_eqb (a b : Version) : bool :=
  Nat.eqb (major a) (major b) && Nat.eqb (minor a) (minor b)
  && Nat.eqb (maintenance a) (maintenance b).

Definition VERSION_1_0_0 : Version := mkVersion 1 0 0.
Definition VERSION_2_0_0 : Version := mkVersion 2 0 0.
Definition VERSION_9_9_9 : Version := mkVersion 9 9 9.

Definition Version_IsSupported (v : Version) : bool :=
  existsb (Version_eqb v) [VERSION_1_0_0; mkVersion 2 1 0].

Definition byte_of_nat (n : nat) : byte := byte_of_Z (Z.of_nat n).
Definition nat_of_byte (b : byte) : nat := Z.to_nat (Z_of_byte b).
Definition byte_of_bool (b : bool) : byte := if b then x01 else x00.

Definition sample_driver : Driver :=
  {| native := LittleEndian;
     ProtocolVersion := Version;
     IsSupported := Version_IsSupported;
     ToString := Version_ToString |}.

(** A handshake request is the opcode 1, the version and the five flags. *)
Definition sample_Encode (p : @Parser sample_driver)
           (req : @HandshakeRequest sample_driver) : list byte :=
  [ x01;
    byte_of_nat (major (req_version req));
    byte_of_nat (minor (req_version req));
    byte_of_nat (maintenance (req_version req));
    byte_of_bool (req_distributedJoins req);
    byte_of_bool (req_enforceJoinOrder req);
    byte_of_bool (req_replicatedOnly req);
    byte_of_bool (req_collocated req);
    byte_of_bool (req_lazy req) ].

(** A handshake response is one byte for acceptance; a rejection goes on
    with the version of the node and the error text. *)
Definition sample_Decode (p : @Parser sample_driver) (body : list byte)
  : IgniteError + @HandshakeResponse sample_driver :=
  match body with
  | x01 :: _ =>
      inr (mkHandshakeResponse (D := sample_driver) true (protocolVer p) "")
  | x00 :: ma :: mi :: mt :: text =>
      inr (mkHandshakeResponse
             (D := sample_driver) false
             (mkVersion (nat_of_byte ma) (nat_of_byte mi) (nat_of_byte mt))
             (string_of_list_byte text))
  | _ => inl (mkIgniteError "Malformed handshake response")
  end.

Definition sample_codec : @Codec sample_driver :=
  {| Encode := sample_Encode; Decode := sample_Decode |}.

Definition SampleConnection : Type := @Connection sample_driver.

Definition sample_config (v : Version) : @Configuration sample_driver :=
  mkConfiguration (D := sample_driver) "127.0.0.1" 10800 "PUBLIC" (inr v)
                  (inr false) (inr true) (inr false) (inr false) (inr false).

(** A connection that has not been established, in front of a peer that
    will send [peer]. *)
Definition idle_connection (peer : list byte) : SampleConnection :=
  mkConnection (D := sample_driver) (mkSocket [] [] [] peer [] false) false
               (mkParser (D := sample_driver) VERSION_2_0_0) (sample_config VERSION_1_0_0) [].

(** An established connection whose socket follows the plans given. *)
Definition live_connection (sends recvs : list Z) (peer : list byte)
  : SampleConnection :=
  mkConnection (D := sample_driver) (mkSocket [] sends recvs peer [] true) true
               (mkParser (D := sample_driver) VERSION_1_0_0) (sample_config VERSION_1_0_0) [].

Definition run_Send := @Send sample_driver.
Definition run_Receive := @Receive sample_driver.
Definition run_Establish := @InternalEstablish sample_driver sample_codec.

(** The rejection of section 8: the node runs 2.0.0 and answers
    "incompatible". *)
Definition rejection_body : list byte :=
  [x00; x02; x00; x00] ++ list_byte_of_string "incompatible".

Definition rejection_response : @HandshakeResponse sample_driver :=
  mkHandshakeResponse (D := sample_driver) false VERSION_2_0_0 "incompatible".

Definition payload_123 : list byte := [x01; x02; x03].

(** A sender whose socket takes the frame in two pieces. *)
Definition sender : SampleConnection := live_connection [3; 9] [] [].

(** A receiver whose socket holds the frame and one more byte and hands
    them out in pieces of 1, 2 and 5 bytes at most. *)
Definition receiver : SampleConnection :=
  live_connection [] [1; 2; 5] (@frame_image sample_driver payload_123 ++ [x07]).

(** A peer that announces three bytes, sends one and closes: the third
    receive on the socket returns 0. *)
Definition short_body_peer : SampleConnection :=
  live_connection [] [4; 1; 0] [x03; x00; x00; x00; x2a].

Definition after_short_header : SampleConnection :=
  Eval vm_compute in snd (header_read short_body_peer).

Definition after_short_body : SampleConnection :=
  Eval vm_compute in snd (body_read 3 after_short_header).

(** The header of section 8: [length = -1]. *)
Definition negative_length_peer : SampleConnection :=
  live_connection [] [] [xff; xff; xff; xff; x2a].

Definition after_negative_header : SampleConnection :=
  Eval vm_compute in snd (header_read negative_length_peer).

(** A peer that sends an empty frame and then another byte. *)
Definition empty_frame_peer : SampleConnection :=
  live_connection [] [2; 2] [x00; x00; x00; x00; x2a].

Definition after_empty_header : SampleConnection :=
  Eval vm_compute in snd (header_read empty_frame_peer).

(** A peer that closes after two bytes of a header: the second receive
    on the socket returns 0. *)
Definition half_header_peer : SampleConnection :=
  live_connection [] [2; 0] [x05; x00].

(** A socket that takes five bytes and then fails: the second send
    returns 0. *)
Definition failing_sender : SampleConnection := live_connection [5; 0] [] [].

Definition after_failed_send : SampleConnection :=
  Eval vm_compute in snd (SendAll (Send_buffer (D := sample_driver) payload_123)
                       failing_sender).

(** A node that rejects the handshake. *)
Definition rejecting_node : SampleConnection :=
  idle_connection (@frame_image sample_driver rejection_body).

Definition socket_opened (c : SampleConnection)
           (cfg : @Configuration sample_driver) : SampleConnection :=
  snd (Connect_socket (GetHost cfg) (GetTcpPort cfg) (set_config c cfg)).

Definition rejecting_node_opened : SampleConnection :=
  Eval vm_compute in socket_opened rejecting_node (sample_config VERSION_1_0_0).

Definition rejecting_node_answered : SampleConnection :=
  Eval vm_compute in
    snd (@SyncMessage sample_driver sample_codec
                      (mkHandshakeRequest (D := sample_driver) VERSION_1_0_0
                                          false true false false false)
                      rejecting_node_opened).

Definition rejection_text : string :=
  @rejection_message sample_driver rejection_response VERSION_1_0_0.

(** A session towards 127.0.0.1, and the configuration of a second
    [Establish] towards another host. *)
Definition established : SampleConnection := live_connection [] [] [].

Definition other_config : @Configuration sample_driver :=
  mkConfiguration (D := sample_driver) "10.0.0.7" 10900 "OTHER" (inr VERSION_9_9_9)
                  (inr true) (inr false) (inr false) (inr false) (inr true).

(** A receiver whose stream holds two frames and one more byte. *)
Definition two_frame_receiver : SampleConnection :=
  live_connection [] [2; 3; 1]
                  (@frame_image sample_driver payload_123
                     ++ @frame_image sample_driver [x09] ++ [x07]).

(** The request of [sample_config VERSION_1_0_0]. *)
Definition sample_request : @HandshakeRequest sample_driver :=
  mkHandshakeRequest (D := sample_driver) VERSION_1_0_0
                     false true false false false.

(** A node that accepts the handshake and goes on with another byte,
    behind a socket that opens and transfers in pieces. *)
Definition accepting_node : SampleConnection :=
  mkConnection (D := sample_driver)
               (mkSocket [true] [4; 20] [3; 9]
                         (@frame_image sample_driver [x01] ++ [x55]) [] false)
               false (mkParser (D := sample_driver) VERSION_2_0_0)
               (sample_config VERSION_9_9_9) [].

Definition acceptance : @HandshakeResponse sample_driver :=
  mkHandshakeResponse (D := sample_driver) true VERSION_2_0_0 "".

(** A configuration two of whose flags cannot be read. *)
Definition malformed_config : @Configuration sample_driver :=
  mkConfiguration (D := sample_driver) "127.0.0.1" 10800 "PUBLIC"
                  (inr VERSION_1_0_0) (inr false)
                  (inl (mkIgniteError "Invalid ENFORCE_JOIN_ORDER value"))
                  (inr false)
                  (inl (mkIgniteError "Invalid COLLOCATED value"))
                  (inr false).

(** A node that takes the request and closes without an answer. *)
Definition silent_node : SampleConnection := idle_connection [].

Definition silent_node_opened : SampleConnection :=
  Eval vm_compute in socket_opened silent_node (sample_config VERSION_1_0_0).

Definition silent_node_left : SampleConnection :=
  Eval vm_compute in
    snd (@SyncMessage sample_driver sample_codec sample_request
                      silent_node_opened).

(** A host that refuses the connection. *)
Definition unreachable_host : SampleConnection :=
  mkConnection (D := sample_driver) (mkSocket [false] [] [] [] [] false) false
               (mkParser (D := sample_driver) VERSION_2_0_0)
               (sample_config VERSION_9_9_9) [].

(** * Properties *)

(** ** Machine integers, bytes and the frame header *)

Lemma Int32_wrap_in_range z : Int32.in_range (Int32.wrap z).
Proof.
  unfold Int32.in_range, Int32.wrap, Int32.modulus, Int32.min_signed,
    Int32.max_signed.
  pose proof (Z.mod_pos_bound (z + 2 ^ 31) (2 ^ 32) ltac:(lia)). lia.
Qed.

Lemma Int32_wrap_small z : Int32.in_range z -> Int32.wrap z = z.
Proof.
  unfold Int32.in_range, Int32.wrap, Int32.modulus, Int32.min_signed,
    Int32.max_signed.
  intros H. rewrite Z.mod_small; lia.
Qed.

Lemma Int32_wrap_le z : 0 <= z -> Int32.wrap z <= z.
Proof.
  intros Hz. unfold Int32.wrap, Int32.modulus.
  pose proof (Z.mod_le (z + 2 ^ 31) (2 ^ 32) ltac:(lia) ltac:(lia)). lia.
Qed.

Lemma Z_of_byte_range b : 0 <= Z_of_byte b < 256.
Proof.
  unfold Z_of_byte. pose proof (Byte.to_N_bounded b). lia.
Qed.

Lemma Z_of_byte_of_Z z : Z_of_byte (byte_of_Z z) = z mod 256.
Proof.
  unfold Z_of_byte, byte_of_Z.
  pose proof (Z.mod_pos_bound z 256 ltac:(lia)) as Hb.
  destruct (Byte.of_N (Z.to_N (z mod 256))) as [b|] eqn:E.
  - apply Byte.to_of_N in E. rewrite E. lia.
  - apply Byte.of_N_None_iff in E. lia.
Qed.

Lemma byte_of_Z_of_byte b : byte_of_Z (Z_of_byte b) = b.
Proof.
  unfold byte_of_Z, Z_of_byte.
  pose proof (Byte.to_N_bounded b).
  rewrite Z.mod_small by lia.
  rewrite N2Z.id, Byte.of_to_N. reflexivity.
Qed.

Lemma store_int32_length order z : length (store_int32 order z) = 4%nat.
Proof. destruct order; reflexivity. Qed.

Lemma unsigned_le_int32_bytes z :
  unsigned_le (int32_bytes_le z) = z mod Int32.modulus.
Proof.
  unfold int32_bytes_le, unsigned_le, Int32.modulus.
  rewrite !Z_of_byte_of_Z, !Z.shiftr_div_pow2 by lia.
  change (2 ^ 8) with 256. change (2 ^ 16) with 65536.
  change (2 ^ 24) with 16777216. change (2 ^ 32) with 4294967296.
  Z.div_mod_to_equations. lia.
Qed.

Lemma load_store_int32 order z :
  load_int32 order (store_int32 order z) = Int32.wrap z.
Proof.
  unfold load_int32, store_int32.
  assert (E : unsigned_le (int32_bytes_le z) = z mod Int32.modulus)
    by apply unsigned_le_int32_bytes.
  destruct order; [| rewrite rev_involutive]; rewrite E;
    unfold Int32.wrap; rewrite Zplus_mod_idemp_l; reflexivity.
Qed.

Lemma load_store_int32_small order z :
  Int32.in_range z -> load_int32 order (store_int32 order z) = z.
Proof.
  intros H. rewrite load_store_int32. apply Int32_wrap_small, H.
Qed.

Lemma firstn_plus {A} (n m : nat) (l : list A) :
  firstn (n + m) l = firstn n l ++ firstn m (skipn n l).
Proof.
  revert l. induction n as [|n IH]; intros l; simpl; [reflexivity|].
  destruct l as [|x l]; simpl.
  - rewrite firstn_nil. reflexivity.
  - rewrite IH. reflexivity.
Qed.

Lemma write_bytes_length off src dst :
  length (write_bytes off src dst) = length dst.
Proof.
  unfold write_bytes.
  rewrite !length_app, !length_firstn, length_skipn. lia.
Qed.

Lemma write_bytes_all src dst :
  length src = length dst -> write_bytes 0 src dst = src.
Proof.
  intros H. unfold write_bytes. simpl.
  rewrite firstn_all2, skipn_all2, app_nil_r by lia. reflexivity.
Qed.

Lemma write_bytes_fits off src dst :
  (off + length src <= length dst)%nat ->
  write_bytes off src dst = firstn off dst ++ src ++ skipn (off + length src) dst.
Proof.
  intros H. unfold write_bytes. rewrite (firstn_all2 src) by lia.
  reflexivity.
Qed.

Lemma vector_resize_length v n : length (vector_resize v n) = n.
Proof.
  unfold vector_resize. rewrite length_app, length_firstn, repeat_length. lia.
Qed.

Lemma socket_Receive_spec s size res data s' :
  socket_Receive s size = (res, data, s') ->
  res <= Z.of_nat size /\
  (Z.to_nat res <= length (incoming s))%nat /\
  data = firstn (Z.to_nat res) (incoming s) /\
  incoming s' = skipn (Z.to_nat res) (incoming s) /\
  recvPlan s' = tl (recvPlan s) /\
  sendPlan s' = sendPlan s /\ outgoing s' = outgoing s /\
  connectPlan s' = connectPlan s /\ isOpen s' = isOpen s.
Proof.
  unfold socket_Receive.
  destruct (hd (Z.of_nat size) (recvPlan s) <=? 0) eqn:E;
    intros H; inversion H; subst; clear H; simpl.
  - apply Z.leb_le in E.
    replace (Z.to_nat (hd (Z.of_nat size) (recvPlan s))) with 0%nat by lia.
    repeat split; try lia.
  - repeat split; lia.
Qed.

Lemma socket_Receive_positive s size :
  Forall (fun r => 0 < r) (recvPlan s) ->
  (0 < size)%nat -> (0 < length (incoming s))%nat ->
  0 < fst (fst (socket_Receive s size)) /\
  Forall (fun r => 0 < r) (recvPlan (snd (socket_Receive s size))).
Proof.
  intros Hplan Hsize Hinc. unfold socket_Receive.
  assert (Hhd : 0 < hd (Z.of_nat size) (recvPlan s)).
  { destruct Hplan; simpl; lia. }
  assert (Htl : Forall (fun r => 0 < r) (tl (recvPlan s))).
  { destruct Hplan; simpl; auto. }
  destruct (Z.leb_spec (hd (Z.of_nat size) (recvPlan s)) 0); [lia|].
  simpl. split; [lia | exact Htl].
Qed.

Lemma socket_Send_spec s buf res s' :
  socket_Send s buf = (res, s') ->
  res <= Z.of_nat (length buf) /\
  outgoing s' = outgoing s ++ firstn (Z.to_nat res) buf /\
  sendPlan s' = tl (sendPlan s) /\
  recvPlan s' = recvPlan s /\ incoming s' = incoming s /\
  connectPlan s' = connectPlan s /\ isOpen s' = isOpen s.
Proof.
  unfold socket_Send.
  destruct (hd (Z.of_nat (length buf)) (sendPlan s) <=? 0) eqn:E;
    intros H; inversion H; subst; clear H; simpl.
  - apply Z.leb_le in E.
    replace (Z.to_nat (hd (Z.of_nat (length buf)) (sendPlan s))) with 0%nat
      by lia.
    simpl. rewrite app_nil_r. repeat split; lia.
  - repeat split; lia.
Qed.

Lemma string_app_assoc (a b c : string) :
  ((a ++ b) ++ c = a ++ b ++ c)%string.
Proof.
  induction a as [|x a IH]; simpl; [reflexivity|]. rewrite IH. reflexivity.
Qed.

Lemma Contains_here (t post : string) : Contains t (t ++ post).
Proof. exists ""%string, post. reflexivity. Qed.

Lemma string_app_nil_r (a : string) : (a ++ "")%string = a.
Proof.
  induction a as [|x a IH]; simpl; [reflexivity|]. rewrite IH. reflexivity.
Qed.

Lemma Contains_refl (t : string) : Contains t t.
Proof.
  exists ""%string, ""%string. simpl. symmetry. apply string_app_nil_r.
Qed.

Lemma Contains_app_r (t a s : string) :
  Contains t s -> Contains t (a ++ s).
Proof.
  intros (pre & post & ->). exists (a ++ pre)%string, post.
  symmetry. apply string_app_assoc.
Qed.

Lemma Contains_app_l (t s b : string) :
  Contains t s -> Contains t (s ++ b).
Proof.
  intros (pre & post & ->). exists pre, (post ++ b)%string.
  rewrite !string_app_assoc. reflexivity.
Qed.

Create HintDb contains.
#[local] Hint Resolve Contains_here Contains_refl Contains_app_r Contains_app_l
  : contains.

Section Properties.

Context {D : Driver} {P : Codec}.

(** ** Properties of the transfer loops *)

Lemma SendAll_loop_step data sent c :
  SendAll_loop data sent c =
  if Nat.eqb sent (length data) then (sent, c)
  else
    let '(res, sock) := socket_Send (socket c) (skipn sent data) in
    if res <=? 0 then (sent, Close (set_socket c sock))
    else SendAll_loop data (sent + Z.to_nat res)%nat (set_socket c sock).
Proof.
  funelim (SendAll_loop data sent c).
  - rewrite (proj2 (Nat.eqb_eq _ _) e). reflexivity.
  - rewrite (proj2 (Nat.eqb_neq _ _) Hne), Hcall.
    destruct (Z.leb_spec res 0); try lia; reflexivity.
  - rewrite (proj2 (Nat.eqb_neq _ _) Hne), Hcall.
    destruct (Z.leb_spec res 0); try lia; reflexivity.
Qed.

Lemma ReceiveAll_loop_step len remain buffer c :
  ReceiveAll_loop len remain buffer c =
  match remain with
  | O => (len, buffer, c)
  | S _ =>
    let '(res, data, sock) := socket_Receive (socket c) remain in
    if res <=? 0 then ((len - remain)%nat, buffer, Close (set_socket c sock))
    else ReceiveAll_loop len (remain - Z.to_nat res)%nat
                         (write_bytes (len - remain) data buffer)
                         (set_socket c sock)
  end.
Proof.
  funelim (ReceiveAll_loop len remain buffer c).
  1: reflexivity.
  all: match goal with H : socket_Receive _ _ = _ |- _ => rewrite H end;
    destruct (Z.leb_spec res 0); try lia; reflexivity.
Qed.

Lemma same_session_refl c : same_session c c.
Proof. repeat split. Qed.

Lemma same_session_trans c1 c2 c3 :
  same_session c1 c2 -> same_session c2 c3 -> same_session c1 c3.
Proof.
  unfold same_session. intros (A1 & A2 & A3 & A4) (B1 & B2 & B3 & B4).
  repeat split; congruence.
Qed.

(** [SendAll]: the count returned is the number of bytes the socket
    accepted, those bytes are the start of the buffer, and a count short of
    the buffer means the connection was closed. *)
Lemma SendAll_loop_spec data :
  forall m sent c k c',
    (length data - sent = m)%nat -> (sent <= length data)%nat ->
    SendAll_loop data sent c = (k, c') ->
    (sent <= k <= length data)%nat /\
    outgoing (socket c') =
      outgoing (socket c) ++ firstn (k - sent) (skipn sent data) /\
    incoming (socket c') = incoming (socket c) /\
    recvPlan (socket c') = recvPlan (socket c) /\
    (k = length data ->
     connected c' = connected c /\ isOpen (socket c') = isOpen (socket c)) /\
    (k <> length data ->
     connected c' = false /\ isOpen (socket c') = false) /\
    same_session c c'.
Proof.
  induction m as [m IH] using lt_wf_ind.
  intros sent c k c' Hm Hle Hrun.
  rewrite SendAll_loop_step in Hrun.
  destruct (Nat.eqb_spec sent (length data)) as [E|E].
  - inversion Hrun; subst k c'. rewrite Nat.sub_diag. simpl.
    rewrite app_nil_r. repeat split; try lia; congruence.
  - destruct (socket_Send (socket c) (skipn sent data)) as [res sock] eqn:Hcall.
    apply socket_Send_spec in Hcall.
    rewrite length_skipn in Hcall.
    destruct Hcall as (Hres & Hout & _ & Hrp & Hinc & Hcp & Hopen).
    destruct (Z.leb_spec res 0) as [Hneg|Hpos].
    + inversion Hrun; subst k c'. simpl.
      rewrite Hout. replace (Z.to_nat res) with 0%nat by lia.
      rewrite Nat.sub_diag. simpl.
      repeat split; simpl; try lia; try congruence.
    + apply (IH (length data - (sent + Z.to_nat res))%nat) in Hrun;
        [| lia | reflexivity | lia].
      simpl in Hrun.
      destruct Hrun as (Hk & Hout' & Hinc' & Hrp' & Hfull & Hshort & Hsame).
      split; [lia|]. split.
      { rewrite Hout', Hout, <- app_assoc. f_equal.
        replace (k - sent)%nat with (Z.to_nat res + (k - (sent + Z.to_nat res)))%nat
          by lia.
        rewrite firstn_plus, skipn_skipn.
        replace (Z.to_nat res + sent)%nat with (sent + Z.to_nat res)%nat by lia.
        reflexivity. }
      split; [congruence|]. split; [congruence|].
      split; [intros Hkl; destruct (Hfull Hkl); split; congruence|].
      split; [exact Hshort|].
      destruct Hsame as (S1 & S2 & S3 & S4). repeat split; simpl in *; congruence.
Qed.

Lemma SendAll_spec data c k c' :
  SendAll data c = (k, c') ->
  (k <= length data)%nat /\
  outgoing (socket c') = outgoing (socket c) ++ firstn k data /\
  incoming (socket c') = incoming (socket c) /\
  recvPlan (socket c') = recvPlan (socket c) /\
  (k = length data ->
   connected c' = connected c /\ isOpen (socket c') = isOpen (socket c)) /\
  (k <> length data ->
   connected c' = false /\ isOpen (socket c') = false) /\
  same_session c c'.
Proof.
  unfold SendAll. intros H.
  apply (SendAll_loop_spec data (length data - 0)%nat) in H;
    [| reflexivity | lia].
  rewrite Nat.sub_0_r in H. simpl in H.
  destruct H as (H1 & H2 & H3 & H4 & H5 & H6 & H7).
  repeat split; try lia; auto; try apply H5; try apply H6; try apply H7; auto.
Qed.

(** [ReceiveAll]: the count returned is the number of bytes taken from
    the stream, they stand in the buffer in stream order, and a count
    short of [len] means the connection was closed. *)
Lemma ReceiveAll_loop_spec len :
  forall remain buffer c k buf' c',
    (remain <= len)%nat -> length buffer = len ->
    ReceiveAll_loop len remain buffer c = (k, buf', c') ->
    (len - remain <= k <= len)%nat /\
    (k - (len - remain) <= length (incoming (socket c)))%nat /\
    buf' = firstn (len - remain) buffer
             ++ firstn (k - (len - remain)) (incoming (socket c))
             ++ skipn k buffer /\
    incoming (socket c') = skipn (k - (len - remain)) (incoming (socket c)) /\
    sendPlan (socket c') = sendPlan (socket c) /\
    outgoing (socket c') = outgoing (socket c) /\
    (k = len ->
     connected c' = connected c /\ isOpen (socket c') = isOpen (socket c)) /\
    (k <> len -> connected c' = false /\ isOpen (socket c') = false) /\
    same_session c c'.
Proof.
  induction remain as [remain IH] using lt_wf_ind.
  intros buffer c k buf' c' Hle Hlen Hrun.
  rewrite ReceiveAll_loop_step in Hrun.
  destruct remain as [|r].
  - inversion Hrun; subst k buf' c'.
    rewrite Nat.sub_0_r, Nat.sub_diag. simpl.
    rewrite firstn_skipn.
    repeat split; try lia; congruence.
  - destruct (socket_Receive (socket c) (S r)) as [[res data] sock] eqn:Hcall.
    apply socket_Receive_spec in Hcall.
    destruct Hcall as (Hres & Hav & Hdata & Hinc & _ & Hsp & Hout & Hcp & Hopen).
    destruct (Z.leb_spec res 0) as [Hneg|Hpos].
    + inversion Hrun; subst k buf' c'.
      rewrite Nat.sub_diag. simpl. rewrite firstn_skipn.
      replace (Z.to_nat res) with 0%nat in Hinc by lia. simpl in Hinc.
      repeat split; simpl; try lia; try congruence.
    + assert (Hdlen : length data = Z.to_nat res).
      { rewrite Hdata, length_firstn. lia. }
      assert (Hwlen : length (write_bytes (len - S r) data buffer) = len).
      { rewrite write_bytes_length; lia. }
      remember (S r - Z.to_nat res)%nat as r' eqn:Hr'.
      apply IH in Hrun; [| lia | lia | exact Hwlen].
      simpl in Hrun.
      replace (len - r')%nat
        with ((len - S r) + Z.to_nat res)%nat in Hrun by lia.
      destruct Hrun as (Hk & Hav' & Hbuf & Hinc' & Hsp' & Hout' & Hfull
                        & Hshort & Hsame).
      rewrite Hinc in Hav', Hinc', Hbuf. rewrite length_skipn in Hav'.
      split; [lia|]. split; [lia|]. split.
      { rewrite Hbuf, write_bytes_fits by lia.
        rewrite Hdlen, firstn_app, length_firstn.
        replace (Nat.min (len - S r) (length buffer)) with (len - S r)%nat by lia.
        replace (len - S r + Z.to_nat res - (len - S r))%nat
          with (Z.to_nat res) by lia.
        rewrite firstn_firstn.
        replace (Nat.min (len - S r + Z.to_nat res) (len - S r))
          with (len - S r)%nat by lia.
        rewrite firstn_app, <- Hdlen, firstn_all, Nat.sub_diag. simpl.
        rewrite app_nil_r, <- !app_assoc. f_equal.
        replace (k - (len - S r))%nat
          with (Z.to_nat res + (k - (len - S r + Z.to_nat res)))%nat by lia.
        rewrite firstn_plus, <- Hdata, <- app_assoc, Hdlen. f_equal. f_equal.
        rewrite !skipn_app, length_firstn.
        replace (Nat.min (len - S r) (length buffer)) with (len - S r)%nat by lia.
        rewrite (skipn_all2 (firstn _ buffer)) by (rewrite length_firstn; lia).
        rewrite (skipn_all2 data) by lia.
        simpl. rewrite skipn_skipn. f_equal. lia. }
      split.
      { rewrite Hinc', skipn_skipn. f_equal. lia. }
      split; [congruence|]. split; [congruence|].
      split; [intros Hkl; destruct (Hfull Hkl); split; simpl in *; congruence|].
      split; [exact Hshort|].
      destruct Hsame as (S1 & S2 & S3 & S4). repeat split; simpl in *; congruence.
Qed.

Lemma ReceiveAll_spec dst len c k buf' c' :
  length dst = len ->
  ReceiveAll dst len c = (k, buf', c') ->
  (k <= len)%nat /\
  (k <= length (incoming (socket c)))%nat /\
  buf' = firstn k (incoming (socket c)) ++ skipn k dst /\
  incoming (socket c') = skipn k (incoming (socket c)) /\
  sendPlan (socket c') = sendPlan (socket c) /\
  outgoing (socket c') = outgoing (socket c) /\
  (k = len ->
   connected c' = connected c /\ isOpen (socket c') = isOpen (socket c)) /\
  (k <> len -> connected c' = false /\ isOpen (socket c') = false) /\
  same_session c c'.
Proof.
  unfold ReceiveAll. intros Hlen H.
  apply ReceiveAll_loop_spec in H; [| lia | exact Hlen].
  rewrite Nat.sub_diag, Nat.sub_0_r in H. simpl in H.
  destruct H as (H1 & H2 & H3 & H4 & H5 & H6 & H7 & H8 & H9).
  repeat split; try lia; auto; try apply H7; try apply H8; try apply H9; auto.
Qed.

(** A socket whose plan holds no failure delivers what the stream holds:
    [ReceiveAll] fills the buffer whenever [len] bytes are there, however
    the plan cuts them into pieces. *)
Lemma ReceiveAll_loop_delivers len :
  forall remain buffer c,
    Forall (fun r => 0 < r) (recvPlan (socket c)) ->
    (remain <= length (incoming (socket c)))%nat ->
    exists buf' c',
      ReceiveAll_loop len remain buffer c = (len, buf', c') /\
      Forall (fun r => 0 < r) (recvPlan (socket c')).
Proof.
  induction remain as [remain IH] using lt_wf_ind.
  intros buffer c Hplan Hav.
  rewrite ReceiveAll_loop_step.
  destruct remain as [|r]; [eauto|].
  pose proof (socket_Receive_positive (socket c) (S r) Hplan
                ltac:(lia) ltac:(lia)) as [Hpos Hplan'].
  destruct (socket_Receive (socket c) (S r)) as [[res data] sock] eqn:Hcall.
  simpl in Hpos, Hplan'.
  apply socket_Receive_spec in Hcall.
  destruct Hcall as (Hres & Hav' & _ & Hinc & _).
  destruct (Z.leb_spec res 0); [lia|].
  apply IH; [lia | exact Hplan' |].
  change (socket (set_socket c sock)) with sock.
  rewrite Hinc, length_skipn. lia.
Qed.

(** ** The frame codec *)

Lemma header_read_spec c k hdr c1 :
  header_read c = (k, hdr, c1) ->
  (k <= 4)%nat /\
  (k = 4%nat -> hdr = firstn 4 (incoming (socket c))) /\
  (k = 4%nat -> length hdr = 4%nat) /\
  incoming (socket c1) = skipn k (incoming (socket c)) /\
  sendPlan (socket c1) = sendPlan (socket c) /\
  outgoing (socket c1) = outgoing (socket c) /\
  (k = 4%nat -> connected c1 = connected c) /\
  (k <> 4%nat -> connected c1 = false /\ isOpen (socket c1) = false) /\
  same_session c c1.
Proof.
  unfold header_read. intros H.
  apply ReceiveAll_spec in H; [| reflexivity].
  change (Z.to_nat sizeof_OdbcProtocolHeader) with 4%nat in H.
  destruct H as (H1 & H2 & H3 & H4 & H5 & H6 & H7 & H8 & H9).
  assert (Hhdr : k = 4%nat -> hdr = firstn 4 (incoming (socket c))).
  { intros ->. rewrite H3. simpl. apply app_nil_r. }
  repeat split; auto; try apply H7; try apply H8; try apply H9; auto.
  intros E. rewrite (Hhdr E), length_firstn. lia.
Qed.

Lemma body_read_spec len c k buf c2 :
  body_read len c = (k, buf, c2) ->
  (k <= Z.to_nat len)%nat /\
  (k <= length (incoming (socket c)))%nat /\
  firstn k buf = firstn k (incoming (socket c)) /\
  length buf = Z.to_nat len /\
  incoming (socket c2) = skipn k (incoming (socket c)) /\
  sendPlan (socket c2) = sendPlan (socket c) /\
  outgoing (socket c2) = outgoing (socket c) /\
  (k = Z.to_nat len -> connected c2 = connected c) /\
  (k <> Z.to_nat len -> connected c2 = false /\ isOpen (socket c2) = false) /\
  same_session c c2.
Proof.
  unfold body_read. intros H.
  apply ReceiveAll_spec in H; [| apply vector_resize_length].
  destruct H as (H1 & H2 & H3 & H4 & H5 & H6 & H7 & H8 & H9).
  assert (Hk : length (firstn k (incoming (socket c))) = k).
  { rewrite length_firstn. lia. }
  repeat split; auto; try apply H7; try apply H8; try apply H9; auto.
  - rewrite H3, firstn_app, Hk, Nat.sub_diag. simpl.
    rewrite app_nil_r, firstn_firstn. f_equal. lia.
  - rewrite H3, length_app, Hk, length_skipn, vector_resize_length. lia.
Qed.

(** [Receive] on a connected connection, by what the header read gives. *)
Lemma Receive_connected msg c :
  connected c = true ->
  Receive msg c =
  let '(received, hdr, c1) := header_read c in
  if negb (Z.of_nat received =? sizeof_OdbcProtocolHeader) then
    (inl (odbc_error S08S01_LINK_FAILURE "Can not receive message header"),
     [], c1)
  else if load_int32 native hdr <? 0 then
    (inl (odbc_error S08S01_LINK_FAILURE
                     "Protocol error: Message length is negative"),
     [], Close c1)
  else if load_int32 native hdr =? 0 then (inr tt, [], c1)
  else
    let '(got, body, c2) := body_read (load_int32 native hdr) c1 in
    if negb (Z.of_nat got =? load_int32 native hdr) then
      (inl (odbc_error S08S01_LINK_FAILURE "Can not receive message body"),
       vector_resize body got, c2)
    else (inr tt, body, c2).
Proof.
  intros Hc. unfold Receive, header_read, body_read. rewrite Hc. reflexivity.
Qed.

(** C4. A [Receive] on a connected connection whose header read gives a
    negative length closes the connection and throws [S08S01_LINK_FAILURE]:
    afterwards [connected] is false and the socket is closed, and the
    socket was read no further than the four header bytes. *)
Theorem Receive_negative_length :
  forall (msg hdr : list byte) (c c1 : Connection),
    connected c = true ->
    header_read c = (4%nat, hdr, c1) ->
    load_int32 native hdr < 0 ->
    Receive msg c =
      (inl (odbc_error S08S01_LINK_FAILURE
                       "Protocol error: Message length is negative"),
       [], Close c1) /\
    connected (Close c1) = false /\
    isOpen (socket (Close c1)) = false /\
    incoming (socket (Close c1)) = skipn 4 (incoming (socket c)) /\
    recvPlan (socket (Close c1)) = recvPlan (socket c1).
Proof.
  intros msg hdr c c1 Hc Hhdr Hneg.
  rewrite (Receive_connected msg c Hc), Hhdr.
  change (Z.of_nat 4 =? sizeof_OdbcProtocolHeader) with true.
  cbv beta iota. simpl negb. cbv iota.
  destruct (Z.ltb_spec (load_int32 native hdr) 0); [| lia].
  apply header_read_spec in Hhdr.
  destruct Hhdr as (_ & _ & _ & Hinc & _).
  repeat split; simpl; auto.
Qed.

(** C5. A [Receive] on a connected connection whose header read gives the
    length 0 returns normally with an empty vector, in the state the
    header read left: the four header bytes are consumed and the socket is
    not read again. *)
Theorem Receive_zero_length :
  forall (msg hdr : list byte) (c c1 : Connection),
    connected c = true ->
    header_read c = (4%nat, hdr, c1) ->
    load_int32 native hdr = 0 ->
    Receive msg c = (inr tt, [], c1) /\
    incoming (socket c1) = skipn 4 (incoming (socket c)) /\
    connected c1 = true.
Proof.
  intros msg hdr c c1 Hc Hhdr Hzero.
  rewrite (Receive_connected msg c Hc), Hhdr, Hzero.
  split; [reflexivity|].
  apply header_read_spec in Hhdr.
  destruct Hhdr as (_ & _ & _ & Hinc & _ & _ & Hconn & _).
  split; [exact Hinc|]. rewrite Hconn; auto.
Qed.

(** C10. [Receive] on a connected connection empties the caller's vector
    first: whatever the vector held, the call does what it does on an
    empty vector, and the vector is empty after a call whose header read
    comes back short (the call throws [S08S01_LINK_FAILURE]) and after a
    call that reads a frame of length 0 (the call returns). *)
Theorem Receive_clears_output :
  forall (msg hdr : list byte) (received : nat) (c c1 : Connection),
    connected c = true ->
    header_read c = (received, hdr, c1) ->
    received <> 4%nat \/ load_int32 native hdr = 0 ->
    Receive msg c = Receive [] c /\
    snd (fst (Receive msg c)) = [] /\
    fst (fst (Receive msg c)) =
      (if Nat.eqb received 4
       then inr tt
       else inl (odbc_error S08S01_LINK_FAILURE
                            "Can not receive message header")).
Proof.
  intros msg hdr received c c1 Hc Hhdr Hcase.
  split; [rewrite !(Receive_connected _ c Hc); reflexivity|].
  rewrite (Receive_connected msg c Hc), Hhdr.
  unfold sizeof_OdbcProtocolHeader.
  destruct (Nat.eqb_spec received 4) as [E|E].
  - subst received. destruct Hcase as [Hne|Hzero]; [congruence|].
    rewrite Hzero. split; reflexivity.
  - destruct (Z.eqb_spec (Z.of_nat received) 4); [lia|].
    split; reflexivity.
Qed.

(** C3, as the code has it. A [Receive] on a connected connection whose
    body read comes back short throws [S08S01_LINK_FAILURE] with the
    connection closed, and the caller's vector is cut to the count
    received: it holds exactly the bytes of the body that did arrive. *)
Theorem Receive_short_body :
  forall (msg hdr body : list byte) (got : nat) (c c1 c2 : Connection),
    connected c = true ->
    header_read c = (4%nat, hdr, c1) ->
    0 < load_int32 native hdr ->
    body_read (load_int32 native hdr) c1 = (got, body, c2) ->
    Z.of_nat got <> load_int32 native hdr ->
    Receive msg c =
      (inl (odbc_error S08S01_LINK_FAILURE "Can not receive message body"),
       firstn got (incoming (socket c1)), c2) /\
    length (firstn got (incoming (socket c1))) = got /\
    connected c2 = false /\
    isOpen (socket c2) = false.
Proof.
  intros msg hdr body got c c1 c2 Hc Hhdr Hpos Hbody Hshort.
  rewrite (Receive_connected msg c Hc), Hhdr.
  change (Z.of_nat 4 =? sizeof_OdbcProtocolHeader) with true.
  cbv beta iota. simpl negb. cbv iota.
  destruct (Z.ltb_spec (load_int32 native hdr) 0); [lia|].
  destruct (Z.eqb_spec (load_int32 native hdr) 0); [lia|].
  rewrite Hbody.
  destruct (Z.eqb_spec (Z.of_nat got) (load_int32 native hdr)); [contradiction|].
  simpl negb. cbv iota.
  apply body_read_spec in Hbody.
  destruct Hbody as (Hle & Hav & Hfirst & Hlen & _ & _ & _ & _ & Hclosed & _).
  assert (Hcut : vector_resize body got = firstn got (incoming (socket c1))).
  { unfold vector_resize.
    replace (got - length body)%nat with 0%nat by lia.
    simpl. rewrite app_nil_r. exact Hfirst. }
  rewrite Hcut. split; [reflexivity|].
  split; [rewrite length_firstn; lia|].
  apply Hclosed. lia.
Qed.

Lemma Send_buffer_length data :
  length (Send_buffer data) =
  Z.to_nat (Int32.wrap (Z.of_nat (length data) + sizeof_OdbcProtocolHeader)).
Proof.
  unfold Send_buffer, raw_storage.
  rewrite !write_bytes_length, repeat_length. reflexivity.
Qed.

(** As long as header and payload fit the [int32_t] size of the buffer, the
    buffer is the frame. *)
Lemma Send_buffer_frame data :
  Z.of_nat (length data) + sizeof_OdbcProtocolHeader <= Int32.max_signed ->
  Send_buffer data = frame_image data.
Proof.
  unfold sizeof_OdbcProtocolHeader, Int32.max_signed. intros Hfit.
  unfold Send_buffer, frame_image, sizeof_OdbcProtocolHeader, raw_storage.
  rewrite !Int32_wrap_small
    by (unfold Int32.in_range, Int32.min_signed, Int32.max_signed; lia).
  set (hdr := store_int32 native (Z.of_nat (length data))).
  assert (Hhdr : length hdr = 4%nat) by apply store_int32_length.
  replace (Z.to_nat (Z.of_nat (length data) + 4)) with (4 + length data)%nat
    by lia.
  rewrite repeat_app.
  rewrite (write_bytes_fits 0 hdr)
    by (rewrite length_app, !repeat_length; lia).
  simpl firstn. rewrite Hhdr.
  rewrite skipn_app, repeat_length, Nat.sub_diag.
  rewrite (skipn_all2 (repeat x00 4)) by (rewrite repeat_length; lia).
  simpl skipn. simpl app at 1.
  change (Z.to_nat 4) with 4%nat.
  rewrite write_bytes_fits
    by (rewrite !length_app, Hhdr, repeat_length; lia).
  rewrite firstn_app, Hhdr, Nat.sub_diag, <- Hhdr, firstn_all. simpl firstn.
  rewrite app_nil_r. f_equal.
  rewrite skipn_all2 by (rewrite !length_app, repeat_length; lia).
  apply app_nil_r.
Qed.

Lemma Send_not_connected data c :
  connected c = false ->
  Send data c =
  (inl (odbc_error S08003_NOT_CONNECTED "Connection is not established"), c).
Proof.
  intros Hc. unfold Send, bind, gets, when_, throw_odbc, throw.
  rewrite Hc. reflexivity.
Qed.

Lemma Send_connected data c :
  connected c = true ->
  Send data c =
  let '(sent, c1) := SendAll (Send_buffer data) c in
  if negb (Z.of_nat sent
           =? Z.of_nat (length data) + sizeof_OdbcProtocolHeader)
  then (inl (odbc_error S08S01_LINK_FAILURE
                        "Can not send message due to connection failure"), c1)
  else (inr tt, c1).
Proof.
  intros Hc. unfold Send, bind, gets, when_, throw_odbc, throw, call, ret.
  rewrite Hc. simpl.
  destruct (SendAll (Send_buffer data) c) as [sent c1].
  destruct (Z.of_nat sent =? Z.of_nat (length data) + sizeof_OdbcProtocolHeader);
    reflexivity.
Qed.

(** A [Send] returns only when the socket accepted as many bytes as header
    and payload have, and the buffer has room for them only when their
    number fits its [int32_t] size. *)
Lemma Send_returns_fits p c c' :
  Send p c = (inr tt, c') ->
  connected c = true /\
  Z.of_nat (length p) + sizeof_OdbcProtocolHeader <= Int32.max_signed /\
  SendAll (Send_buffer p) c = (length (Send_buffer p), c').
Proof.
  intros Hsend.
  destruct (connected c) eqn:Hc;
    [| rewrite (Send_not_connected p c Hc) in Hsend; discriminate].
  rewrite (Send_connected p c Hc) in Hsend.
  destruct (SendAll (Send_buffer p) c) as [sent c1] eqn:Hall.
  destruct (Z.eqb_spec (Z.of_nat sent)
                       (Z.of_nat (length p) + sizeof_OdbcProtocolHeader))
    as [Hsent|]; [| discriminate].
  inversion Hsend; subst c1.
  pose proof (SendAll_spec _ _ _ _ Hall) as (Hle & _).
  rewrite Send_buffer_length in Hle.
  pose proof (Int32_wrap_in_range
                (Z.of_nat (length p) + sizeof_OdbcProtocolHeader)) as [_ Hmax].
  pose proof (Int32_wrap_le (Z.of_nat (length p) + sizeof_OdbcProtocolHeader)
                            ltac:(unfold sizeof_OdbcProtocolHeader; lia)) as Hw.
  unfold sizeof_OdbcProtocolHeader in *.
  assert (Hfit : Z.of_nat (length p) + 4 <= Int32.max_signed) by lia.
  split; [reflexivity|]. split; [exact Hfit|].
  rewrite Send_buffer_length. unfold sizeof_OdbcProtocolHeader.
  replace (Z.to_nat (Int32.wrap (Z.of_nat (length p) + 4))) with sent;
    [reflexivity|].
  rewrite Int32_wrap_small
    by (unfold Int32.in_range, Int32.min_signed, Int32.max_signed in *; lia).
  lia.
Qed.

(** C1. Framing round trip.  For every payload [p], a [Send p] that
    returns has put on the socket the four bytes of the header, whose
    value is the length of [p], followed by [p]; and a [Receive] on a
    connected connection whose socket holds these bytes next, cut into
    pieces in any way, returns [p], whatever the caller's vector held
    before. *)
Theorem Send_Receive_roundtrip :
  forall (p : list byte) (c c' : Connection),
    Send p c = (inr tt, c') ->
    outgoing (socket c') = outgoing (socket c) ++ frame_image p /\
    length (store_int32 native (Z.of_nat (length p))) = 4%nat /\
    load_int32 native (firstn 4 (frame_image p)) = Z.of_nat (length p) /\
    skipn 4 (frame_image p) = p /\
    forall (r : Connection) (msg rest : list byte),
      connected r = true ->
      incoming (socket r) = frame_image p ++ rest ->
      Forall (fun n => 0 < n) (recvPlan (socket r)) ->
      exists r',
        Receive msg r = (inr tt, p, r') /\
        incoming (socket r') = rest /\
        connected r' = true.
Proof.
  intros p c c' Hsend.
  pose proof (Send_returns_fits p c c' Hsend) as (_ & Hfit & _).
  pose proof (store_int32_length native (Z.of_nat (length p))) as Hhdr.
  assert (Hrange : Int32.in_range (Z.of_nat (length p))).
  { unfold Int32.in_range, Int32.min_signed, Int32.max_signed,
      sizeof_OdbcProtocolHeader in *. lia. }
  assert (Hfirst : firstn 4 (frame_image p)
                   = store_int32 native (Z.of_nat (length p))).
  { unfold frame_image. rewrite firstn_app, firstn_all2 by lia.
    rewrite Hhdr. simpl. apply app_nil_r. }
  assert (Hskip : skipn 4 (frame_image p) = p).
  { unfold frame_image. rewrite skipn_app, skipn_all2 by lia.
    rewrite Hhdr. reflexivity. }
  split.
  { destruct (connected c) eqn:Hc;
      [| rewrite (Send_not_connected p c Hc) in Hsend; discriminate].
    rewrite (Send_connected p c Hc) in Hsend.
    destruct (SendAll (Send_buffer p) c) as [sent c1] eqn:Hall.
    destruct (Z.eqb_spec (Z.of_nat sent)
                         (Z.of_nat (length p) + sizeof_OdbcProtocolHeader))
      as [Hsent|]; [| discriminate].
    inversion Hsend; subst c1.
    apply SendAll_spec in Hall. destruct Hall as (_ & Hout & _).
    rewrite Hout, (Send_buffer_frame p Hfit). f_equal.
    apply firstn_all2. unfold frame_image.
    rewrite length_app, Hhdr. unfold sizeof_OdbcProtocolHeader in Hsent. lia. }
  split; [exact Hhdr|].
  split; [rewrite Hfirst; apply load_store_int32_small, Hrange|].
  split; [exact Hskip|].
  intros r msg rest Hr Hin Hplan.
  rewrite (Receive_connected msg r Hr).
  destruct (ReceiveAll_loop_delivers
              4 4 (raw_storage 4) r Hplan) as (hdr & r1 & Hrun & Hplan1).
  { rewrite Hin, length_app. unfold frame_image. rewrite length_app, Hhdr. lia. }
  assert (Hread : header_read r = (4%nat, hdr, r1)) by exact Hrun.
  rewrite Hread.
  apply header_read_spec in Hread.
  destruct Hread as (_ & Hh & _ & Hinc1 & _ & _ & Hconn1 & _).
  specialize (Hh eq_refl). specialize (Hconn1 eq_refl).
  rewrite Hin, firstn_app in Hh.
  replace (4 - length (frame_image p))%nat with 0%nat in Hh
    by (unfold frame_image; rewrite length_app, Hhdr; lia).
  simpl firstn in Hh at 2. rewrite app_nil_r, Hfirst in Hh.
  rewrite Hin, skipn_app in Hinc1.
  replace (4 - length (frame_image p))%nat with 0%nat in Hinc1
    by (unfold frame_image; rewrite length_app, Hhdr; lia).
  simpl skipn in Hinc1 at 2. rewrite Hskip in Hinc1.
  assert (Hlen : load_int32 native hdr = Z.of_nat (length p)).
  { rewrite Hh. apply load_store_int32_small, Hrange. }
  rewrite Hlen.
  change (Z.of_nat 4 =? sizeof_OdbcProtocolHeader) with true.
  cbv beta iota. simpl negb. cbv iota.
  destruct (Z.ltb_spec (Z.of_nat (length p)) 0); [lia|].
  destruct (Z.eqb_spec (Z.of_nat (length p)) 0) as [Hz|Hnz].
  - destruct p; [| simpl in Hz; lia].
    exists r1. simpl in Hinc1. repeat split; congruence.
  - destruct (ReceiveAll_loop_delivers
                (length p) (length p) (vector_resize [] (length p)) r1 Hplan1)
      as (body & r2 & Hrun2 & _).
    { rewrite Hinc1, length_app. lia. }
    assert (Hbody : body_read (Z.of_nat (length p)) r1
                    = (length p, body, r2)).
    { unfold body_read. rewrite Nat2Z.id. exact Hrun2. }
    rewrite Hbody.
    destruct (Z.eqb_spec (Z.of_nat (length p)) (Z.of_nat (length p)));
      [| contradiction].
    simpl negb. cbv iota.
    apply body_read_spec in Hbody. rewrite Nat2Z.id in Hbody.
    destruct Hbody as (_ & _ & Hb & Hblen & Hinc2 & _ & _ & Hconn2 & _).
    specialize (Hconn2 eq_refl).
    rewrite <- Hblen, firstn_all, Hblen, Hinc1, firstn_app, Nat.sub_diag in Hb.
    simpl firstn in Hb at 2. rewrite app_nil_r, firstn_all in Hb.
    rewrite Hinc1, skipn_app, Nat.sub_diag, skipn_all in Hinc2.
    exists r2. subst body. repeat split; try congruence. exact Hinc2.
Qed.

(** C6. A [Send] on a connected connection during which [SendAll] gets
    fewer bytes accepted than the buffer holds throws
    [S08S01_LINK_FAILURE] and leaves the connection closed; every [Send]
    after it throws [S08003_NOT_CONNECTED]. *)
Theorem Send_short_write :
  forall (p : list byte) (sent : nat) (c c1 : Connection),
    connected c = true ->
    SendAll (Send_buffer p) c = (sent, c1) ->
    sent <> length (Send_buffer p) ->
    Send p c =
      (inl (odbc_error S08S01_LINK_FAILURE
                       "Can not send message due to connection failure"),
       c1) /\
    connected c1 = false /\
    isOpen (socket c1) = false /\
    forall q : list byte,
      Send q c1 =
        (inl (odbc_error S08003_NOT_CONNECTED "Connection is not established"),
         c1).
Proof.
  intros p sent c c1 Hc Hall Hshort.
  rewrite (Send_connected p c Hc), Hall.
  apply SendAll_spec in Hall.
  destruct Hall as (Hle & _ & _ & _ & _ & Hclosed & _).
  destruct (Hclosed Hshort) as [Hconn Hopen].
  assert (Hbuf : Z.of_nat (length (Send_buffer p))
                 <= Z.of_nat (length p) + sizeof_OdbcProtocolHeader).
  { rewrite Send_buffer_length.
    pose proof (Int32_wrap_le (Z.of_nat (length p) + sizeof_OdbcProtocolHeader)
                              ltac:(unfold sizeof_OdbcProtocolHeader; lia)).
    unfold sizeof_OdbcProtocolHeader in *. lia. }
  destruct (Z.eqb_spec (Z.of_nat sent)
                       (Z.of_nat (length p) + sizeof_OdbcProtocolHeader));
    [lia|].
  repeat split; auto.
  intros q. apply Send_not_connected, Hconn.
Qed.

(** ** The session survives the frame codec

    [Send], [Receive] and [SyncMessage] change the socket and the
    [connected] flag only. *)

Lemma Close_same_session c : same_session c (Close c).
Proof. repeat split. Qed.

Lemma Send_same_session p c r c' :
  Send p c = (r, c') -> same_session c c'.
Proof.
  destruct (connected c) eqn:Hc.
  - rewrite (Send_connected p c Hc).
    destruct (SendAll (Send_buffer p) c) as [sent c1] eqn:Hall.
    apply SendAll_spec in Hall.
    destruct Hall as (_ & _ & _ & _ & _ & _ & Hsame).
    destruct (negb _); intros H; inversion H; subst; exact Hsame.
  - rewrite (Send_not_connected p c Hc).
    intros H; inversion H; subst. apply same_session_refl.
Qed.

Lemma Receive_same_session msg c r msg' c' :
  Receive msg c = (r, msg', c') -> same_session c c'.
Proof.
  destruct (connected c) eqn:Hc.
  - rewrite (Receive_connected msg c Hc).
    destruct (header_read c) as [[received hdr] c1] eqn:Hhdr.
    apply header_read_spec in Hhdr.
    destruct Hhdr as (_ & _ & _ & _ & _ & _ & _ & _ & Hsame1).
    destruct (negb _); [intros H; inversion H; subst; exact Hsame1|].
    destruct (_ <? 0).
    { intros H; inversion H; subst.
      eapply same_session_trans; [exact Hsame1 | apply Close_same_session]. }
    destruct (_ =? 0); [intros H; inversion H; subst; exact Hsame1|].
    destruct (body_read (load_int32 native hdr) c1) as [[got body] c2] eqn:Hb.
    apply body_read_spec in Hb.
    destruct Hb as (_ & _ & _ & _ & _ & _ & _ & _ & _ & Hsame2).
    destruct (negb _); intros H; inversion H; subst;
      eapply same_session_trans; eauto.
  - unfold Receive. rewrite Hc. simpl.
    intros H; inversion H; subst. apply same_session_refl.
Qed.

Lemma SyncMessage_same_session req c r c' :
  SyncMessage req c = (r, c') -> same_session c c'.
Proof.
  unfold SyncMessage, bind, gets, Receive_into, throw, ret.
  destruct (Send (Encode (parser c) req) c) as [[e|[]] c1] eqn:Hsend;
    apply Send_same_session in Hsend.
  - intros H; inversion H; subst. exact Hsend.
  - destruct (Receive (Encode (parser c) req) c1) as [[[e|[]] buf] c2] eqn:Hrecv;
      apply Receive_same_session in Hrecv.
    + intros H; inversion H; subst. eapply same_session_trans; eauto.
    + destruct (Decode (parser c) buf); intros H; inversion H; subst;
        eapply same_session_trans; eauto.
Qed.

(** ** Establishing a session *)

Lemma rejection_message_contains rsp v :
  Contains (ToString (GetCurrentVer rsp)) (rejection_message rsp v) /\
  Contains (ToString v) (rejection_message rsp v) /\
  (GetError rsp <> ""%string ->
   Contains (GetError rsp) (rejection_message rsp v)).
Proof.
  unfold rejection_message. repeat split.
  - auto 10 with contains.
  - auto 12 with contains.
  - intros Hne. destruct (GetError rsp) as [|ch err] eqn:E; [congruence|].
    simpl string_empty. simpl negb. cbv iota.
    apply Contains_app_l. auto 10 with contains.
Qed.

(** [InternalEstablish] on a connection that is not connected and whose
    socket connects: the handshake decides. *)
Lemma InternalEstablish_connects cfg c c1 :
  connected c = false ->
  Connect_socket (GetHost cfg) (GetTcpPort cfg) (set_config c cfg)
  = (true, c1) ->
  InternalEstablish cfg c =
  match MakeRequestHandshake c1 with
  | (inl e, c2) => (inl e, c2)
  | (inr AI_ERROR, c2) => (inr AI_ERROR, Close c2)
  | (inr res, c2) =>
      match GetProtocolVersion (config c2) with
      | inl e => (inl (ThrowIgnite e), c2)
      | inr v => (inr res, set_parser c2 (SetProtocolVersion (parser c2) v))
      end
  end.
Proof.
  intros Hc Hconn.
  unfold InternalEstablish, bind, modify, gets, call, ret, read_config.
  cbn [connected set_config]. rewrite Hc, Hconn. cbn [negb].
  destruct (MakeRequestHandshake c1) as [[e|res] c2]; [reflexivity|].
  destruct res; cbn [SqlResult_eqb]; try reflexivity;
    destruct (GetProtocolVersion (config c2)); reflexivity.
Qed.

Lemma Connect_socket_spec host port c c1 :
  Connect_socket host port c = (true, c1) ->
  connected c1 = true /\
  outgoing (socket c1) = outgoing (socket c) /\
  sendPlan (socket c1) = sendPlan (socket c) /\
  incoming (socket c1) = incoming (socket c) /\
  recvPlan (socket c1) = recvPlan (socket c) /\
  parser c1 = parser c /\ config c1 = config c /\
  diagnosticRecords c1 = diagnosticRecords c.
Proof.
  unfold Connect_socket, socket_Connect.
  destruct (connectPlan (socket c)) as [|ok plan];
    intros H; inversion H; subst; repeat split.
Qed.

Lemma MakeRequestHandshake_unsupported c v :
  GetProtocolVersion (config c) = inr v ->
  IsSupported v = false ->
  exists msg,
    MakeRequestHandshake c =
      (inr AI_ERROR,
       AddStatusRecord S01S00_INVALID_CONNECTION_STRING_ATTRIBUTE msg c) /\
    (params_readable (config c) -> msg = unsupported_version_message v).
Proof.
  intros Hv Hsup.
  unfold MakeRequestHandshake, bind, try_, read_config, modify, ret.
  rewrite Hv.
  destruct (IsDistributedJoins (config c)) as [e|dj] eqn:E1;
    [eexists; split; [reflexivity|];
     intros (? & ? & ? & ? & ? & ? & ? & ? & ? & ? & ? & ?); congruence|].
  destruct (IsEnforceJoinOrder (config c)) as [e|ejo] eqn:E2;
    [eexists; split; [reflexivity|];
     intros (? & ? & ? & ? & ? & ? & ? & ? & ? & ? & ? & ?); congruence|].
  destruct (IsReplicatedOnly (config c)) as [e|ro] eqn:E3;
    [eexists; split; [reflexivity|];
     intros (? & ? & ? & ? & ? & ? & ? & ? & ? & ? & ? & ?); congruence|].
  destruct (IsCollocated (config c)) as [e|col] eqn:E4;
    [eexists; split; [reflexivity|];
     intros (? & ? & ? & ? & ? & ? & ? & ? & ? & ? & ? & ?); congruence|].
  destruct (IsLazy (config c)) as [e|lz] eqn:E5;
    [eexists; split; [reflexivity|];
     intros (? & ? & ? & ? & ? & ? & ? & ? & ? & ? & ? & ?); congruence|].
  cbn [req_version]. rewrite Hsup. cbn [negb].
  eexists; split; [reflexivity|]. reflexivity.
Qed.

Lemma MakeRequestHandshake_rejected c c2 v dj ejo ro col lz rsp :
  GetProtocolVersion (config c) = inr v ->
  IsDistributedJoins (config c) = inr dj ->
  IsEnforceJoinOrder (config c) = inr ejo ->
  IsReplicatedOnly (config c) = inr ro ->
  IsCollocated (config c) = inr col ->
  IsLazy (config c) = inr lz ->
  IsSupported v = true ->
  SyncMessage (mkHandshakeRequest v dj ejo ro col lz) c = (inr rsp, c2) ->
  IsAccepted rsp = false ->
  MakeRequestHandshake c =
    (inr AI_ERROR,
     AddStatusRecord S08004_CONNECTION_REJECTED (rejection_message rsp v) c2).
Proof.
  intros Hv H1 H2 H3 H4 H5 Hsup Hsync Hrej.
  pose proof (SyncMessage_same_session _ _ _ _ Hsync) as (_ & Hcfg & _).
  unfold MakeRequestHandshake, bind, try_, read_config, modify, ret.
  rewrite Hv, H1, H2, H3, H4, H5. cbn [req_version].
  rewrite Hsup. cbn [negb]. rewrite Hsync, Hrej. cbn [negb].
  rewrite Hcfg, Hv. reflexivity.
Qed.

(** C7. When the handshake response carries [accepted = false],
    establishing fails with one [S08004_CONNECTION_REJECTED] record and
    the connection closed; the message of the record contains the version
    string of the server, the version string the driver asked for, and the
    error text of the server when that is not empty. *)
Theorem Establish_handshake_rejected :
  forall (cfg : Configuration) (c c1 c2 : Connection)
         (v : ProtocolVersion) (dj ejo ro col lz : bool)
         (rsp : HandshakeResponse),
    connected c = false ->
    Connect_socket (GetHost cfg) (GetTcpPort cfg) (set_config c cfg)
    = (true, c1) ->
    GetProtocolVersion cfg = inr v ->
    IsDistributedJoins cfg = inr dj ->
    IsEnforceJoinOrder cfg = inr ejo ->
    IsReplicatedOnly cfg = inr ro ->
    IsCollocated cfg = inr col ->
    IsLazy cfg = inr lz ->
    IsSupported v = true ->
    SyncMessage (mkHandshakeRequest v dj ejo ro col lz) c1 = (inr rsp, c2) ->
    IsAccepted rsp = false ->
    exists c3,
      InternalEstablish cfg c = (inr AI_ERROR, c3) /\
      diagnosticRecords c3 =
        diagnosticRecords c
          ++ [CreateStatusRecord S08004_CONNECTION_REJECTED
                                 (rejection_message rsp v) 0 0] /\
      connected c3 = false /\
      Contains (ToString (GetCurrentVer rsp)) (rejection_message rsp v) /\
      Contains (ToString v) (rejection_message rsp v) /\
      (GetError rsp <> ""%string ->
       Contains (GetError rsp) (rejection_message rsp v)).
Proof.
  intros cfg c c1 c2 v dj ejo ro col lz rsp
         Hc Hconn Hv H1 H2 H3 H4 H5 Hsup Hsync Hrej.
  pose proof (Connect_socket_spec _ _ _ _ Hconn)
    as (_ & _ & _ & _ & _ & _ & Hcfg1 & Hdiag1).
  cbn [config diagnosticRecords set_config] in Hcfg1, Hdiag1.
  pose proof (SyncMessage_same_session _ _ _ _ Hsync) as (_ & _ & Hdiag2 & _).
  rewrite (InternalEstablish_connects cfg c c1 Hc Hconn).
  rewrite (MakeRequestHandshake_rejected c1 c2 v dj ejo ro col lz rsp)
    by (rewrite ?Hcfg1; assumption).
  eexists. split; [reflexivity|].
  split; [cbn [Close AddStatusRecord diagnosticRecords]; congruence|].
  split; [reflexivity|].
  apply rejection_message_contains.
Qed.

(** [InternalEstablish] on a connection that is connected already: the
    [S08002_ALREADY_CONNECTED] record is added, and the configuration
    member holds the argument, which the function stores before it looks
    at [connected]. *)
Lemma InternalEstablish_already_connected cfg c :
  connected c = true ->
  InternalEstablish cfg c =
  (inr AI_ERROR,
   AddStatusRecord S08002_ALREADY_CONNECTED "Already connected."
                   (set_config c cfg)).
Proof.
  intros Hc. unfold InternalEstablish, bind, modify, gets, ret.
  cbn [connected set_config]. rewrite Hc. reflexivity.
Qed.

Lemma Connect_socket_frame host port c :
  outgoing (socket (snd (Connect_socket host port c))) = outgoing (socket c) /\
  sendPlan (socket (snd (Connect_socket host port c))) = sendPlan (socket c) /\
  connected (snd (Connect_socket host port c))
  = fst (Connect_socket host port c).
Proof.
  unfold Connect_socket, socket_Connect.
  destruct (connectPlan (socket c)); repeat split.
Qed.

Lemma InternalEstablish_cannot_connect cfg c :
  connected c = false ->
  fst (Connect_socket (GetHost cfg) (GetTcpPort cfg) (set_config c cfg))
  = false ->
  InternalEstablish cfg c =
  (inr AI_ERROR,
   AddStatusRecord S08001_CANNOT_CONNECT
                   "Failed to establish connection with the host."
                   (snd (Connect_socket (GetHost cfg) (GetTcpPort cfg)
                                        (set_config c cfg)))).
Proof.
  intros Hc Hconn.
  unfold InternalEstablish, bind, modify, gets, call, ret.
  cbn [connected set_config]. rewrite Hc.
  destruct (Connect_socket (GetHost cfg) (GetTcpPort cfg) (set_config c cfg))
    as [ok c1].
  simpl in Hconn. subst ok. reflexivity.
Qed.

(** C8. For every configuration that asks for a protocol version outside
    the supported ones, establishing fails and the socket has accepted no
    byte and seen no send.  On a connection that is not connected and
    whose socket opens, the failure is one
    [S01S00_INVALID_CONNECTION_STRING_ATTRIBUTE] record, which names the
    version whenever the negotiation parameters can be read. *)
Theorem Establish_unsupported_version :
  forall (cfg : Configuration) (c : Connection) (v : ProtocolVersion),
    GetProtocolVersion cfg = inr v ->
    IsSupported v = false ->
    exists c3,
      InternalEstablish cfg c = (inr AI_ERROR, c3) /\
      outgoing (socket c3) = outgoing (socket c) /\
      sendPlan (socket c3) = sendPlan (socket c) /\
      (connected c = false ->
       fst (Connect_socket (GetHost cfg) (GetTcpPort cfg) (set_config c cfg))
       = true ->
       exists msg,
         diagnosticRecords c3 =
           diagnosticRecords c
             ++ [CreateStatusRecord S01S00_INVALID_CONNECTION_STRING_ATTRIBUTE
                                    msg 0 0] /\
         (params_readable cfg -> msg = unsupported_version_message v) /\
         Contains (ToString v) (unsupported_version_message v) /\
         connected c3 = false).
Proof.
  intros cfg c v Hv Hsup.
  destruct (connected c) eqn:Hc.
  { rewrite (InternalEstablish_already_connected cfg c Hc).
    eexists. split; [reflexivity|].
    repeat split. discriminate. }
  pose proof (Connect_socket_frame (GetHost cfg) (GetTcpPort cfg)
                                   (set_config c cfg)) as (Hout & Hsp & _).
  destruct (Connect_socket (GetHost cfg) (GetTcpPort cfg) (set_config c cfg))
    as [ok c1] eqn:Hconn.
  cbn [fst snd socket set_config] in Hout, Hsp |- *.
  destruct ok.
  - pose proof (Connect_socket_spec _ _ _ _ Hconn)
      as (_ & _ & _ & _ & _ & _ & Hcfg1 & Hdiag1).
    cbn [config diagnosticRecords set_config] in Hcfg1, Hdiag1.
    destruct (MakeRequestHandshake_unsupported c1 v) as (msg & Hrun & Hmsg);
      [rewrite Hcfg1; exact Hv | exact Hsup |].
    rewrite (InternalEstablish_connects cfg c c1 Hc Hconn), Hrun.
    eexists. split; [reflexivity|].
    split; [exact Hout|]. split; [exact Hsp|].
    intros _ _. exists msg.
    split; [cbn [Close AddStatusRecord diagnosticRecords]; congruence|].
    split; [rewrite <- Hcfg1; exact Hmsg|].
    split; [unfold unsupported_version_message; auto with contains|].
    reflexivity.
  - rewrite (InternalEstablish_cannot_connect cfg c Hc)
      by (rewrite Hconn; reflexivity).
    rewrite Hconn. eexists. split; [reflexivity|].
    split; [exact Hout|]. split; [exact Hsp|].
    intros _ Habs. discriminate.
Qed.

(** C9, as the code has it. Setting [SQL_ATTR_CONNECTION_DEAD] fails with
    [SHY092_OPTION_TYPE_OUT_OF_RANGE] for every value and every state of
    the connection; setting any other attribute fails with
    [SHYC00_OPTIONAL_FEATURE_NOT_IMPLEMENTED]; getting any other attribute
    into a buffer that is not null fails with
    [SHYC00_OPTIONAL_FEATURE_NOT_IMPLEMENTED]; getting
    [SQL_ATTR_CONNECTION_DEAD] into a buffer that is not null while
    connected succeeds and stores [SQL_CD_FALSE]; and getting any
    attribute into a null buffer fails with [SHY000_GENERAL_ERROR]. *)
Theorem Attribute_access :
  forall (c : Connection) (attr : Z) (value : option Z) (valueLen : Z)
         (cell bufLen : Z) (lenCell : option Z),
    InternalSetAttribute SQL_ATTR_CONNECTION_DEAD value valueLen c =
      (AI_ERROR,
       AddStatusRecord SHY092_OPTION_TYPE_OUT_OF_RANGE
                       "Attribute is read only." c) /\
    (attr <> SQL_ATTR_CONNECTION_DEAD ->
     InternalSetAttribute attr value valueLen c =
       (AI_ERROR,
        AddStatusRecord SHYC00_OPTIONAL_FEATURE_NOT_IMPLEMENTED
                        "Specified attribute is not supported." c) /\
     InternalGetAttribute attr (Some cell) bufLen lenCell c =
       (AI_ERROR, Some cell, lenCell,
        AddStatusRecord SHYC00_OPTIONAL_FEATURE_NOT_IMPLEMENTED
                        "Specified attribute is not supported." c)) /\
    (connected c = true ->
     InternalGetAttribute SQL_ATTR_CONNECTION_DEAD (Some cell) bufLen lenCell c =
       (AI_SUCCESS, Some SQL_CD_FALSE,
        match lenCell with Some _ => Some SQL_IS_INTEGER | None => None end,
        c)) /\
    InternalGetAttribute attr None bufLen lenCell c =
      (AI_ERROR, None, lenCell,
       AddStatusRecord SHY000_GENERAL_ERROR "Data buffer is NULL." c).
Proof.
  intros c attr value valueLen cell bufLen lenCell.
  split; [reflexivity|]. split; [| split; [| reflexivity]].
  - intros Hattr. unfold InternalSetAttribute, InternalGetAttribute.
    destruct (Z.eqb_spec attr SQL_ATTR_CONNECTION_DEAD); [contradiction|].
    split; reflexivity.
  - intros Hc. unfold InternalGetAttribute. rewrite Hc. reflexivity.
Qed.

(** ** Further properties of the transfer loops *)

Lemma socket_Send_positive s buf :
  Forall (fun r => 0 < r) (sendPlan s) ->
  (0 < length buf)%nat ->
  0 < fst (socket_Send s buf) /\
  Forall (fun r => 0 < r) (sendPlan (snd (socket_Send s buf))).
Proof.
  intros Hplan Hbuf. unfold socket_Send.
  assert (Hhd : 0 < hd (Z.of_nat (length buf)) (sendPlan s)).
  { destruct Hplan; simpl; lia. }
  assert (Htl : Forall (fun r => 0 < r) (tl (sendPlan s))).
  { destruct Hplan; simpl; auto. }
  destruct (Z.leb_spec (hd (Z.of_nat (length buf)) (sendPlan s)) 0); [lia|].
  simpl. split; [lia | exact Htl].
Qed.

Lemma SendAll_loop_delivers data :
  forall m sent c,
    (length data - sent = m)%nat -> (sent <= length data)%nat ->
    Forall (fun r => 0 < r) (sendPlan (socket c)) ->
    exists c',
      SendAll_loop data sent c = (length data, c') /\
      Forall (fun r => 0 < r) (sendPlan (socket c')).
Proof.
  induction m as [m IH] using lt_wf_ind.
  intros sent c Hm Hle Hplan.
  rewrite SendAll_loop_step.
  destruct (Nat.eqb_spec sent (length data)) as [E|E].
  - subst sent. eauto.
  - pose proof (socket_Send_positive (socket c) (skipn sent data) Hplan
                  ltac:(rewrite length_skipn; lia)) as [Hpos Hplan'].
    destruct (socket_Send (socket c) (skipn sent data)) as [res sock] eqn:Hcall.
    simpl in Hpos, Hplan'.
    apply socket_Send_spec in Hcall. rewrite length_skipn in Hcall.
    destruct Hcall as (Hres & _).
    destruct (Z.leb_spec res 0); [lia|].
    apply (IH (length data - (sent + Z.to_nat res))%nat);
      [lia | reflexivity | lia | exact Hplan'].
Qed.

(** X1. [SendAll] accounts for every byte: whatever the socket does, the
    count returned is at most the size of the buffer, the socket has
    accepted exactly that many bytes from the start of the buffer, and
    the connection keeps its [connected] flag when the count is the size
    of the buffer and is closed otherwise. *)
Theorem SendAll_accounting :
  forall (data : list byte) (c : Connection),
    (fst (SendAll data c) <= length data)%nat /\
    outgoing (socket (snd (SendAll data c)))
    = outgoing (socket c) ++ firstn (fst (SendAll data c)) data /\
    incoming (socket (snd (SendAll data c))) = incoming (socket c) /\
    connected (snd (SendAll data c))
    = (if Nat.eqb (fst (SendAll data c)) (length data)
       then connected c else false) /\
    (fst (SendAll data c) <> length data ->
     isOpen (socket (snd (SendAll data c))) = false) /\
    same_session c (snd (SendAll data c)).
Proof.
  intros data c.
  destruct (SendAll data c) as [k c'] eqn:Hall. simpl.
  apply SendAll_spec in Hall.
  destruct Hall as (Hle & Hout & Hinc & _ & Hfull & Hshort & Hsame).
  split; [exact Hle|]. split; [exact Hout|]. split; [exact Hinc|].
  split; [| split; [intros Hne; apply Hshort, Hne | exact Hsame]].
  destruct (Nat.eqb_spec k (length data)) as [E|E].
  - apply Hfull, E.
  - apply Hshort, E.
Qed.

(** X2. On a socket whose sends do not fail, [SendAll] gets the whole
    buffer accepted, however the socket cuts it into pieces: it returns
    the size of the buffer, the buffer stands behind what the socket had
    accepted before, and the [connected] flag is as it was. *)
Theorem SendAll_delivers :
  forall (data : list byte) (c : Connection),
    Forall (fun r => 0 < r) (sendPlan (socket c)) ->
    fst (SendAll data c) = length data /\
    outgoing (socket (snd (SendAll data c))) = outgoing (socket c) ++ data /\
    connected (snd (SendAll data c)) = connected c.
Proof.
  intros data c Hplan.
  destruct (SendAll_loop_delivers data (length data - 0)%nat 0%nat c
                                  eq_refl ltac:(lia) Hplan)
    as (c' & Hrun & _).
  change (SendAll_loop data 0 c) with (SendAll data c) in Hrun.
  rewrite Hrun. simpl.
  apply SendAll_spec in Hrun.
  destruct Hrun as (_ & Hout & _ & _ & Hfull & _).
  rewrite firstn_all in Hout.
  split; [reflexivity|]. split; [exact Hout|]. apply Hfull. reflexivity.
Qed.

(** X3. [ReceiveAll] accounts for every byte: whatever the socket does,
    the count returned is at most the size asked for and at most what the
    stream held, exactly that many bytes have left the stream and stand
    at the start of the buffer in stream order with the rest of the
    buffer untouched, and the connection keeps its [connected] flag when
    the count is the size asked for and is closed otherwise. *)
Theorem ReceiveAll_accounting :
  forall (dst : list byte) (c : Connection),
    (fst (fst (ReceiveAll dst (length dst) c)) <= length dst)%nat /\
    (fst (fst (ReceiveAll dst (length dst) c))
     <= length (incoming (socket c)))%nat /\
    snd (fst (ReceiveAll dst (length dst) c))
    = firstn (fst (fst (ReceiveAll dst (length dst) c))) (incoming (socket c))
        ++ skipn (fst (fst (ReceiveAll dst (length dst) c))) dst /\
    incoming (socket (snd (ReceiveAll dst (length dst) c)))
    = skipn (fst (fst (ReceiveAll dst (length dst) c))) (incoming (socket c)) /\
    outgoing (socket (snd (ReceiveAll dst (length dst) c)))
    = outgoing (socket c) /\
    connected (snd (ReceiveAll dst (length dst) c))
    = (if Nat.eqb (fst (fst (ReceiveAll dst (length dst) c))) (length dst)
       then connected c else false) /\
    (fst (fst (ReceiveAll dst (length dst) c)) <> length dst ->
     isOpen (socket (snd (ReceiveAll dst (length dst) c))) = false) /\
    same_session c (snd (ReceiveAll dst (length dst) c)).
Proof.
  intros dst c.
  destruct (ReceiveAll dst (length dst) c) as [[k buf] c'] eqn:Hall. simpl.
  apply ReceiveAll_spec in Hall; [| reflexivity].
  destruct Hall as (Hle & Hav & Hbuf & Hinc & _ & Hout & Hfull & Hshort & Hsame).
  split; [exact Hle|]. split; [exact Hav|]. split; [exact Hbuf|].
  split; [exact Hinc|]. split; [exact Hout|].
  split; [| split; [intros Hne; apply Hshort, Hne | exact Hsame]].
  destruct (Nat.eqb_spec k (length dst)) as [E|E].
  - apply Hfull, E.
  - apply Hshort, E.
Qed.

(** X4. On a socket whose receives do not fail and whose stream holds at
    least as many bytes as the buffer has room for, [ReceiveAll] fills
    the buffer with the next bytes of the stream, however the socket
    cuts them into pieces, and leaves the [connected] flag as it was. *)
Theorem ReceiveAll_delivers :
  forall (dst : list byte) (c : Connection),
    Forall (fun r => 0 < r) (recvPlan (socket c)) ->
    (length dst <= length (incoming (socket c)))%nat ->
    fst (ReceiveAll dst (length dst) c)
    = (length dst, firstn (length dst) (incoming (socket c))) /\
    incoming (socket (snd (ReceiveAll dst (length dst) c)))
    = skipn (length dst) (incoming (socket c)) /\
    connected (snd (ReceiveAll dst (length dst) c)) = connected c.
Proof.
  intros dst c Hplan Hav.
  destruct (ReceiveAll_loop_delivers (length dst) (length dst) dst c Hplan Hav)
    as (buf & c' & Hrun & _).
  change (ReceiveAll_loop (length dst) (length dst) dst c)
    with (ReceiveAll dst (length dst) c) in Hrun.
  rewrite Hrun. simpl.
  apply ReceiveAll_spec in Hrun; [| reflexivity].
  destruct Hrun as (_ & _ & Hbuf & Hinc & _ & _ & Hfull & _).
  rewrite skipn_all, app_nil_r in Hbuf.
  split; [rewrite Hbuf; reflexivity|]. split; [exact Hinc|].
  apply Hfull. reflexivity.
Qed.

(** ** Further properties of the frame codec *)

Lemma frame_image_length p :
  length (frame_image p) = (4 + length p)%nat.
Proof.
  unfold frame_image. rewrite length_app, store_int32_length. reflexivity.
Qed.

Lemma Send_returns_outgoing p c c' :
  Send p c = (inr tt, c') ->
  outgoing (socket c') = outgoing (socket c) ++ frame_image p /\
  incoming (socket c') = incoming (socket c) /\
  recvPlan (socket c') = recvPlan (socket c) /\
  connected c = true /\ connected c' = true.
Proof.
  intros Hsend.
  destruct (Send_returns_fits p c c' Hsend) as (Hc & Hfit & Hall).
  apply SendAll_spec in Hall.
  destruct Hall as (_ & Hout & Hinc & Hrp & Hfull & _).
  rewrite firstn_all, (Send_buffer_frame p Hfit) in Hout.
  destruct (Hfull eq_refl) as [Hconn _].
  repeat split; try assumption. congruence.
Qed.

Lemma Receive_connected_after msg c :
  connected (snd (Receive msg c))
  = match fst (fst (Receive msg c)) with
    | inr _ => true
    | inl _ => false
    end.
Proof.
  destruct (connected c) eqn:Hc.
  - rewrite (Receive_connected msg c Hc).
    destruct (header_read c) as [[received hdr] c1] eqn:Hhdr.
    apply header_read_spec in Hhdr.
    destruct Hhdr as (_ & _ & _ & _ & _ & _ & Hfull1 & Hshort1 & _).
    unfold sizeof_OdbcProtocolHeader.
    destruct (Z.eqb_spec (Z.of_nat received) 4) as [E|E]; simpl negb; cbv iota.
    + assert (Hc1 : connected c1 = true)
        by (rewrite Hfull1 by lia; exact Hc).
      destruct (Z.ltb_spec (load_int32 native hdr) 0); [reflexivity|].
      destruct (Z.eqb_spec (load_int32 native hdr) 0); [exact Hc1|].
      destruct (body_read (load_int32 native hdr) c1) as [[got body] c2] eqn:Hb.
      apply body_read_spec in Hb.
      destruct Hb as (_ & _ & _ & _ & _ & _ & _ & Hfull2 & Hshort2 & _).
      destruct (Z.eqb_spec (Z.of_nat got) (load_int32 native hdr));
        simpl negb; cbv iota; simpl.
      * rewrite Hfull2 by lia. exact Hc1.
      * apply Hshort2. lia.
    + simpl. apply Hshort1. lia.
  - unfold Receive. rewrite Hc. simpl. exact Hc.
Qed.

(** A frame at the head of the stream, on a socket whose receives do not
    fail. *)
Lemma Receive_frame_delivers msg c hdr body rest :
  connected c = true ->
  length hdr = 4%nat ->
  load_int32 native hdr = Z.of_nat (length body) ->
  incoming (socket c) = hdr ++ body ++ rest ->
  Forall (fun n => 0 < n) (recvPlan (socket c)) ->
  exists c',
    Receive msg c = (inr tt, body, c') /\
    incoming (socket c') = rest /\
    connected c' = true /\
    Forall (fun n => 0 < n) (recvPlan (socket c')) /\
    outgoing (socket c') = outgoing (socket c) /\
    same_session c c'.
Proof.
  intros Hc Hlen Hload Hin Hplan.
  rewrite (Receive_connected msg c Hc).
  destruct (ReceiveAll_loop_delivers 4 4 (raw_storage 4) c Hplan)
    as (h & c1 & Hrun & Hplan1).
  { rewrite Hin, length_app. lia. }
  assert (Hread : header_read c = (4%nat, h, c1)) by exact Hrun.
  rewrite Hread.
  apply header_read_spec in Hread.
  destruct Hread as (_ & Hh & _ & Hinc1 & _ & Hout1 & Hconn1 & _ & Hsame1).
  specialize (Hh eq_refl). specialize (Hconn1 eq_refl).
  rewrite Hin, firstn_app, firstn_all2 in Hh by lia.
  replace (4 - length hdr)%nat with 0%nat in Hh by lia.
  simpl in Hh. rewrite app_nil_r in Hh. subst h.
  rewrite Hin, skipn_app, skipn_all2 in Hinc1 by lia.
  replace (4 - length hdr)%nat with 0%nat in Hinc1 by lia.
  simpl in Hinc1.
  rewrite Hload.
  change (Z.of_nat 4 =? sizeof_OdbcProtocolHeader) with true.
  cbv beta iota. simpl negb. cbv iota.
  destruct (Z.ltb_spec (Z.of_nat (length body)) 0); [lia|].
  destruct (Z.eqb_spec (Z.of_nat (length body)) 0) as [Hz|Hnz].
  - destruct body; [| simpl in Hz; lia].
    exists c1. simpl in Hinc1.
    split; [reflexivity|]. split; [exact Hinc1|]. split; [congruence|].
    split; [exact Hplan1|]. split; [exact Hout1 | exact Hsame1].
  - destruct (ReceiveAll_loop_delivers
                (length body) (length body)
                (vector_resize [] (length body)) c1 Hplan1)
      as (b & c2 & Hrun2 & Hplan2).
    { rewrite Hinc1, length_app. lia. }
    assert (Hbody : body_read (Z.of_nat (length body)) c1
                    = (length body, b, c2)).
    { unfold body_read. rewrite Nat2Z.id. exact Hrun2. }
    rewrite Hbody.
    destruct (Z.eqb_spec (Z.of_nat (length body)) (Z.of_nat (length body)));
      [| contradiction].
    simpl negb. cbv iota.
    apply body_read_spec in Hbody. rewrite Nat2Z.id in Hbody.
    destruct Hbody as (_ & _ & Hb & Hblen & Hinc2 & _ & Hout2 & Hconn2 & _
                       & Hsame2).
    specialize (Hconn2 eq_refl).
    rewrite <- Hblen, firstn_all, Hblen, Hinc1, firstn_app, Nat.sub_diag in Hb.
    simpl firstn in Hb at 2. rewrite app_nil_r, firstn_all in Hb.
    rewrite Hinc1, skipn_app, Nat.sub_diag, skipn_all in Hinc2.
    exists c2. subst b.
    split; [reflexivity|]. split; [exact Hinc2|].
    split; [congruence|]. split; [exact Hplan2|].
    split; [congruence|]. eapply same_session_trans; eauto.
Qed.

(** X5. What a [Send] on a connected connection leaves on the wire is
    always a prefix of the frame: for a payload that fits the [int32_t]
    size of the buffer, the socket has accepted the first [k] bytes of
    the frame for some [k]; the call returns when [k] is the size of the
    frame and throws [S08S01_LINK_FAILURE] otherwise, and the connection
    is connected afterwards exactly when the call returned. *)
Theorem Send_outcome :
  forall (p : list byte) (c : Connection),
    connected c = true ->
    Z.of_nat (length p) + sizeof_OdbcProtocolHeader <= Int32.max_signed ->
    exists k : nat,
      (k <= length (frame_image p))%nat /\
      outgoing (socket (snd (Send p c)))
      = outgoing (socket c) ++ firstn k (frame_image p) /\
      fst (Send p c)
      = (if Nat.eqb k (length (frame_image p))
         then inr tt
         else inl (odbc_error
                     S08S01_LINK_FAILURE
                     "Can not send message due to connection failure")) /\
      connected (snd (Send p c)) = Nat.eqb k (length (frame_image p)).
Proof.
  intros p c Hc Hfit.
  rewrite (Send_connected p c Hc), (Send_buffer_frame p Hfit).
  destruct (SendAll (frame_image p) c) as [k c1] eqn:Hall.
  apply SendAll_spec in Hall.
  destruct Hall as (Hle & Hout & _ & _ & Hfull & Hshort & _).
  exists k. split; [exact Hle|].
  pose proof (frame_image_length p) as Hlen.
  unfold sizeof_OdbcProtocolHeader.
  destruct (Nat.eqb_spec k (length (frame_image p))) as [E|E].
  - destruct (Z.eqb_spec (Z.of_nat k) (Z.of_nat (length p) + 4)); [| lia].
    simpl. split; [exact Hout|]. split; [reflexivity|].
    destruct (Hfull E) as [Hconn _]. congruence.
  - destruct (Z.eqb_spec (Z.of_nat k) (Z.of_nat (length p) + 4)); [lia|].
    simpl. split; [exact Hout|]. split; [reflexivity|].
    apply Hshort, E.
Qed.

(** X6. Two [Send]s that return leave their two frames on the wire in the
    order of the calls, with nothing between them. *)
Theorem Send_twice :
  forall (p1 p2 : list byte) (c c1 c2 : Connection),
    Send p1 c = (inr tt, c1) ->
    Send p2 c1 = (inr tt, c2) ->
    outgoing (socket c2)
    = outgoing (socket c) ++ frame_image p1 ++ frame_image p2.
Proof.
  intros p1 p2 c c1 c2 H1 H2.
  apply Send_returns_outgoing in H1. apply Send_returns_outgoing in H2.
  destruct H1 as (Hout1 & _). destruct H2 as (Hout2 & _).
  rewrite Hout2, Hout1, <- app_assoc. reflexivity.
Qed.

(** X7. After [Receive] the connection is connected exactly when the call
    returned: every exception it throws is an [OdbcError] with state
    [S08003_NOT_CONNECTED] or [S08S01_LINK_FAILURE] and leaves
    [connected] false, for a short header as for a negative length and
    for a short body. *)
Theorem Receive_throws_disconnected :
  forall (msg : list byte) (c : Connection),
    match fst (fst (Receive msg c)) with
    | inr _ => connected (snd (Receive msg c)) = true
    | inl e =>
        connected (snd (Receive msg c)) = false /\
        exists text,
          e = odbc_error S08003_NOT_CONNECTED text \/
          e = odbc_error S08S01_LINK_FAILURE text
    end.
Proof.
  intros msg c.
  pose proof (Receive_connected_after msg c) as Hafter.
  destruct (fst (fst (Receive msg c))) as [e|[]] eqn:Hres; [| exact Hafter].
  split; [exact Hafter|].
  destruct (connected c) eqn:Hc.
  - rewrite (Receive_connected msg c Hc) in Hres.
    destruct (header_read c) as [[received hdr] c1].
    destruct (negb _) in Hres;
      [simpl in Hres; inversion Hres; eexists; right; reflexivity|].
    destruct (_ <? 0) in Hres;
      [simpl in Hres; inversion Hres; eexists; right; reflexivity|].
    destruct (_ =? 0) in Hres; [simpl in Hres; discriminate|].
    destruct (body_read (load_int32 native hdr) c1) as [[got body] c2].
    destruct (negb _) in Hres; simpl in Hres; [| discriminate].
    inversion Hres. eexists. right. reflexivity.
  - unfold Receive in Hres. rewrite Hc in Hres. simpl in Hres.
    inversion Hres. eexists. left. reflexivity.
Qed.

(** X8. What [Receive] returns is the next frame of the stream: when the
    call returns with the vector [q], the stream held four header bytes
    whose value is the length of [q], then [q], and the stream now stands
    right behind them. *)
Theorem Receive_returns_next_frame :
  forall (msg q : list byte) (c c' : Connection),
    Receive msg c = (inr tt, q, c') ->
    exists hdr : list byte,
      length hdr = 4%nat /\
      load_int32 native hdr = Z.of_nat (length q) /\
      incoming (socket c) = hdr ++ q ++ incoming (socket c') /\
      outgoing (socket c') = outgoing (socket c).
Proof.
  intros msg q c c' Hrecv.
  destruct (connected c) eqn:Hc;
    [| unfold Receive in Hrecv; rewrite Hc in Hrecv; discriminate].
  rewrite (Receive_connected msg c Hc) in Hrecv.
  destruct (header_read c) as [[received hdr] c1] eqn:Hhdr.
  unfold sizeof_OdbcProtocolHeader in Hrecv.
  destruct (Z.eqb_spec (Z.of_nat received) 4) as [E|E];
    simpl negb in Hrecv; cbv iota in Hrecv; [| discriminate].
  assert (received = 4%nat) by lia. subst received.
  apply header_read_spec in Hhdr.
  destruct Hhdr as (_ & Hh & Hhlen & Hinc1 & _ & Hout1 & _).
  specialize (Hh eq_refl). specialize (Hhlen eq_refl).
  assert (Hsplit : incoming (socket c) = hdr ++ incoming (socket c1)).
  { rewrite Hh, Hinc1. symmetry. apply firstn_skipn. }
  destruct (Z.ltb_spec (load_int32 native hdr) 0); [discriminate|].
  destruct (Z.eqb_spec (load_int32 native hdr) 0) as [Hz|Hnz].
  - inversion Hrecv; subst q c'. exists hdr.
    split; [exact Hhlen|]. split; [exact Hz|]. split; [exact Hsplit|].
    exact Hout1.
  - destruct (body_read (load_int32 native hdr) c1) as [[got body] c2] eqn:Hb.
    destruct (Z.eqb_spec (Z.of_nat got) (load_int32 native hdr)) as [Hg|Hg];
      simpl negb in Hrecv; cbv iota in Hrecv; [| discriminate].
    inversion Hrecv; subst q c'.
    apply body_read_spec in Hb.
    destruct Hb as (_ & Hav & Hfirst & Hblen & Hinc2 & _ & Hout2 & _).
    assert (Hgot : got = length body) by lia. subst got.
    rewrite firstn_all in Hfirst.
    exists hdr. split; [exact Hhlen|]. split; [lia|].
    split; [| congruence].
    rewrite Hsplit. f_equal.
    rewrite Hfirst at 1. rewrite Hinc2. symmetry. apply firstn_skipn.
Qed.

(** X9. [Receive] reads every well-formed frame: on a connected
    connection whose stream starts with four bytes whose value is the
    length of [body], followed by [body], and whose socket does not fail,
    the call returns [body], whatever the vector held and however the
    socket cuts the bytes into pieces, and the stream stands right
    behind the frame. *)
Theorem Receive_well_formed_frame :
  forall (msg hdr body rest : list byte) (c : Connection),
    connected c = true ->
    length hdr = 4%nat ->
    load_int32 native hdr = Z.of_nat (length body) ->
    incoming (socket c) = hdr ++ body ++ rest ->
    Forall (fun n => 0 < n) (recvPlan (socket c)) ->
    fst (Receive msg c) = (inr tt, body) /\
    incoming (socket (snd (Receive msg c))) = rest /\
    connected (snd (Receive msg c)) = true.
Proof.
  intros msg hdr body rest c Hc Hlen Hload Hin Hplan.
  destruct (Receive_frame_delivers msg c hdr body rest Hc Hlen Hload Hin Hplan)
    as (c' & Hrun & Hrest & Hconn & _).
  rewrite Hrun. simpl. auto.
Qed.

(** X10. Frames do not run into each other: what two [Send]s that return
    have put on the wire, two [Receive]s on a connected connection whose
    socket does not fail give back as the two payloads, in the order
    they were sent. *)
Theorem Send_twice_Receive_twice :
  forall (p1 p2 msg1 msg2 rest : list byte) (c c1 c2 r : Connection),
    Send p1 c = (inr tt, c1) ->
    Send p2 c1 = (inr tt, c2) ->
    connected r = true ->
    incoming (socket r) = frame_image p1 ++ frame_image p2 ++ rest ->
    Forall (fun n => 0 < n) (recvPlan (socket r)) ->
    fst (Receive msg1 r) = (inr tt, p1) /\
    fst (Receive msg2 (snd (Receive msg1 r))) = (inr tt, p2) /\
    incoming (socket (snd (Receive msg2 (snd (Receive msg1 r))))) = rest.
Proof.
  intros p1 p2 msg1 msg2 rest c c1 c2 r H1 H2 Hr Hin Hplan.
  destruct (Send_returns_fits p1 c c1 H1) as (_ & Hfit1 & _).
  destruct (Send_returns_fits p2 c1 c2 H2) as (_ & Hfit2 & _).
  assert (Hrange : forall p : list byte,
             Z.of_nat (length p) + sizeof_OdbcProtocolHeader
             <= Int32.max_signed ->
             load_int32 native (store_int32 native (Z.of_nat (length p)))
             = Z.of_nat (length p)).
  { intros p Hfit. apply load_store_int32_small.
    unfold Int32.in_range, Int32.min_signed, Int32.max_signed,
      sizeof_OdbcProtocolHeader in *. lia. }
  destruct (Receive_frame_delivers
              msg1 r (store_int32 native (Z.of_nat (length p1))) p1
              (frame_image p2 ++ rest) Hr)
    as (r1 & Hrun1 & Hrest1 & Hconn1 & Hplan1 & _).
  { apply store_int32_length. }
  { apply Hrange, Hfit1. }
  { rewrite Hin. unfold frame_image at 1. rewrite <- app_assoc. reflexivity. }
  { exact Hplan. }
  rewrite Hrun1. simpl.
  destruct (Receive_frame_delivers
              msg2 r1 (store_int32 native (Z.of_nat (length p2))) p2
              rest Hconn1)
    as (r2 & Hrun2 & Hrest2 & _).
  { apply store_int32_length. }
  { apply Hrange, Hfit2. }
  { rewrite Hrest1. unfold frame_image. rewrite <- app_assoc. reflexivity. }
  { exact Hplan1. }
  rewrite Hrun2. simpl. auto.
Qed.

(** X11. The frame codec reports by exception only: whatever the outcome,
    [Send] and [Receive] add no diagnostic record and leave the
    configuration and the parser as they were. *)
Theorem codec_keeps_session :
  forall (p msg : list byte) (c : Connection),
    same_session c (snd (Send p c)) /\
    same_session c (snd (Receive msg c)).
Proof.
  intros p msg c. split.
  - destruct (Send p c) as [r c'] eqn:H. simpl.
    eapply Send_same_session, H.
  - destruct (Receive msg c) as [[r m] c'] eqn:H. simpl.
    eapply Receive_same_session, H.
Qed.

(** ** Further properties of the life cycle *)

Lemma Connect_socket_session host port c :
  parser (snd (Connect_socket host port c)) = parser c /\
  config (snd (Connect_socket host port c)) = config c /\
  diagnosticRecords (snd (Connect_socket host port c)) = diagnosticRecords c /\
  incoming (socket (snd (Connect_socket host port c))) = incoming (socket c) /\
  isOpen (socket (snd (Connect_socket host port c)))
  = fst (Connect_socket host port c).
Proof.
  unfold Connect_socket, socket_Connect.
  destruct (connectPlan (socket c)); repeat split.
Qed.

Lemma SyncMessage_returns_connected req c rsp c2 :
  SyncMessage req c = (inr rsp, c2) ->
  connected c = true /\ connected c2 = true.
Proof.
  unfold SyncMessage, bind, gets, Receive_into, throw, ret.
  destruct (Send (Encode (parser c) req) c) as [[e|[]] c1] eqn:Hsend;
    [discriminate|].
  apply Send_returns_outgoing in Hsend.
  destruct Hsend as (_ & _ & _ & Hc & Hc1).
  pose proof (Receive_connected_after (Encode (parser c) req) c1) as Hafter.
  destruct (Receive (Encode (parser c) req) c1) as [[[e|[]] buf] c2'] eqn:Hrecv;
    [discriminate|].
  simpl in Hafter.
  destruct (Decode (parser c) buf); [discriminate|].
  intros H; inversion H; subst. auto.
Qed.

(** Every way [MakeRequestHandshake] ends: it returns, with [AI_SUCCESS]
    and no record added on a connection that is still connected, or with
    [AI_ERROR] and one record added. *)
Lemma MakeRequestHandshake_outcome c :
  exists res c',
    MakeRequestHandshake c = (inr res, c') /\
    config c' = config c /\ parser c' = parser c /\
    ((res = AI_SUCCESS /\
      diagnosticRecords c' = diagnosticRecords c /\
      connected c' = true /\
      exists v, GetProtocolVersion (config c) = inr v /\ IsSupported v = true) \/
     (res = AI_ERROR /\
      one_more_record (diagnosticRecords c) (diagnosticRecords c'))).
Proof.
  unfold MakeRequestHandshake, bind, try_, read_config, modify, ret.
  assert (Herr : forall st text,
             exists res c',
               (inr AI_ERROR, AddStatusRecord st text c)
               = (@inr Exn SqlResult res, c') /\
               config c' = config c /\ parser c' = parser c /\
               ((res = AI_SUCCESS /\
                 diagnosticRecords c' = diagnosticRecords c /\
                 connected c' = true /\
                 exists v, GetProtocolVersion (config c) = inr v /\
                           IsSupported v = true) \/
                (res = AI_ERROR /\
                 one_more_record (diagnosticRecords c) (diagnosticRecords c')))).
  { intros st text. eexists. eexists. split; [reflexivity|].
    split; [reflexivity|]. split; [reflexivity|].
    right. split; [reflexivity|]. eexists. reflexivity. }
  destruct (GetProtocolVersion (config c)) as [e|v] eqn:Hv; [apply Herr|].
  destruct (IsDistributedJoins (config c)) as [e|dj]; [apply Herr|].
  destruct (IsEnforceJoinOrder (config c)) as [e|ejo]; [apply Herr|].
  destruct (IsReplicatedOnly (config c)) as [e|ro]; [apply Herr|].
  destruct (IsCollocated (config c)) as [e|col]; [apply Herr|].
  destruct (IsLazy (config c)) as [e|lz]; [apply Herr|].
  cbn [req_version].
  destruct (IsSupported v) eqn:Hsup; cbn [negb]; [| apply Herr].
  destruct (SyncMessage (mkHandshakeRequest v dj ejo ro col lz) c)
    as [[e|rsp] c2] eqn:Hsync.
  - pose proof (SyncMessage_same_session _ _ _ _ Hsync) as (Hp & Hcfg & Hd & _).
    destruct e as [err|err]; eexists; eexists;
      (split; [reflexivity|]);
      (split; [exact Hcfg|]); (split; [exact Hp|]);
      right; (split; [reflexivity|]);
      eexists; cbn [AddStatusRecord_err AddStatusRecord diagnosticRecords];
      rewrite Hd; reflexivity.
  - pose proof (SyncMessage_same_session _ _ _ _ Hsync) as (Hp & Hcfg & Hd & _).
    pose proof (SyncMessage_returns_connected _ _ _ _ Hsync) as [_ Hc2].
    destruct (IsAccepted rsp); cbn [negb].
    + eexists. eexists. split; [reflexivity|].
      split; [exact Hcfg|]. split; [exact Hp|].
      left. split; [reflexivity|]. split; [exact Hd|]. split; [exact Hc2|].
      exists v. auto.
    + rewrite Hcfg, Hv. eexists. eexists. split; [reflexivity|].
      split; [exact Hcfg|]. split; [exact Hp|].
      right. split; [reflexivity|].
      eexists. cbn [AddStatusRecord diagnosticRecords]. rewrite Hd.
      reflexivity.
Qed.

Lemma InternalEstablish_outcome_cases cfg c :
  exists res c',
    InternalEstablish cfg c = (inr res, c') /\
    ((res = AI_SUCCESS /\
      connected c = false /\ connected c' = true /\
      diagnosticRecords c' = diagnosticRecords c /\
      config c' = cfg /\
      GetProtocolVersion cfg = inr (protocolVer (parser c'))) \/
     (res = AI_ERROR /\
      connected c' = connected c /\
      parser c' = parser c /\
      one_more_record (diagnosticRecords c) (diagnosticRecords c'))).
Proof.
  destruct (connected c) eqn:Hc.
  { rewrite (InternalEstablish_already_connected cfg c Hc).
    eexists. eexists. split; [reflexivity|]. right.
    split; [reflexivity|]. split; [exact Hc|]. split; [reflexivity|].
    eexists. reflexivity. }
  pose proof (Connect_socket_session (GetHost cfg) (GetTcpPort cfg)
                                     (set_config c cfg))
    as (Hp1 & Hcfg1 & Hd1 & _).
  pose proof (Connect_socket_frame (GetHost cfg) (GetTcpPort cfg)
                                   (set_config c cfg)) as (_ & _ & Hconn1).
  destruct (Connect_socket (GetHost cfg) (GetTcpPort cfg) (set_config c cfg))
    as [ok c1] eqn:Hconn.
  cbn [fst snd parser config diagnosticRecords set_config] in *.
  destruct ok.
  - rewrite (InternalEstablish_connects cfg c c1 Hc Hconn).
    destruct (MakeRequestHandshake_outcome c1)
      as (res & c2 & Hrun & Hcfg2 & Hp2 & [Hok|Hfail]).
    + destruct Hok as (-> & Hd2 & Hc2 & v & Hv & _).
      rewrite Hrun, Hcfg2, Hv.
      eexists. eexists. split; [reflexivity|]. left.
      split; [reflexivity|]. split; [reflexivity|].
      split; [exact Hc2|].
      split; [cbn [set_parser diagnosticRecords]; congruence|].
      split; [cbn [set_parser config]; congruence|].
      cbn [set_parser parser SetProtocolVersion protocolVer]. congruence.
    + destruct Hfail as (-> & r & Hd2).
      rewrite Hrun.
      eexists. eexists. split; [reflexivity|]. right.
      split; [reflexivity|]. split; [reflexivity|].
      split; [cbn [Close parser]; congruence|].
      exists r. cbn [Close diagnosticRecords]. congruence.
  - rewrite (InternalEstablish_cannot_connect cfg c Hc)
      by (rewrite Hconn; reflexivity).
    rewrite Hconn. cbn [snd].
    eexists. eexists. split; [reflexivity|]. right.
    split; [reflexivity|].
    split; [cbn [AddStatusRecord connected]; congruence|].
    split; [cbn [AddStatusRecord parser]; congruence|].
    eexists. cbn [AddStatusRecord diagnosticRecords]. rewrite Hd1.
    reflexivity.
Qed.

(** X12. [InternalEstablish] never lets an exception out and reports
    every failure: for every configuration and every connection it
    returns [AI_SUCCESS] or [AI_ERROR].  With [AI_SUCCESS] the connection
    was not connected before and is connected now, no diagnostic record
    was added, and the parser holds the protocol version of the
    configuration.  With [AI_ERROR] exactly one diagnostic record was
    added, and the [connected] flag and the parser's version are as they
    were. *)
Theorem InternalEstablish_outcome :
  forall (cfg : Configuration) (c : Connection),
    exists (res : SqlResult) (c' : Connection),
      InternalEstablish cfg c = (inr res, c') /\
      ((res = AI_SUCCESS /\
        connected c = false /\ connected c' = true /\
        diagnosticRecords c' = diagnosticRecords c /\
        config c' = cfg /\
        GetProtocolVersion cfg = inr (protocolVer (parser c'))) \/
       (res = AI_ERROR /\
        connected c' = connected c /\
        parser c' = parser c /\
        one_more_record (diagnosticRecords c) (diagnosticRecords c'))).
Proof. exact InternalEstablish_outcome_cases. Qed.

(** ** The handshake, branch by branch *)

Lemma handshake_request_reads cfg req :
  handshake_request cfg = Some req ->
  GetProtocolVersion cfg = inr (req_version req) /\
  IsDistributedJoins cfg = inr (req_distributedJoins req) /\
  IsEnforceJoinOrder cfg = inr (req_enforceJoinOrder req) /\
  IsReplicatedOnly cfg = inr (req_replicatedOnly req) /\
  IsCollocated cfg = inr (req_collocated req) /\
  IsLazy cfg = inr (req_lazy req).
Proof.
  unfold handshake_request.
  destruct (GetProtocolVersion cfg), (IsDistributedJoins cfg),
    (IsEnforceJoinOrder cfg), (IsReplicatedOnly cfg), (IsCollocated cfg),
    (IsLazy cfg); try discriminate.
  intros H; inversion H; subst. repeat split.
Qed.

(** [MakeRequestHandshake] with readable parameters and a supported
    version: the exchange decides. *)
Lemma MakeRequestHandshake_exchange c req :
  handshake_request (config c) = Some req ->
  IsSupported (req_version req) = true ->
  MakeRequestHandshake c =
  match SyncMessage req c with
  | (inl (ThrowOdbc err), c2) => (inr AI_ERROR, AddStatusRecord_err err c2)
  | (inl (ThrowIgnite err), c2) =>
      (inr AI_ERROR,
       AddStatusRecord S08004_CONNECTION_REJECTED (GetText err) c2)
  | (inr rsp, c2) =>
      if IsAccepted rsp then (inr AI_SUCCESS, c2)
      else (inr AI_ERROR,
            AddStatusRecord S08004_CONNECTION_REJECTED
                            (rejection_message rsp (req_version req)) c2)
  end.
Proof.
  intros Hreq Hsup.
  destruct (handshake_request_reads _ _ Hreq) as (Hv & H1 & H2 & H3 & H4 & H5).
  destruct req as [v dj ejo ro col lz].
  cbn [req_version req_distributedJoins req_enforceJoinOrder
       req_replicatedOnly req_collocated req_lazy] in *.
  unfold MakeRequestHandshake, bind, try_, read_config, modify, ret.
  rewrite Hv, H1, H2, H3, H4, H5. cbn [req_version].
  rewrite Hsup. cbn [negb].
  destruct (SyncMessage (mkHandshakeRequest v dj ejo ro col lz) c)
    as [[[err|err]|rsp] c2] eqn:Hsync; try reflexivity.
  pose proof (SyncMessage_same_session _ _ _ _ Hsync) as (_ & Hcfg & _).
  destruct (IsAccepted rsp); cbn [negb]; [reflexivity|].
  rewrite Hcfg, Hv. reflexivity.
Qed.

Lemma MakeRequestHandshake_unreadable c e :
  first_unreadable (config c) = Some e ->
  MakeRequestHandshake c =
  (inr AI_ERROR,
   AddStatusRecord S01S00_INVALID_CONNECTION_STRING_ATTRIBUTE (GetText e) c).
Proof.
  unfold first_unreadable, MakeRequestHandshake, bind, try_, read_config,
    modify, ret.
  destruct (GetProtocolVersion (config c));
    [intros H; inversion H; subst; reflexivity|].
  destruct (IsDistributedJoins (config c));
    [intros H; inversion H; subst; reflexivity|].
  destruct (IsEnforceJoinOrder (config c));
    [intros H; inversion H; subst; reflexivity|].
  destruct (IsReplicatedOnly (config c));
    [intros H; inversion H; subst; reflexivity|].
  destruct (IsCollocated (config c));
    [intros H; inversion H; subst; reflexivity|].
  destruct (IsLazy (config c));
    [intros H; inversion H; subst; reflexivity|].
  discriminate.
Qed.

Lemma Send_delivers p c :
  connected c = true ->
  Z.of_nat (length p) + sizeof_OdbcProtocolHeader <= Int32.max_signed ->
  Forall (fun r => 0 < r) (sendPlan (socket c)) ->
  exists c',
    Send p c = (inr tt, c') /\
    outgoing (socket c') = outgoing (socket c) ++ frame_image p /\
    incoming (socket c') = incoming (socket c) /\
    recvPlan (socket c') = recvPlan (socket c) /\
    connected c' = true.
Proof.
  intros Hc Hfit Hplan.
  destruct (SendAll_loop_delivers (frame_image p)
                                  (length (frame_image p) - 0)%nat 0%nat c
                                  eq_refl ltac:(lia) Hplan)
    as (c' & Hrun & _).
  change (SendAll_loop (frame_image p) 0 c)
    with (SendAll (frame_image p) c) in Hrun.
  exists c'.
  assert (Hsend : Send p c = (inr tt, c')).
  { rewrite (Send_connected p c Hc), (Send_buffer_frame p Hfit), Hrun.
    rewrite frame_image_length. unfold sizeof_OdbcProtocolHeader.
    destruct (Z.eqb_spec (Z.of_nat (4 + length p)) (Z.of_nat (length p) + 4));
      [reflexivity | lia]. }
  split; [exact Hsend|].
  apply Send_returns_outgoing in Hsend.
  destruct Hsend as (Hout & Hinc & Hrp & _ & Hc').
  auto.
Qed.

(** The exchange on a socket that does not fail, in front of a peer whose
    next frame is [body]. *)
Lemma SyncMessage_delivers req c hdr body rest :
  connected c = true ->
  Z.of_nat (length (Encode (parser c) req)) + sizeof_OdbcProtocolHeader
  <= Int32.max_signed ->
  Forall (fun r => 0 < r) (sendPlan (socket c)) ->
  Forall (fun r => 0 < r) (recvPlan (socket c)) ->
  length hdr = 4%nat ->
  load_int32 native hdr = Z.of_nat (length body) ->
  incoming (socket c) = hdr ++ body ++ rest ->
  exists c2,
    SyncMessage req c
    = (match Decode (parser c) body with
       | inl e => inl (ThrowIgnite e)
       | inr rsp => inr rsp
       end, c2) /\
    outgoing (socket c2)
    = outgoing (socket c) ++ frame_image (Encode (parser c) req) /\
    incoming (socket c2) = rest /\
    connected c2 = true.
Proof.
  intros Hc Hfit Hsp Hrp Hlen Hload Hin.
  destruct (Send_delivers (Encode (parser c) req) c Hc Hfit Hsp)
    as (c1 & Hsend & Hout1 & Hinc1 & Hrp1 & Hc1).
  destruct (Receive_frame_delivers (Encode (parser c) req) c1 hdr body rest
                                   Hc1 Hlen Hload)
    as (c2 & Hrecv & Hinc2 & Hc2 & _ & Hout2 & _).
  { rewrite Hinc1. exact Hin. }
  { rewrite Hrp1. exact Hrp. }
  exists c2.
  split; [| split; [congruence | split; [exact Hinc2 | exact Hc2]]].
  unfold SyncMessage, bind, gets, Receive_into, throw, ret.
  rewrite Hsend, Hrecv.
  destruct (Decode (parser c) body); reflexivity.
Qed.

(** X13. Establishing over the wire.  On a connection that is not
    connected, whose socket opens and does not fail, with a configuration
    whose negotiation parameters are readable and whose version is
    supported, and in front of a node whose next frame decodes to a
    response: [InternalEstablish] puts exactly one frame on the wire, the
    encoded request, and reads exactly the frame of the response; it
    returns [AI_SUCCESS] and leaves the connection connected when the
    response accepts, and returns [AI_ERROR] and leaves it closed when
    the response rejects. *)
Theorem Establish_over_the_wire :
  forall (cfg : Configuration) (c : Connection) (req : HandshakeRequest)
         (rsp : HandshakeResponse) (hdr body rest : list byte),
    connected c = false ->
    fst (Connect_socket (GetHost cfg) (GetTcpPort cfg) (set_config c cfg))
    = true ->
    handshake_request cfg = Some req ->
    IsSupported (req_version req) = true ->
    Z.of_nat (length (Encode (parser c) req)) + sizeof_OdbcProtocolHeader
    <= Int32.max_signed ->
    Forall (fun r => 0 < r) (sendPlan (socket c)) ->
    Forall (fun r => 0 < r) (recvPlan (socket c)) ->
    length hdr = 4%nat ->
    load_int32 native hdr = Z.of_nat (length body) ->
    incoming (socket c) = hdr ++ body ++ rest ->
    Decode (parser c) body = inr rsp ->
    fst (InternalEstablish cfg c)
    = inr (if IsAccepted rsp then AI_SUCCESS else AI_ERROR) /\
    outgoing (socket (snd (InternalEstablish cfg c)))
    = outgoing (socket c) ++ frame_image (Encode (parser c) req) /\
    incoming (socket (snd (InternalEstablish cfg c))) = rest /\
    connected (snd (InternalEstablish cfg c)) = IsAccepted rsp.
Proof.
  intros cfg c req rsp hdr body rest
         Hc Hopen Hreq Hsup Hfit Hsp Hrp Hlen Hload Hin Hdec.
  destruct (Connect_socket (GetHost cfg) (GetTcpPort cfg) (set_config c cfg))
    as [ok c1] eqn:Hconn.
  simpl in Hopen. subst ok.
  pose proof (Connect_socket_spec _ _ _ _ Hconn)
    as (Hc1 & Hout1 & Hsp1 & Hinc1 & Hrp1 & Hp1 & Hcfg1 & _).
  cbn [socket parser config set_config] in Hout1, Hsp1, Hinc1, Hrp1, Hp1, Hcfg1.
  destruct (SyncMessage_delivers req c1 hdr body rest Hc1)
    as (c2 & Hsync & Hout2 & Hinc2 & Hc2); try congruence.
  rewrite Hp1, Hdec in Hsync. rewrite Hp1, Hout1 in Hout2.
  pose proof (SyncMessage_same_session _ _ _ _ Hsync) as (_ & Hcfg2 & _).
  destruct (handshake_request_reads _ _ Hreq) as (Hv & _).
  rewrite (InternalEstablish_connects cfg c c1 Hc Hconn).
  rewrite (MakeRequestHandshake_exchange c1 req)
    by (rewrite ?Hcfg1; assumption).
  rewrite Hsync.
  destruct (IsAccepted rsp).
  - rewrite Hcfg2, Hcfg1, Hv. cbn [fst snd set_parser socket connected].
    auto 10.
  - cbn [fst snd Close AddStatusRecord socket connected socket_Close
         outgoing incoming].
    auto 10.
Qed.

(** X14. A negotiation parameter that cannot be read ends the handshake
    before any byte is exchanged: on a connection that is not connected
    and whose socket opens, [InternalEstablish] returns [AI_ERROR], adds
    one [S01S00_INVALID_CONNECTION_STRING_ATTRIBUTE] record with the text
    of the first error in reading order, and closes the connection; the
    socket has accepted nothing and no byte of the stream was read. *)
Theorem Establish_unreadable_parameter :
  forall (cfg : Configuration) (c : Connection) (e : IgniteError),
    connected c = false ->
    fst (Connect_socket (GetHost cfg) (GetTcpPort cfg) (set_config c cfg))
    = true ->
    first_unreadable cfg = Some e ->
    fst (InternalEstablish cfg c) = inr AI_ERROR /\
    diagnosticRecords (snd (InternalEstablish cfg c))
    = diagnosticRecords c
        ++ [CreateStatusRecord S01S00_INVALID_CONNECTION_STRING_ATTRIBUTE
                               (GetText e) 0 0] /\
    connected (snd (InternalEstablish cfg c)) = false /\
    isOpen (socket (snd (InternalEstablish cfg c))) = false /\
    outgoing (socket (snd (InternalEstablish cfg c))) = outgoing (socket c) /\
    incoming (socket (snd (InternalEstablish cfg c))) = incoming (socket c).
Proof.
  intros cfg c e Hc Hopen Hbad.
  destruct (Connect_socket (GetHost cfg) (GetTcpPort cfg) (set_config c cfg))
    as [ok c1] eqn:Hconn.
  simpl in Hopen. subst ok.
  pose proof (Connect_socket_spec _ _ _ _ Hconn)
    as (_ & Hout1 & _ & Hinc1 & _ & _ & Hcfg1 & Hd1).
  cbn [socket config diagnosticRecords set_config] in Hout1, Hinc1, Hcfg1, Hd1.
  rewrite (InternalEstablish_connects cfg c c1 Hc Hconn).
  rewrite (MakeRequestHandshake_unreadable c1 e) by (rewrite Hcfg1; exact Hbad).
  cbn [fst snd Close AddStatusRecord socket connected socket_Close
       outgoing incoming isOpen diagnosticRecords].
  rewrite Hd1. auto 10.
Qed.

(** X15. A handshake exchange that throws is reported and closes the
    connection: on a connection that is not connected and whose socket
    opens, with readable parameters and a supported version, when
    [SyncMessage] throws, [InternalEstablish] returns [AI_ERROR] with one
    record added, which carries the state and message of the [OdbcError]
    thrown, or [S08004_CONNECTION_REJECTED] with the text of the
    [IgniteError] thrown; the connection is closed. *)
Theorem Establish_exchange_throws :
  forall (cfg : Configuration) (c c1 c2 : Connection)
         (req : HandshakeRequest) (e : Exn),
    connected c = false ->
    Connect_socket (GetHost cfg) (GetTcpPort cfg) (set_config c cfg)
    = (true, c1) ->
    handshake_request cfg = Some req ->
    IsSupported (req_version req) = true ->
    SyncMessage req c1 = (inl e, c2) ->
    fst (InternalEstablish cfg c) = inr AI_ERROR /\
    diagnosticRecords (snd (InternalEstablish cfg c))
    = diagnosticRecords c
        ++ [match e with
            | ThrowOdbc err =>
                CreateStatusRecord (GetStatus err) (GetErrorMessage err) 0 0
            | ThrowIgnite err =>
                CreateStatusRecord S08004_CONNECTION_REJECTED (GetText err) 0 0
            end] /\
    connected (snd (InternalEstablish cfg c)) = false /\
    isOpen (socket (snd (InternalEstablish cfg c))) = false.
Proof.
  intros cfg c c1 c2 req e Hc Hconn Hreq Hsup Hsync.
  pose proof (Connect_socket_spec _ _ _ _ Hconn)
    as (_ & _ & _ & _ & _ & _ & Hcfg1 & Hd1).
  cbn [config diagnosticRecords set_config] in Hcfg1, Hd1.
  pose proof (SyncMessage_same_session _ _ _ _ Hsync) as (_ & _ & Hd2 & _).
  rewrite (InternalEstablish_connects cfg c c1 Hc Hconn).
  rewrite (MakeRequestHandshake_exchange c1 req)
    by (rewrite ?Hcfg1; assumption).
  rewrite Hsync.
  destruct e as [err|err];
    cbn [fst snd Close AddStatusRecord_err AddStatusRecord socket connected
         socket_Close isOpen diagnosticRecords];
    rewrite Hd2, Hd1; auto 10.
Qed.

(** X16. A socket that does not open: on a connection that is not
    connected, [InternalEstablish] returns [AI_ERROR] with one
    [S08001_CANNOT_CONNECT] record, the connection stays unconnected with
    its socket closed, nothing was sent or read, and the configuration
    member holds the configuration of the failed call. *)
Theorem Establish_cannot_connect :
  forall (cfg : Configuration) (c : Connection),
    connected c = false ->
    fst (Connect_socket (GetHost cfg) (GetTcpPort cfg) (set_config c cfg))
    = false ->
    fst (InternalEstablish cfg c) = inr AI_ERROR /\
    diagnosticRecords (snd (InternalEstablish cfg c))
    = diagnosticRecords c
        ++ [CreateStatusRecord S08001_CANNOT_CONNECT
                               "Failed to establish connection with the host."
                               0 0] /\
    connected (snd (InternalEstablish cfg c)) = false /\
    isOpen (socket (snd (InternalEstablish cfg c))) = false /\
    outgoing (socket (snd (InternalEstablish cfg c))) = outgoing (socket c) /\
    incoming (socket (snd (InternalEstablish cfg c))) = incoming (socket c) /\
    config (snd (InternalEstablish cfg c)) = cfg.
Proof.
  intros cfg c Hc Hopen.
  rewrite (InternalEstablish_cannot_connect cfg c Hc Hopen).
  pose proof (Connect_socket_session (GetHost cfg) (GetTcpPort cfg)
                                     (set_config c cfg))
    as (_ & Hcfg1 & Hd1 & Hinc1 & Hopen1).
  pose proof (Connect_socket_frame (GetHost cfg) (GetTcpPort cfg)
                                   (set_config c cfg)) as (Hout1 & _ & Hconn1).
  cbn [fst snd AddStatusRecord socket connected config diagnosticRecords].
  rewrite Hd1, Hconn1, Hopen1, Hout1, Hinc1, Hcfg1, Hopen.
  cbn [set_config socket config diagnosticRecords]. auto 10.
Qed.

(** ** Releasing, and what a connection that is not connected refuses *)

Lemma Receive_not_connected msg c :
  connected c = false ->
  Receive msg c =
  (inl (odbc_error S08003_NOT_CONNECTED "Connection is not established"),
   msg, c).
Proof. intros Hc. unfold Receive. rewrite Hc. reflexivity. Qed.

Lemma InternalRelease_cases c :
  InternalRelease c =
  if connected c then (inr AI_SUCCESS, Close c)
  else (inr AI_ERROR,
        AddStatusRecord S08003_NOT_CONNECTED "Connection is not open." c).
Proof.
  unfold InternalRelease, bind, gets, modify, ret.
  destruct (connected c); reflexivity.
Qed.

(** X17. [InternalRelease] never throws and always leaves the connection
    unconnected: it succeeds exactly when the connection was connected,
    and then adds no record and leaves both directions of the stream as
    they were; releasing again fails with one [S08003_NOT_CONNECTED]
    record, and [Send] and [Receive] on the released connection throw
    [S08003_NOT_CONNECTED] without touching the connection or the
    caller's vector. *)
Theorem Release_then_refuses :
  forall (c : Connection) (p msg : list byte),
    fst (InternalRelease c)
    = inr (if connected c then AI_SUCCESS else AI_ERROR) /\
    connected (snd (InternalRelease c)) = false /\
    outgoing (socket (snd (InternalRelease c))) = outgoing (socket c) /\
    incoming (socket (snd (InternalRelease c))) = incoming (socket c) /\
    diagnosticRecords (snd (InternalRelease c))
    = (if connected c then diagnosticRecords c
       else diagnosticRecords c
              ++ [CreateStatusRecord S08003_NOT_CONNECTED
                                     "Connection is not open." 0 0]) /\
    InternalRelease (snd (InternalRelease c))
    = (inr AI_ERROR,
       AddStatusRecord S08003_NOT_CONNECTED "Connection is not open."
                       (snd (InternalRelease c))) /\
    Send p (snd (InternalRelease c))
    = (inl (odbc_error S08003_NOT_CONNECTED "Connection is not established"),
       snd (InternalRelease c)) /\
    Receive msg (snd (InternalRelease c))
    = (inl (odbc_error S08003_NOT_CONNECTED "Connection is not established"),
       msg, snd (InternalRelease c)).
Proof.
  intros c p msg.
  assert (Hoff : connected (snd (InternalRelease c)) = false).
  { rewrite InternalRelease_cases. destruct (connected c) eqn:Hc; simpl; auto. }
  split; [rewrite InternalRelease_cases; destruct (connected c); reflexivity|].
  split; [exact Hoff|].
  split; [rewrite InternalRelease_cases; destruct (connected c); reflexivity|].
  split; [rewrite InternalRelease_cases; destruct (connected c); reflexivity|].
  split; [rewrite InternalRelease_cases; destruct (connected c); reflexivity|].
  split; [rewrite (InternalRelease_cases (snd _)), Hoff; reflexivity|].
  split; [apply Send_not_connected, Hoff | apply Receive_not_connected, Hoff].
Qed.

(** The value [InternalGetAttribute] stores for
    [SQL_ATTR_CONNECTION_DEAD] in a buffer that is not null. *)
Lemma GetAttribute_dead c cell bufLen lenCell :
  InternalGetAttribute SQL_ATTR_CONNECTION_DEAD (Some cell) bufLen lenCell c
  = (AI_SUCCESS,
     Some (if connected c then SQL_CD_FALSE else SQL_CD_TRUE),
     match lenCell with Some _ => Some SQL_IS_INTEGER | None => None end,
     c).
Proof. reflexivity. Qed.

(** X18. The liveness attribute follows the frame codec and the release:
    read after a [Receive], [SQL_ATTR_CONNECTION_DEAD] is [SQL_CD_FALSE]
    when the call returned and [SQL_CD_TRUE] when it threw, whatever it
    threw; read after [InternalRelease] it is [SQL_CD_TRUE]; and reading
    it changes nothing of the connection. *)
Theorem Liveness_attribute_follows :
  forall (c : Connection) (msg : list byte) (cell bufLen : Z)
         (lenCell : option Z),
    InternalGetAttribute SQL_ATTR_CONNECTION_DEAD (Some cell) bufLen lenCell
                         (snd (Receive msg c))
    = (AI_SUCCESS,
       Some (match fst (fst (Receive msg c)) with
             | inr _ => SQL_CD_FALSE
             | inl _ => SQL_CD_TRUE
             end),
       match lenCell with Some _ => Some SQL_IS_INTEGER | None => None end,
       snd (Receive msg c)) /\
    InternalGetAttribute SQL_ATTR_CONNECTION_DEAD (Some cell) bufLen lenCell
                         (snd (InternalRelease c))
    = (AI_SUCCESS, Some SQL_CD_TRUE,
       match lenCell with Some _ => Some SQL_IS_INTEGER | None => None end,
       snd (InternalRelease c)).
Proof.
  intros c msg cell bufLen lenCell. split.
  - rewrite GetAttribute_dead, Receive_connected_after.
    destruct (fst (fst (Receive msg c))); reflexivity.
  - rewrite GetAttribute_dead, InternalRelease_cases.
    destruct (connected c) eqn:Hc; cbn [snd Close AddStatusRecord connected];
      rewrite ?Hc; reflexivity.
Qed.

(** X19. [InternalEstablish] from a connection string never lets an
    exception out.  When the string cannot be parsed it returns
    [AI_ERROR] with one [SHY000_GENERAL_ERROR] record carrying the text of
    the parse error and touches nothing else of the connection: the
    configuration member, the socket and the [connected] flag are as
    they were.  Otherwise it does what [InternalEstablish] does with the
    configuration parsed. *)
Theorem Establish_from_connection_string :
  forall (fill : string -> IgniteError + Configuration)
         (connectStr : string) (c : Connection),
    exists (res : SqlResult) (c' : Connection),
      InternalEstablish_connectStr fill connectStr c = (inr res, c') /\
      match fill connectStr with
      | inl e =>
          res = AI_ERROR /\
          diagnosticRecords c'
          = diagnosticRecords c
              ++ [CreateStatusRecord SHY000_GENERAL_ERROR (GetText e) 0 0] /\
          config c' = config c /\ socket c' = socket c /\
          connected c' = connected c /\ parser c' = parser c
      | inr cfg =>
          InternalEstablish cfg c = (inr res, c') /\
          ((res = AI_SUCCESS /\ connected c' = true /\ config c' = cfg /\
            diagnosticRecords c' = diagnosticRecords c) \/
           (res = AI_ERROR /\ connected c' = connected c /\
            one_more_record (diagnosticRecords c) (diagnosticRecords c')))
      end.
Proof.
  intros fill connectStr c. unfold InternalEstablish_connectStr.
  destruct (fill connectStr) as [e|cfg].
  - eexists. eexists. split; [reflexivity|]. repeat split.
  - destruct (InternalEstablish_outcome_cases cfg c)
      as (res & c' & Hrun & [Hok|Hfail]).
    + destruct Hok as (-> & _ & Hc' & Hd & Hcfg & _).
      exists AI_SUCCESS, c'. split; [exact Hrun|]. split; [exact Hrun|].
      left. auto.
    + destruct Hfail as (-> & Hc' & _ & Hd).
      exists AI_ERROR, c'. split; [exact Hrun|]. split; [exact Hrun|].
      right. auto.
Qed.

(** ** What a failed [InternalEstablish] reports *)

Lemma Send_connected_throws p c e c' :
  connected c = true ->
  Send p c = (inl e, c') ->
  exists text, e = odbc_error S08S01_LINK_FAILURE text.
Proof.
  intros Hc. rewrite (Send_connected p c Hc).
  destruct (SendAll (Send_buffer p) c) as [sent c1].
  destruct (negb _); intros H; inversion H. eexists. reflexivity.
Qed.

Lemma Receive_connected_throws msg c e m c' :
  connected c = true ->
  Receive msg c = (inl e, m, c') ->
  exists text, e = odbc_error S08S01_LINK_FAILURE text.
Proof.
  intros Hc. rewrite (Receive_connected msg c Hc).
  destruct (header_read c) as [[received hdr] c1].
  destruct (negb _); [intros H; inversion H; eexists; reflexivity|].
  destruct (_ <? 0); [intros H; inversion H; eexists; reflexivity|].
  destruct (_ =? 0); [discriminate|].
  destruct (body_read (load_int32 native hdr) c1) as [[got body] c2].
  destruct (negb _); [intros H; inversion H; eexists; reflexivity|].
  discriminate.
Qed.

Lemma SyncMessage_throws req c e c2 :
  connected c = true ->
  SyncMessage req c = (inl e, c2) ->
  (exists text, e = odbc_error S08S01_LINK_FAILURE text) \/
  (exists err, e = ThrowIgnite err).
Proof.
  intros Hc. unfold SyncMessage, bind, gets, Receive_into, throw, ret.
  destruct (Send (Encode (parser c) req) c) as [[e1|[]] c1] eqn:Hsend.
  - intros H; inversion H; subst. left.
    eapply Send_connected_throws; eauto.
  - apply Send_returns_outgoing in Hsend.
    destruct Hsend as (_ & _ & _ & _ & Hc1).
    destruct (Receive (Encode (parser c) req) c1) as [[[e1|[]] buf] c2'] eqn:Hrecv.
    + intros H; inversion H; subst. left.
      eapply Receive_connected_throws; eauto.
    + destruct (Decode (parser c) buf) as [err|rsp];
        intros H; inversion H; subst. right. eexists. reflexivity.
Qed.

Lemma MakeRequestHandshake_error_states c :
  connected c = true ->
  exists res c',
    MakeRequestHandshake c = (inr res, c') /\
    (res = AI_SUCCESS \/
     (res = AI_ERROR /\
      exists r,
        diagnosticRecords c' = diagnosticRecords c ++ [r] /\
        In (sqlState r) [S01S00_INVALID_CONNECTION_STRING_ATTRIBUTE;
                         S08004_CONNECTION_REJECTED;
                         S08S01_LINK_FAILURE])).
Proof.
  intros Hc.
  destruct (first_unreadable (config c)) as [e|] eqn:Hbad.
  { rewrite (MakeRequestHandshake_unreadable c e Hbad).
    eexists. eexists. split; [reflexivity|]. right. split; [reflexivity|].
    eexists. split; [reflexivity|]. simpl. auto. }
  assert (Hreq : exists req, handshake_request (config c) = Some req).
  { unfold first_unreadable in Hbad. unfold handshake_request.
    destruct (GetProtocolVersion (config c)); [discriminate|].
    destruct (IsDistributedJoins (config c)); [discriminate|].
    destruct (IsEnforceJoinOrder (config c)); [discriminate|].
    destruct (IsReplicatedOnly (config c)); [discriminate|].
    destruct (IsCollocated (config c)); [discriminate|].
    destruct (IsLazy (config c)); [discriminate|].
    eexists. reflexivity. }
  destruct Hreq as (req & Hreq).
  destruct (IsSupported (req_version req)) eqn:Hsup.
  - rewrite (MakeRequestHandshake_exchange c req Hreq Hsup).
    destruct (SyncMessage req c) as [[e|rsp] c2] eqn:Hsync.
    + pose proof (SyncMessage_same_session _ _ _ _ Hsync) as (_ & _ & Hd & _).
      destruct (SyncMessage_throws _ _ _ _ Hc Hsync) as [[text ->]|[err ->]];
        cbn iota; eexists; eexists; (split; [reflexivity|]); right;
        (split; [reflexivity|]); eexists;
        cbn [AddStatusRecord_err AddStatusRecord diagnosticRecords];
        rewrite Hd; (split; [reflexivity|]); simpl; auto.
    + pose proof (SyncMessage_same_session _ _ _ _ Hsync) as (_ & _ & Hd & _).
      destruct (IsAccepted rsp).
      * eexists. eexists. split; [reflexivity|]. left. reflexivity.
      * eexists. eexists. split; [reflexivity|]. right. split; [reflexivity|].
        eexists. cbn [AddStatusRecord diagnosticRecords]. rewrite Hd.
        split; [reflexivity|]. simpl. auto.
  - destruct (handshake_request_reads _ _ Hreq) as (Hv & _).
    destruct (MakeRequestHandshake_unsupported c (req_version req) Hv Hsup)
      as (msg & Hrun & _).
    rewrite Hrun.
    eexists. eexists. split; [reflexivity|]. right. split; [reflexivity|].
    eexists. split; [reflexivity|]. simpl. auto.
Qed.

(** Every way [InternalEstablish] fails, by the state of the record it
    adds. *)
Lemma InternalEstablish_error_states :
  forall (cfg : Configuration) (c : Connection),
    fst (InternalEstablish cfg c) = inr AI_SUCCESS \/
    exists r : DiagnosticRecord,
      fst (InternalEstablish cfg c) = inr AI_ERROR /\
      diagnosticRecords (snd (InternalEstablish cfg c))
      = diagnosticRecords c ++ [r] /\
      if connected c
      then sqlState r = S08002_ALREADY_CONNECTED
      else In (sqlState r) [S08001_CANNOT_CONNECT;
                            S01S00_INVALID_CONNECTION_STRING_ATTRIBUTE;
                            S08004_CONNECTION_REJECTED;
                            S08S01_LINK_FAILURE] /\
           connected (snd (InternalEstablish cfg c)) = false /\
           isOpen (socket (snd (InternalEstablish cfg c))) = false.
Proof.
  intros cfg c.
  destruct (connected c) eqn:Hc.
  { rewrite (InternalEstablish_already_connected cfg c Hc).
    right. eexists. split; [reflexivity|]. split; reflexivity. }
  pose proof (Connect_socket_session (GetHost cfg) (GetTcpPort cfg)
                                     (set_config c cfg))
    as (_ & _ & Hd1 & _ & Hopen1).
  pose proof (Connect_socket_frame (GetHost cfg) (GetTcpPort cfg)
                                   (set_config c cfg)) as (_ & _ & Hconn1).
  destruct (Connect_socket (GetHost cfg) (GetTcpPort cfg) (set_config c cfg))
    as [ok c1] eqn:Hconn.
  cbn [fst snd diagnosticRecords set_config] in Hd1, Hopen1, Hconn1.
  destruct ok.
  - rewrite (InternalEstablish_connects cfg c c1 Hc Hconn).
    destruct (MakeRequestHandshake_outcome c1)
      as (res & c2 & Hrun & Hcfg2 & _ & Hcases).
    destruct (MakeRequestHandshake_error_states c1 Hconn1)
      as (res' & c2' & Hrun' & Hstates).
    rewrite Hrun in Hrun'. inversion Hrun'; subst res' c2'. clear Hrun'.
    rewrite Hrun.
    destruct Hcases as [(-> & _ & _ & v & Hv & _)|(-> & _)].
    + left. rewrite Hcfg2, Hv. reflexivity.
    + right. destruct Hstates as [Habs|(_ & r & Hd2 & Hin)]; [discriminate|].
      exists r. split; [reflexivity|].
      split; [cbn [snd Close diagnosticRecords]; congruence|].
      split; [| split; reflexivity].
      simpl in Hin |- *. tauto.
  - rewrite (InternalEstablish_cannot_connect cfg c Hc)
      by (rewrite Hconn; reflexivity).
    rewrite Hconn. right. eexists. split; [reflexivity|].
    cbn [snd AddStatusRecord diagnosticRecords socket connected].
    split; [rewrite Hd1; reflexivity|].
    split; [simpl; auto|]. auto.
Qed.

(** X20. Which SQL state a failed [InternalEstablish] reports.  The call
    returns [AI_SUCCESS], or it returns [AI_ERROR] with one record added
    whose state is [S08002_ALREADY_CONNECTED] when the connection was
    connected, and otherwise one of [S08001_CANNOT_CONNECT],
    [S01S00_INVALID_CONNECTION_STRING_ATTRIBUTE],
    [S08004_CONNECTION_REJECTED] and [S08S01_LINK_FAILURE]; after a
    failure on a connection that was not connected the socket is
    closed. *)
Theorem Establish_error_states :
  forall (cfg : Configuration) (c : Connection),
    fst (InternalEstablish cfg c) = inr AI_SUCCESS \/
    exists r : DiagnosticRecord,
      fst (InternalEstablish cfg c) = inr AI_ERROR /\
      diagnosticRecords (snd (InternalEstablish cfg c))
      = diagnosticRecords c ++ [r] /\
      if connected c
      then sqlState r = S08002_ALREADY_CONNECTED
      else In (sqlState r) [S08001_CANNOT_CONNECT;
                            S01S00_INVALID_CONNECTION_STRING_ATTRIBUTE;
                            S08004_CONNECTION_REJECTED;
                            S08S01_LINK_FAILURE] /\
           connected (snd (InternalEstablish cfg c)) = false /\
           isOpen (socket (snd (InternalEstablish cfg c))) = false.
Proof. exact InternalEstablish_error_states. Qed.

(** [config = cfg] is the first statement of [InternalEstablish], and
    nothing after it assigns the member. *)
Lemma InternalEstablish_stores_config cfg c :
  config (snd (InternalEstablish cfg c)) = cfg.
Proof.
  destruct (connected c) eqn:Hc.
  { rewrite (InternalEstablish_already_connected cfg c Hc). reflexivity. }
  pose proof (Connect_socket_session (GetHost cfg) (GetTcpPort cfg)
                                     (set_config c cfg))
    as (_ & Hcfg1 & _).
  destruct (Connect_socket (GetHost cfg) (GetTcpPort cfg) (set_config c cfg))
    as [ok c1] eqn:Hconn.
  cbn [snd config set_config] in Hcfg1.
  destruct ok.
  - rewrite (InternalEstablish_connects cfg c c1 Hc Hconn).
    destruct (MakeRequestHandshake_outcome c1)
      as (res & c2 & Hrun & Hcfg2 & _ & Hcases).
    rewrite Hrun.
    destruct Hcases as [(-> & _ & _ & v & Hv & _)|(-> & _)].
    + rewrite Hcfg2, Hv. cbn [snd set_parser config]. congruence.
    + cbn [snd Close config]. congruence.
  - rewrite (InternalEstablish_cannot_connect cfg c Hc)
      by (rewrite Hconn; reflexivity).
    rewrite Hconn. cbn [snd AddStatusRecord config]. exact Hcfg1.
Qed.

(** X21. A connection as the constructor leaves it is not connected: the
    liveness attribute reads [SQL_CD_TRUE], [Send] and [Receive] throw
    [S08003_NOT_CONNECTED] and leave the connection and the caller's
    vector alone, and releasing fails with [S08003_NOT_CONNECTED] as its
    only record.  A first [InternalEstablish] on it is never refused as
    already connected: it succeeds, or its only record has a state other
    than [S08002_ALREADY_CONNECTED].  [GetSchema] and [GetConfiguration]
    give what the configuration member holds, after a first
    [InternalEstablish] the configuration of that call. *)
Theorem Connection_new_not_connected :
  forall (socket0 : TcpSocketClient) (parser0 : Parser)
         (config0 cfg : Configuration) (p msg : list byte)
         (cell bufLen : Z) (lenCell : option Z),
    InternalGetAttribute SQL_ATTR_CONNECTION_DEAD (Some cell) bufLen lenCell
                         (Connection_new socket0 parser0 config0)
    = (AI_SUCCESS, Some SQL_CD_TRUE,
       match lenCell with Some _ => Some SQL_IS_INTEGER | None => None end,
       Connection_new socket0 parser0 config0) /\
    Send p (Connection_new socket0 parser0 config0)
    = (inl (odbc_error S08003_NOT_CONNECTED "Connection is not established"),
       Connection_new socket0 parser0 config0) /\
    Receive msg (Connection_new socket0 parser0 config0)
    = (inl (odbc_error S08003_NOT_CONNECTED "Connection is not established"),
       msg, Connection_new socket0 parser0 config0) /\
    fst (InternalRelease (Connection_new socket0 parser0 config0))
    = inr AI_ERROR /\
    diagnosticRecords
      (snd (InternalRelease (Connection_new socket0 parser0 config0)))
    = [CreateStatusRecord S08003_NOT_CONNECTED "Connection is not open." 0 0] /\
    (fst (InternalEstablish cfg (Connection_new socket0 parser0 config0))
     = inr AI_SUCCESS \/
     exists r : DiagnosticRecord,
       diagnosticRecords
         (snd (InternalEstablish cfg (Connection_new socket0 parser0 config0)))
       = [r] /\
       sqlState r <> S08002_ALREADY_CONNECTED) /\
    Connection_GetSchema (Connection_new socket0 parser0 config0)
    = GetSchema config0 /\
    Connection_GetSchema
      (snd (InternalEstablish cfg (Connection_new socket0 parser0 config0)))
    = GetSchema cfg /\
    Connection_GetConfiguration
      (snd (InternalEstablish cfg (Connection_new socket0 parser0 config0)))
    = cfg.
Proof.
  intros socket0 parser0 config0 cfg p msg cell bufLen lenCell.
  assert (Hcfg : config (snd (InternalEstablish
                                cfg (Connection_new socket0 parser0 config0)))
                 = cfg).
  { apply InternalEstablish_stores_config. }
  split; [reflexivity|].
  split; [apply Send_not_connected; reflexivity|].
  split; [apply Receive_not_connected; reflexivity|].
  split; [rewrite InternalRelease_cases; reflexivity|].
  split; [rewrite InternalRelease_cases; reflexivity|].
  split.
  - destruct (InternalEstablish_error_states
                cfg (Connection_new socket0 parser0 config0))
      as [Hok|(r & _ & Hd & Hin & _)]; [left; exact Hok|].
    right. exists r. split; [exact Hd|].
    cbn [In] in Hin.
    destruct Hin as [H|[H|[H|[H|[]]]]]; rewrite <- H; discriminate.
  - unfold Connection_GetSchema, Connection_GetConfiguration.
    rewrite Hcfg. auto.
Qed.

(** ** The socket is open exactly while the connection is connected *)

Lemma SendAll_open data c :
  isOpen (socket c) = connected c ->
  isOpen (socket (snd (SendAll data c))) = connected (snd (SendAll data c)).
Proof.
  intros Hwf. destruct (SendAll data c) as [k c'] eqn:Hall. simpl.
  apply SendAll_spec in Hall.
  destruct Hall as (_ & _ & _ & _ & Hfull & Hshort & _).
  destruct (Nat.eq_dec k (length data)) as [E|E].
  - destruct (Hfull E). congruence.
  - destruct (Hshort E). congruence.
Qed.

Lemma ReceiveAll_open dst len c :
  length dst = len ->
  isOpen (socket c) = connected c ->
  isOpen (socket (snd (ReceiveAll dst len c)))
  = connected (snd (ReceiveAll dst len c)).
Proof.
  intros Hlen Hwf.
  destruct (ReceiveAll dst len c) as [[k buf] c'] eqn:Hall. simpl.
  apply ReceiveAll_spec in Hall; [| exact Hlen].
  destruct Hall as (_ & _ & _ & _ & _ & _ & Hfull & Hshort & _).
  destruct (Nat.eq_dec k len) as [E|E].
  - destruct (Hfull E). congruence.
  - destruct (Hshort E). congruence.
Qed.

Lemma Send_open p c :
  isOpen (socket c) = connected c ->
  isOpen (socket (snd (Send p c))) = connected (snd (Send p c)).
Proof.
  intros Hwf. destruct (connected c) eqn:Hc.
  - rewrite (Send_connected p c Hc).
    pose proof (SendAll_open (Send_buffer p) c ltac:(congruence)) as H.
    destruct (SendAll (Send_buffer p) c) as [sent c1].
    destruct (negb _); exact H.
  - rewrite (Send_not_connected p c Hc). simpl. congruence.
Qed.

Lemma Receive_open msg c :
  isOpen (socket c) = connected c ->
  isOpen (socket (snd (Receive msg c))) = connected (snd (Receive msg c)).
Proof.
  intros Hwf. destruct (connected c) eqn:Hc.
  - rewrite (Receive_connected msg c Hc).
    assert (H1 : isOpen (socket (snd (header_read c)))
                 = connected (snd (header_read c))).
    { apply ReceiveAll_open; [reflexivity | congruence]. }
    destruct (header_read c) as [[received hdr] c1].
    cbn [snd] in H1.
    destruct (negb _); [exact H1|].
    destruct (_ <? 0); [reflexivity|].
    destruct (_ =? 0); [exact H1|].
    assert (H2 : isOpen (socket (snd (body_read (load_int32 native hdr) c1)))
                 = connected (snd (body_read (load_int32 native hdr) c1))).
    { apply ReceiveAll_open; [apply vector_resize_length | exact H1]. }
    destruct (body_read (load_int32 native hdr) c1) as [[got body] c2].
    destruct (negb _); exact H2.
  - rewrite (Receive_not_connected msg c Hc). simpl. congruence.
Qed.

Lemma SyncMessage_open req c :
  isOpen (socket c) = connected c ->
  isOpen (socket (snd (SyncMessage req c)))
  = connected (snd (SyncMessage req c)).
Proof.
  intros Hwf. unfold SyncMessage, bind, gets, Receive_into, throw, ret.
  pose proof (Send_open (Encode (parser c) req) c Hwf) as H1.
  destruct (Send (Encode (parser c) req) c) as [[e|[]] c1]; [exact H1|].
  pose proof (Receive_open (Encode (parser c) req) c1 H1) as H2.
  destruct (Receive (Encode (parser c) req) c1) as [[[e|[]] buf] c2];
    [exact H2|].
  destruct (Decode (parser c) buf); exact H2.
Qed.

Lemma MakeRequestHandshake_open c :
  isOpen (socket c) = connected c ->
  isOpen (socket (snd (MakeRequestHandshake c)))
  = connected (snd (MakeRequestHandshake c)).
Proof.
  intros Hwf.
  destruct (first_unreadable (config c)) as [e|] eqn:Hbad.
  { rewrite (MakeRequestHandshake_unreadable c e Hbad). exact Hwf. }
  assert (Hreq : exists req, handshake_request (config c) = Some req).
  { unfold first_unreadable in Hbad. unfold handshake_request.
    destruct (GetProtocolVersion (config c)); [discriminate|].
    destruct (IsDistributedJoins (config c)); [discriminate|].
    destruct (IsEnforceJoinOrder (config c)); [discriminate|].
    destruct (IsReplicatedOnly (config c)); [discriminate|].
    destruct (IsCollocated (config c)); [discriminate|].
    destruct (IsLazy (config c)); [discriminate|].
    eexists. reflexivity. }
  destruct Hreq as (req & Hreq).
  destruct (IsSupported (req_version req)) eqn:Hsup.
  - rewrite (MakeRequestHandshake_exchange c req Hreq Hsup).
    pose proof (SyncMessage_open req c Hwf) as H.
    destruct (SyncMessage req c) as [[[err|err]|rsp] c2]; try exact H.
    destruct (IsAccepted rsp); exact H.
  - destruct (handshake_request_reads _ _ Hreq) as (Hv & _).
    destruct (MakeRequestHandshake_unsupported c (req_version req) Hv Hsup)
      as (msg & Hrun & _).
    rewrite Hrun. exact Hwf.
Qed.

Lemma InternalEstablish_open cfg c :
  isOpen (socket c) = connected c ->
  isOpen (socket (snd (InternalEstablish cfg c)))
  = connected (snd (InternalEstablish cfg c)).
Proof.
  intros Hwf. destruct (connected c) eqn:Hc.
  { rewrite (InternalEstablish_already_connected cfg c Hc). simpl. congruence. }
  pose proof (Connect_socket_session (GetHost cfg) (GetTcpPort cfg)
                                     (set_config c cfg))
    as (_ & _ & _ & _ & Hopen1).
  pose proof (Connect_socket_frame (GetHost cfg) (GetTcpPort cfg)
                                   (set_config c cfg)) as (_ & _ & Hconn1).
  destruct (Connect_socket (GetHost cfg) (GetTcpPort cfg) (set_config c cfg))
    as [ok c1] eqn:Hconn.
  cbn [fst snd] in Hopen1, Hconn1.
  destruct ok.
  - rewrite (InternalEstablish_connects cfg c c1 Hc Hconn).
    pose proof (MakeRequestHandshake_open c1 ltac:(congruence)) as H.
    destruct (MakeRequestHandshake c1) as [[e|res] c2]; [exact H|].
    destruct res; try reflexivity;
      destruct (GetProtocolVersion (config c2)); exact H.
  - rewrite (InternalEstablish_cannot_connect cfg c Hc)
      by (rewrite Hconn; reflexivity).
    rewrite Hconn. simpl. congruence.
Qed.

(** X22. The socket is open exactly while the connection is connected,
    and every operation keeps it so: [SendAll], [ReceiveAll], [Send],
    [Receive], [InternalEstablish], [InternalRelease], [Close] and the
    attribute functions take a connection whose socket is open exactly
    when [connected] is set to one of which the same holds, whatever the
    socket and the peer do. *)
Theorem Socket_open_iff_connected :
  forall (c : Connection) (data dst p msg : list byte)
         (cfg : Configuration) (attr bufLen : Z) (buf lenCell : option Z),
    isOpen (socket c) = connected c ->
    isOpen (socket (snd (SendAll data c))) = connected (snd (SendAll data c)) /\
    isOpen (socket (snd (ReceiveAll dst (length dst) c)))
    = connected (snd (ReceiveAll dst (length dst) c)) /\
    isOpen (socket (snd (Send p c))) = connected (snd (Send p c)) /\
    isOpen (socket (snd (Receive msg c))) = connected (snd (Receive msg c)) /\
    isOpen (socket (snd (InternalEstablish cfg c)))
    = connected (snd (InternalEstablish cfg c)) /\
    isOpen (socket (snd (InternalRelease c)))
    = connected (snd (InternalRelease c)) /\
    isOpen (socket (Close c)) = connected (Close c) /\
    isOpen (socket (snd (InternalGetAttribute attr buf bufLen lenCell c)))
    = connected (snd (InternalGetAttribute attr buf bufLen lenCell c)) /\
    isOpen (socket (snd (InternalSetAttribute attr buf bufLen c)))
    = connected (snd (InternalSetAttribute attr buf bufLen c)).
Proof.
  intros c data dst p msg cfg attr bufLen buf lenCell Hwf.
  split; [apply SendAll_open, Hwf|].
  split; [apply ReceiveAll_open; [reflexivity | exact Hwf]|].
  split; [apply Send_open, Hwf|].
  split; [apply Receive_open, Hwf|].
  split; [apply InternalEstablish_open, Hwf|].
  split; [rewrite InternalRelease_cases; destruct (connected c) eqn:Hc;
          simpl; congruence|].
  split; [reflexivity|].
  split.
  - unfold InternalGetAttribute.
    destruct buf; [destruct (attr =? SQL_ATTR_CONNECTION_DEAD)|]; exact Hwf.
  - unfold InternalSetAttribute.
    destruct (attr =? SQL_ATTR_CONNECTION_DEAD); exact Hwf.
Qed.

(** X23. [GetConfiguration] and [GetSchema] after [InternalEstablish]
    answer from the configuration of that call, whether it succeeded or
    failed and in whatever state the connection was: the member is
    assigned before anything is tested. *)
Theorem Establish_stores_configuration :
  forall (cfg : Configuration) (c : Connection),
    Connection_GetConfiguration (snd (InternalEstablish cfg c)) = cfg /\
    Connection_GetSchema (snd (InternalEstablish cfg c)) = GetSchema cfg.
Proof.
  intros cfg c. unfold Connection_GetConfiguration, Connection_GetSchema.
  rewrite InternalEstablish_stores_config. auto.
Qed.

End Properties.

(** ** The properties on the instance *)

(** ** The frame codec on the instance *)

Lemma Send_Receive_roundtrip_witness :
  exists r',
    run_Receive [xaa] receiver = (inr tt, payload_123, r') /\
    incoming (socket r') = [x07] /\
    connected r' = true.
Proof.
  destruct (Send_Receive_roundtrip (D := sample_driver) payload_123 sender
                                   (snd (run_Send payload_123 sender)))
    as (_ & _ & _ & _ & Hreceive).
  - vm_compute. reflexivity.
  - apply (Hreceive receiver [xaa] [x07]).
    + reflexivity.
    + reflexivity.
    + repeat constructor.
Defined.

(** C3 as the specification states it fails: after a body read that comes
    back short (one byte of three), the caller's vector holds the byte
    that did arrive. *)
Lemma Receive_short_body_exposes_partial_bytes :
  header_read short_body_peer
  = (4%nat, [x03; x00; x00; x00], after_short_header) /\
  fst (fst (body_read 3 after_short_header)) = 1%nat /\
  run_Receive [] short_body_peer =
    (inl (odbc_error S08S01_LINK_FAILURE "Can not receive message body"),
     [x2a], after_short_body) /\
  snd (fst (run_Receive [] short_body_peer)) <> [].
Proof.
  repeat split; try (vm_compute; reflexivity).
  vm_compute. discriminate.
Qed.

Lemma Receive_short_body_witness :
  run_Receive [xaa] short_body_peer =
    (inl (odbc_error S08S01_LINK_FAILURE "Can not receive message body"),
     firstn 1 (incoming (socket after_short_header)), after_short_body) /\
  length (firstn 1 (incoming (socket after_short_header))) = 1%nat /\
  connected after_short_body = false /\
  isOpen (socket after_short_body) = false.
Proof.
  apply (Receive_short_body (D := sample_driver) [xaa] [x03; x00; x00; x00]
                            [x2a; x00; x00] 1 short_body_peer
                            after_short_header after_short_body).
  - reflexivity.
  - vm_compute. reflexivity.
  - vm_compute. reflexivity.
  - vm_compute. reflexivity.
  - vm_compute. discriminate.
Defined.

Lemma Receive_negative_length_witness :
  run_Receive [xaa] negative_length_peer =
    (inl (odbc_error S08S01_LINK_FAILURE
                     "Protocol error: Message length is negative"),
     [], Close after_negative_header) /\
  connected (Close after_negative_header) = false /\
  isOpen (socket (Close after_negative_header)) = false /\
  incoming (socket (Close after_negative_header))
  = skipn 4 (incoming (socket negative_length_peer)) /\
  recvPlan (socket (Close after_negative_header))
  = recvPlan (socket after_negative_header).
Proof.
  apply (Receive_negative_length (D := sample_driver) [xaa]
                                 [xff; xff; xff; xff] negative_length_peer
                                 after_negative_header).
  - reflexivity.
  - vm_compute. reflexivity.
  - vm_compute. reflexivity.
Defined.

Lemma Receive_zero_length_witness :
  run_Receive [xaa] empty_frame_peer = (inr tt, [], after_empty_header) /\
  incoming (socket after_empty_header)
  = skipn 4 (incoming (socket empty_frame_peer)) /\
  connected after_empty_header = true.
Proof.
  apply (Receive_zero_length (D := sample_driver) [xaa] [x00; x00; x00; x00]
                             empty_frame_peer after_empty_header).
  - reflexivity.
  - vm_compute. reflexivity.
  - vm_compute. reflexivity.
Defined.

Lemma Receive_clears_output_witness :
  run_Receive [xaa; xbb] half_header_peer = run_Receive [] half_header_peer /\
  snd (fst (run_Receive [xaa; xbb] half_header_peer)) = [] /\
  fst (fst (run_Receive [xaa; xbb] half_header_peer)) =
    (if Nat.eqb 2 4
     then inr tt
     else inl (odbc_error S08S01_LINK_FAILURE "Can not receive message header")).
Proof.
  apply (Receive_clears_output
           (D := sample_driver) [xaa; xbb]
           (snd (fst (header_read half_header_peer))) 2
           half_header_peer (snd (header_read half_header_peer))).
  - reflexivity.
  - vm_compute. reflexivity.
  - left. discriminate.
Defined.

Lemma Send_short_write_witness :
  run_Send payload_123 failing_sender =
    (inl (odbc_error S08S01_LINK_FAILURE
                     "Can not send message due to connection failure"),
     after_failed_send) /\
  connected after_failed_send = false /\
  isOpen (socket after_failed_send) = false /\
  forall q : list byte,
    run_Send q after_failed_send =
      (inl (odbc_error S08003_NOT_CONNECTED "Connection is not established"),
       after_failed_send).
Proof.
  apply (Send_short_write (D := sample_driver) payload_123 5 failing_sender
                          after_failed_send).
  - reflexivity.
  - vm_compute. reflexivity.
  - vm_compute. discriminate.
Defined.

(** ** Establishing on the instance *)

Lemma Establish_handshake_rejected_witness :
  exists c3,
    run_Establish (sample_config VERSION_1_0_0) rejecting_node
    = (inr AI_ERROR, c3) /\
    diagnosticRecords c3 =
      diagnosticRecords rejecting_node
        ++ [CreateStatusRecord S08004_CONNECTION_REJECTED rejection_text 0 0] /\
    connected c3 = false /\
    Contains "2.0.0" rejection_text /\
    Contains "1.0.0" rejection_text /\
    ("incompatible"%string <> ""%string -> Contains "incompatible" rejection_text).
Proof.
  apply (Establish_handshake_rejected
           (D := sample_driver) (P := sample_codec)
           (sample_config VERSION_1_0_0) rejecting_node
           rejecting_node_opened rejecting_node_answered
           VERSION_1_0_0 false true false false false rejection_response).
  - reflexivity.
  - vm_compute. reflexivity.
  - reflexivity.
  - reflexivity.
  - reflexivity.
  - reflexivity.
  - reflexivity.
  - reflexivity.
  - reflexivity.
  - vm_compute. reflexivity.
  - reflexivity.
Defined.

Lemma Establish_unsupported_version_witness :
  exists c3,
    run_Establish (sample_config VERSION_9_9_9) rejecting_node
    = (inr AI_ERROR, c3) /\
    outgoing (socket c3) = outgoing (socket rejecting_node) /\
    sendPlan (socket c3) = sendPlan (socket rejecting_node) /\
    diagnosticRecords c3 =
      [CreateStatusRecord S01S00_INVALID_CONNECTION_STRING_ATTRIBUTE
                          "Protocol version is not supported: 9.9.9" 0 0] /\
    connected c3 = false.
Proof.
  destruct (Establish_unsupported_version
              (D := sample_driver) (P := sample_codec)
              (sample_config VERSION_9_9_9) rejecting_node VERSION_9_9_9
              eq_refl eq_refl)
    as (c3 & Hrun & Hout & Hplan & Hdiag).
  destruct (Hdiag eq_refl eq_refl) as (msg & Hrec & Hmsg & _ & Hclosed).
  exists c3.
  split; [exact Hrun|]. split; [exact Hout|]. split; [exact Hplan|].
  split; [| exact Hclosed].
  rewrite Hrec, Hmsg; [reflexivity|].
  exists VERSION_9_9_9, false, true, false, false, false.
  repeat split.
Defined.

(** C2 on the code. Establishing again on the established connection fails
    with [S08002_ALREADY_CONNECTED] and leaves [connected], the parser's
    version and the socket alone, but the configuration member is the one
    of the failed call: it is assigned before [connected] is tested. *)
Theorem Establish_twice_replaces_configuration :
  fst (run_Establish other_config established) = inr AI_ERROR /\
  diagnosticRecords (snd (run_Establish other_config established))
  = [CreateStatusRecord S08002_ALREADY_CONNECTED "Already connected." 0 0] /\
  connected (snd (run_Establish other_config established)) = true /\
  parser (snd (run_Establish other_config established)) = parser established /\
  socket (snd (run_Establish other_config established)) = socket established /\
  config established = sample_config VERSION_1_0_0 /\
  config (snd (run_Establish other_config established)) = other_config /\
  GetHost (config (snd (run_Establish other_config established)))
  <> GetHost (config established).
Proof.
  unfold run_Establish.
  rewrite InternalEstablish_already_connected by reflexivity.
  repeat split. discriminate.
Qed.

(** ** Attributes on the instance *)

(** C9 as the specification states it fails on a null buffer: getting an
    attribute other than [SQL_ATTR_CONNECTION_DEAD] then fails with
    [SHY000_GENERAL_ERROR], not with
    [SHYC00_OPTIONAL_FEATURE_NOT_IMPLEMENTED], and getting
    [SQL_ATTR_CONNECTION_DEAD] on an established connection fails as well. *)
Lemma GetAttribute_null_buffer :
  InternalGetAttribute 0 None 0 None established
  = (AI_ERROR, None, None,
     AddStatusRecord SHY000_GENERAL_ERROR "Data buffer is NULL." established) /\
  0 <> SQL_ATTR_CONNECTION_DEAD /\
  SHY000_GENERAL_ERROR <> SHYC00_OPTIONAL_FEATURE_NOT_IMPLEMENTED /\
  connected established = true /\
  fst (fst (fst (InternalGetAttribute SQL_ATTR_CONNECTION_DEAD None 0
                                      None established))) = AI_ERROR.
Proof.
  repeat split; try discriminate.
Qed.

Lemma Attribute_access_witness :
  InternalSetAttribute SQL_ATTR_CONNECTION_DEAD (Some 1) 0 established
  = (AI_ERROR,
     AddStatusRecord SHY092_OPTION_TYPE_OUT_OF_RANGE "Attribute is read only."
                     established) /\
  InternalSetAttribute 103 (Some 1) 0 established
  = (AI_ERROR,
     AddStatusRecord SHYC00_OPTIONAL_FEATURE_NOT_IMPLEMENTED
                     "Specified attribute is not supported." established) /\
  InternalGetAttribute 103 (Some 7) 4 (Some 0) established
  = (AI_ERROR, Some 7, Some 0,
     AddStatusRecord SHYC00_OPTIONAL_FEATURE_NOT_IMPLEMENTED
                     "Specified attribute is not supported." established) /\
  InternalGetAttribute SQL_ATTR_CONNECTION_DEAD (Some 7) 4 (Some 0)
                       established
  = (AI_SUCCESS, Some SQL_CD_FALSE, Some SQL_IS_INTEGER, established).
Proof.
  destruct (Attribute_access (D := sample_driver) established 103 (Some 1) 0 7 4 (Some 0))
    as (Hset & Hother & Hget & _).
  destruct (Hother ltac:(discriminate)) as [Hset' Hget'].
  split; [exact Hset |]. split; [exact Hset' |]. split; [exact Hget' |].
  apply Hget. reflexivity.
Defined.

(** ** The transfer loops on the instance *)

Lemma SendAll_delivers_witness :
  fst (SendAll payload_123 sender) = 3%nat /\
  outgoing (socket (snd (SendAll payload_123 sender))) = [] ++ payload_123 /\
  connected (snd (SendAll payload_123 sender)) = true.
Proof.
  apply (SendAll_delivers (D := sample_driver) payload_123 sender).
  repeat constructor.
Defined.

Lemma ReceiveAll_delivers_witness :
  fst (ReceiveAll [xaa; xbb; xcc; xdd] 4 receiver)
  = (4%nat, firstn 4 (incoming (socket receiver))) /\
  incoming (socket (snd (ReceiveAll [xaa; xbb; xcc; xdd] 4 receiver)))
  = skipn 4 (incoming (socket receiver)) /\
  connected (snd (ReceiveAll [xaa; xbb; xcc; xdd] 4 receiver)) = true.
Proof.
  apply (ReceiveAll_delivers (D := sample_driver) [xaa; xbb; xcc; xdd]
                             receiver).
  - repeat constructor.
  - vm_compute. repeat constructor.
Defined.

(** ** More of the frame codec on the instance *)

Lemma Send_outcome_witness :
  exists k : nat,
    (k <= length (@frame_image sample_driver payload_123))%nat /\
    outgoing (socket (snd (run_Send payload_123 failing_sender)))
    = outgoing (socket failing_sender)
        ++ firstn k (@frame_image sample_driver payload_123) /\
    fst (run_Send payload_123 failing_sender)
    = (if Nat.eqb k (length (@frame_image sample_driver payload_123))
       then inr tt
       else inl (odbc_error S08S01_LINK_FAILURE
                            "Can not send message due to connection failure")) /\
    connected (snd (run_Send payload_123 failing_sender))
    = Nat.eqb k (length (@frame_image sample_driver payload_123)).
Proof.
  apply (Send_outcome (D := sample_driver) payload_123 failing_sender).
  - reflexivity.
  - vm_compute. discriminate.
Defined.

Lemma Send_twice_witness :
  outgoing (socket (snd (run_Send [x09] (snd (run_Send payload_123 sender)))))
  = outgoing (socket sender)
      ++ @frame_image sample_driver payload_123
      ++ @frame_image sample_driver [x09].
Proof.
  apply (Send_twice (D := sample_driver) payload_123 [x09] sender
                    (snd (run_Send payload_123 sender))).
  - vm_compute. reflexivity.
  - vm_compute. reflexivity.
Defined.

Lemma Receive_returns_next_frame_witness :
  exists hdr : list byte,
    length hdr = 4%nat /\
    load_int32 LittleEndian hdr = Z.of_nat (length payload_123) /\
    incoming (socket receiver)
    = hdr ++ payload_123
          ++ incoming (socket (snd (run_Receive [xaa] receiver))) /\
    outgoing (socket (snd (run_Receive [xaa] receiver)))
    = outgoing (socket receiver).
Proof.
  apply (Receive_returns_next_frame (D := sample_driver) [xaa] payload_123
                                    receiver).
  vm_compute. reflexivity.
Defined.

Lemma Receive_well_formed_frame_witness :
  fst (run_Receive [xaa] receiver) = (inr tt, payload_123) /\
  incoming (socket (snd (run_Receive [xaa] receiver))) = [x07] /\
  connected (snd (run_Receive [xaa] receiver)) = true.
Proof.
  apply (Receive_well_formed_frame (D := sample_driver) [xaa]
                                   [x03; x00; x00; x00] payload_123 [x07]
                                   receiver).
  - reflexivity.
  - reflexivity.
  - reflexivity.
  - reflexivity.
  - repeat constructor.
Defined.

Lemma Send_twice_Receive_twice_witness :
  fst (run_Receive [xaa] two_frame_receiver) = (inr tt, payload_123) /\
  fst (run_Receive [] (snd (run_Receive [xaa] two_frame_receiver)))
  = (inr tt, [x09]) /\
  incoming (socket (snd (run_Receive
                           [] (snd (run_Receive [xaa] two_frame_receiver)))))
  = [x07].
Proof.
  apply (Send_twice_Receive_twice
           (D := sample_driver) payload_123 [x09] [xaa] [] [x07] sender
           (snd (run_Send payload_123 sender))
           (snd (run_Send [x09] (snd (run_Send payload_123 sender))))
           two_frame_receiver).
  - vm_compute. reflexivity.
  - vm_compute. reflexivity.
  - reflexivity.
  - reflexivity.
  - repeat constructor.
Defined.

(** ** More of establishing on the instance *)

Lemma Establish_over_the_wire_witness :
  fst (run_Establish (sample_config VERSION_1_0_0) accepting_node)
  = inr AI_SUCCESS /\
  outgoing (socket (snd (run_Establish (sample_config VERSION_1_0_0)
                                       accepting_node)))
  = [] ++ @frame_image sample_driver
                       (sample_Encode (parser accepting_node) sample_request) /\
  incoming (socket (snd (run_Establish (sample_config VERSION_1_0_0)
                                       accepting_node)))
  = [x55] /\
  connected (snd (run_Establish (sample_config VERSION_1_0_0) accepting_node))
  = true.
Proof.
  apply (Establish_over_the_wire
           (D := sample_driver) (P := sample_codec)
           (sample_config VERSION_1_0_0) accepting_node sample_request
           acceptance [x01; x00; x00; x00] [x01] [x55]).
  - reflexivity.
  - reflexivity.
  - reflexivity.
  - reflexivity.
  - vm_compute. discriminate.
  - repeat constructor.
  - repeat constructor.
  - reflexivity.
  - reflexivity.
  - reflexivity.
  - reflexivity.
Defined.

Lemma Establish_unreadable_parameter_witness :
  fst (run_Establish malformed_config rejecting_node) = inr AI_ERROR /\
  diagnosticRecords (snd (run_Establish malformed_config rejecting_node))
  = diagnosticRecords rejecting_node
      ++ [CreateStatusRecord S01S00_INVALID_CONNECTION_STRING_ATTRIBUTE
                             "Invalid ENFORCE_JOIN_ORDER value" 0 0] /\
  connected (snd (run_Establish malformed_config rejecting_node)) = false /\
  isOpen (socket (snd (run_Establish malformed_config rejecting_node)))
  = false /\
  outgoing (socket (snd (run_Establish malformed_config rejecting_node)))
  = outgoing (socket rejecting_node) /\
  incoming (socket (snd (run_Establish malformed_config rejecting_node)))
  = incoming (socket rejecting_node).
Proof.
  apply (Establish_unreadable_parameter
           (D := sample_driver) (P := sample_codec) malformed_config
           rejecting_node (mkIgniteError "Invalid ENFORCE_JOIN_ORDER value")).
  - reflexivity.
  - reflexivity.
  - reflexivity.
Defined.

Lemma Establish_exchange_throws_witness :
  fst (run_Establish (sample_config VERSION_1_0_0) silent_node)
  = inr AI_ERROR /\
  diagnosticRecords (snd (run_Establish (sample_config VERSION_1_0_0)
                                        silent_node))
  = diagnosticRecords silent_node
      ++ [CreateStatusRecord S08S01_LINK_FAILURE
                             "Can not receive message header" 0 0] /\
  connected (snd (run_Establish (sample_config VERSION_1_0_0) silent_node))
  = false /\
  isOpen (socket (snd (run_Establish (sample_config VERSION_1_0_0)
                                     silent_node)))
  = false.
Proof.
  apply (Establish_exchange_throws
           (D := sample_driver) (P := sample_codec)
           (sample_config VERSION_1_0_0) silent_node silent_node_opened
           silent_node_left sample_request
           (odbc_error S08S01_LINK_FAILURE "Can not receive message header")).
  - reflexivity.
  - vm_compute. reflexivity.
  - reflexivity.
  - reflexivity.
  - vm_compute. reflexivity.
Defined.

Lemma Establish_cannot_connect_witness :
  fst (run_Establish (sample_config VERSION_1_0_0) unreachable_host)
  = inr AI_ERROR /\
  diagnosticRecords (snd (run_Establish (sample_config VERSION_1_0_0)
                                        unreachable_host))
  = diagnosticRecords unreachable_host
      ++ [CreateStatusRecord S08001_CANNOT_CONNECT
                             "Failed to establish connection with the host."
                             0 0] /\
  connected (snd (run_Establish (sample_config VERSION_1_0_0)
                                unreachable_host)) = false /\
  isOpen (socket (snd (run_Establish (sample_config VERSION_1_0_0)
                                     unreachable_host))) = false /\
  outgoing (socket (snd (run_Establish (sample_config VERSION_1_0_0)
                                       unreachable_host)))
  = outgoing (socket unreachable_host) /\
  incoming (socket (snd (run_Establish (sample_config VERSION_1_0_0)
                                       unreachable_host)))
  = incoming (socket unreachable_host) /\
  config (snd (run_Establish (sample_config VERSION_1_0_0) unreachable_host))
  = sample_config VERSION_1_0_0.
Proof.
  apply (Establish_cannot_connect
           (D := sample_driver) (P := sample_codec)
           (sample_config VERSION_1_0_0) unreachable_host).
  - reflexivity.
  - reflexivity.
Defined.

(** ** The open socket on the instance *)

Lemma Socket_open_iff_connected_witness :
  isOpen (socket (snd (SendAll payload_123 failing_sender)))
  = connected (snd (SendAll payload_123 failing_sender)) /\
  isOpen (socket (snd (ReceiveAll [x00; x00] 2 failing_sender)))
  = connected (snd (ReceiveAll [x00; x00] 2 failing_sender)) /\
  isOpen (socket (snd (run_Send payload_123 failing_sender)))
  = connected (snd (run_Send payload_123 failing_sender)) /\
  isOpen (socket (snd (run_Receive [] failing_sender)))
  = connected (snd (run_Receive [] failing_sender)) /\
  isOpen (socket (snd (run_Establish other_config failing_sender)))
  = connected (snd (run_Establish other_config failing_sender)) /\
  isOpen (socket (snd (@InternalRelease sample_driver failing_sender)))
  = connected (snd (@InternalRelease sample_driver failing_sender)) /\
  isOpen (socket (Close failing_sender)) = connected (Close failing_sender) /\
  isOpen (socket (snd (InternalGetAttribute SQL_ATTR_CONNECTION_DEAD (Some 0)
                                            4 None failing_sender)))
  = connected (snd (InternalGetAttribute SQL_ATTR_CONNECTION_DEAD (Some 0)
                                         4 None failing_sender)) /\
  isOpen (socket (snd (InternalSetAttribute SQL_ATTR_CONNECTION_DEAD (Some 0)
                                            4 failing_sender)))
  = connected (snd (InternalSetAttribute SQL_ATTR_CONNECTION_DEAD (Some 0)
                                         4 failing_sender)).
Proof.
  apply (Socket_open_iff_connected
           (D := sample_driver) (P := sample_codec) failing_sender payload_123
           [x00; x00] payload_123 [] other_config SQL_ATTR_CONNECTION_DEAD 4
           (Some 0) None).
  reflexivity.
Defined.
